(** * Expense management: tenant-scoped data access and the expense workflow

    A shallow embedding of the server side of the application:
    - [src/lib/tenant-guard.ts]   the [TenantPrisma] wrapper,
    - [lib/api-helpers]           response helpers, [createApiHandler],
                                  [createServerAction],
    - [app/api/company/create]    company onboarding,
    - [app/api/expenses]          expense creation over JSON,
    - [app/api/expenses/[id]/approve]  approval,
    - [lib/actions/expense-actions], the project actions,
    - [app/api/projects]          project creation over JSON,
    - [src/lib/auth.ts], [src/lib/server-auth.ts]  signing in, sessions, roles,
    - [src/middleware.ts]         the route guard,
    - the presigned-URL route with [src/lib/file-upload.ts], and
      [src/hooks/use-toast.ts].

    The database is a record of tables (lists of rows, in insertion order);
    code that awaits the ORM becomes a function of the database that
    returns an outcome (a value or a thrown error) and the new database. *)

From Stdlib Require Import Bool List String Ascii ZArith Lia PeanoNat.
From Stdlib Require Import Floats.SpecFloat.
From Stdlib Require Import DecimalString.
Import ListNotations.
Local Open Scope string_scope.
Local Open Scope list_scope.

Set Implicit Arguments.
Set Warnings "-register-all".

(* ================================================================== *)
(** * JavaScript values *)
(* ================================================================== *)

(** A JavaScript Number is an IEEE-754 binary64: [spec_float] with
    precision 53 and maximal exponent 1024. *)
Module Number.
Definition prec : Z := 53.
Definition emax : Z := 1024.
Definition t := spec_float.

Definition NaN : t := S754_nan.
Definition zero : t := S754_zero false.

(** [Number(z)] for an integer or a bigint [z]: the nearest double. *)
Definition of_Z (z : Z) : t := binary_normalize prec emax z 0 false.

Definition mul (x y : t) : t := SFmul prec emax x y.
Definition div (x y : t) : t := SFdiv prec emax x y.
(** [x <= y], [x > y], [x == y]: false as soon as one side is NaN. *)
Definition leb (x y : t) : bool := SFleb x y.
Definition gtb (x y : t) : bool := SFltb y x.
Definition eqb (x y : t) : bool := SFeqb x y.

Definition isNaN (x : t) : bool :=
  match x with S754_nan => true | _ => false end.

(** The integer [floor (x + 1/2)] of a finite [x = (-1)^s * m * 2^e],
    computed exactly. *)
Definition round_half_up (s : bool) (m : positive) (e : Z) : Z :=
  let n := if s then Z.neg m else Z.pos m in
  match e with
  | Zneg k => (2 * n + 2 ^ Z.pos k) / 2 ^ (Z.pos k + 1)
  | _ => n * 2 ^ e
  end.

(** [Math.round x]: the integer nearest to [x], ties towards +infinity;
    NaN, the infinities and the zeros are returned as they are, and a
    result of zero keeps the sign of [x]. *)
Definition Math_round (x : t) : t :=
  match x with
  | S754_finite s m e =>
      let n := round_half_up s m e in
      if (n =? 0)%Z then S754_zero s else of_Z n
  | _ => x
  end.

(** [Number.isInteger x]. *)
Definition isInteger (x : t) : bool :=
  match x with
  | S754_zero _ => true
  | S754_finite _ m (Zneg k) => (Z.pos m mod 2 ^ Z.pos k =? 0)%Z
  | S754_finite _ _ _ => true
  | _ => false
  end.

(** The mathematical value of an integral Number. *)
Definition to_Z (x : t) : Z :=
  match x with
  | S754_finite s m e =>
      let n := if s then Z.neg m else Z.pos m in
      match e with
      | Zneg k => n / 2 ^ Z.pos k
      | _ => n * 2 ^ e
      end
  | _ => 0%Z
  end.

(** [BigInt(x)] for a Number [x]: the integer [x] denotes, and a
    RangeError ([None]) when [x] is not an integer. *)
Definition BigInt (x : t) : option Z :=
  if isInteger x then Some (to_Z x) else None.
End Number.

(** ** Strings *)

(** A JavaScript string is a sequence of UTF-16 code units.  A character
    of a [string] here stands for one code unit, so the strings of the
    model are those whose code units are below 256, and [String.length] is
    their [length]. *)

(** [s.includes(sub)] *)
Fixpoint includes (s sub : string) : bool :=
  if String.prefix sub s then true
  else match s with
       | EmptyString => false
       | String _ rest => includes rest sub
       end.

(** [s.split(sep)] for a one-character separator: the pieces between the
    separators, never an empty list. *)
Fixpoint split (sep : ascii) (s : string) : list string :=
  match s with
  | EmptyString => [EmptyString]
  | String c rest =>
      if Ascii.eqb c sep then EmptyString :: split sep rest
      else match split sep rest with
           | piece :: pieces => String c piece :: pieces
           | [] => [String c EmptyString]
           end
  end.

(** [a.pop()]: the last element, undefined ([None]) on an empty array. *)
Definition pop {A} (a : list A) : option A :=
  match rev a with
  | [] => None
  | x :: _ => Some x
  end.

Definition lower (c : ascii) : ascii :=
  let n := nat_of_ascii c in
  if (65 <=? n)%nat && (n <=? 90)%nat then ascii_of_nat (n + 32) else c.

(** [[A-Z]] under the flag [i]. *)
Definition is_letter (c : ascii) : bool :=
  let n := nat_of_ascii (lower c) in (97 <=? n)%nat && (n <=? 122)%nat.

(** [s.toLowerCase()] on ASCII letters. *)
Fixpoint toLowerCase (s : string) : string :=
  match s with
  | EmptyString => EmptyString
  | String c rest => String (lower c) (toLowerCase rest)
  end.

(** ** parseFloat *)

Definition is_digit (c : ascii) : bool :=
  let n := nat_of_ascii c in (48 <=? n)%nat && (n <=? 57)%nat.

Definition digit_value (c : ascii) : N := N.of_nat (nat_of_ascii c - 48).

(** [[A-Z0-9]] under the flag [i]. *)
Definition is_alnum (c : ascii) : bool := is_letter c || is_digit c.

(** White space, among the code units below 256: the space, the tab to
    the carriage return, and the no-break space.  It is what [parseFloat]
    skips and what [\s] matches. *)
Definition is_white_space (c : ascii) : bool :=
  let n := nat_of_ascii c in
  (n =? 32)%nat || ((9 <=? n)%nat && (n <=? 13)%nat) || (n =? 160)%nat.

Fixpoint trimStart (s : string) : string :=
  match s with
  | String c rest => if is_white_space c then trimStart rest else s
  | EmptyString => s
  end.

(** The longest run of decimal digits [s] starts with: the number they
    write after the digits already read ([acc]), how many they are, and
    what follows them. *)
Fixpoint take_digits (s : string) (acc : N) (n : nat) : N * nat * string :=
  match s with
  | String c rest =>
      if is_digit c then take_digits rest (10 * acc + digit_value c)%N (S n)
      else (acc, n, s)
  | EmptyString => (acc, n, s)
  end.

(** An exponent part [e], [e+] or [e-] followed by at least one digit, if
    [s] starts with one; 0 otherwise. *)
Definition exponent_part (s : string) : Z :=
  match s with
  | String c rest =>
      if Ascii.eqb c "e" || Ascii.eqb c "E" then
        let '(neg, digits) :=
          match rest with
          | String "-" r => (true, r)
          | String "+" r => (false, r)
          | _ => (false, rest)
          end in
        let '(v, n, _) := take_digits digits 0 0 in
        match n with
        | O => 0%Z
        | S _ => if neg then (- Z.of_N v)%Z else Z.of_N v
        end
      else 0%Z
  | EmptyString => 0%Z
  end.

(** The double nearest to [(-1)^neg * m * 10^e]. *)
Definition of_decimal (neg : bool) (m : N) (e : Z) : Number.t :=
  match m with
  | N0 => S754_zero neg
  | Npos p =>
      match e with
      | Zneg k =>
          SFdiv Number.prec Number.emax
                (S754_finite neg p 0) (S754_finite false (Pos.pow 10 k) 0)
      | _ =>
          let x := Number.of_Z (Z.pos p * 10 ^ e) in
          if neg then SFopp x else x
      end
  end.

(** [parseFloat(s)]: leading white space is skipped, then the longest
    prefix that is a decimal literal (sign, [Infinity], digits, fraction,
    exponent) is read and whatever follows it is ignored; NaN when there
    is no such prefix. *)
Definition parseFloat (s : string) : Number.t :=
  let s := trimStart s in
  let '(neg, s) :=
    match s with
    | String "-" r => (true, r)
    | String "+" r => (false, r)
    | _ => (false, s)
    end in
  if String.prefix "Infinity" s then S754_infinity neg
  else
    let '(i, ni, s1) := take_digits s 0 0 in
    match s1 with
    | String "." r =>
        let '(m, nf, s2) := take_digits r i 0 in
        match (ni + nf)%nat with
        | O => Number.NaN
        | S _ => of_decimal neg m (exponent_part s2 - Z.of_nat nf)
        end
    | _ =>
        match ni with
        | O => Number.NaN
        | S _ => of_decimal neg i (exponent_part s1)
        end
    end.

(** Strings of decimal digits only. *)
Fixpoint all_digits (s : string) : bool :=
  match s with
  | EmptyString => true
  | String c rest => is_digit c && all_digits rest
  end.

(** Text that cannot continue a number written in digits only: it is
    empty, or starts with something other than a digit, a point or an
    exponent mark. *)
Definition not_numeric (s : string) : bool :=
  match s with
  | EmptyString => true
  | String c _ =>
      negb (is_digit c || Ascii.eqb c "." || Ascii.eqb c "e" || Ascii.eqb c "E")
  end.

(** The values a handler passes around untyped: request bodies, response
    bodies, audit metadata. *)
Inductive jsval :=
| JUndefined
| JNull
| JBool (b : bool)
| JNum (x : Number.t)
| JBigInt (z : Z)
| JStr (s : string)
| JArr (items : list jsval)
| JObj (fields : list (string * jsval)).

(** Property lookup [o.k] (the last definition of a key wins, as in an
    object literal). *)
Fixpoint get_field (k : string) (fields : list (string * jsval)) : option jsval :=
  match fields with
  | [] => None
  | (k', v) :: rest =>
      match get_field k rest with
      | Some v' => Some v'
      | None => if String.eqb k k' then Some v else None
      end
  end.

Definition has_key (k : string) (v : jsval) : bool :=
  match v with
  | JObj fields => existsb (fun kv => String.eqb k (fst kv)) fields
  | _ => false
  end.

Definition prop (k : string) (v : jsval) : jsval :=
  match v with
  | JObj fields => match get_field k fields with Some x => x | None => JUndefined end
  | _ => JUndefined
  end.

(** JavaScript truthiness. *)
Definition truthy (v : jsval) : bool :=
  match v with
  | JUndefined | JNull => false
  | JBool b => b
  | JNum x =>
      match x with
      | S754_zero _ | S754_nan => false
      | _ => true
      end
  | JBigInt z => negb (z =? 0)%Z
  | JStr s => negb (String.eqb s "")
  | JArr _ | JObj _ => true
  end.

(* ================================================================== *)
(** * The data model *)
(* ================================================================== *)

Inductive MembershipRole := ADMIN | MANAGER | EMPLOYEE.
Inductive ExpenseStatus := PENDING | APPROVED | REJECTED | ESCALATED.
Inductive ApprovalDecision := APPROVE | REJECT.
Inductive ApprovalType := MAJORITY | PERCENTAGE.

Definition role_name (r : MembershipRole) : string :=
  match r with ADMIN => "ADMIN" | MANAGER => "MANAGER" | EMPLOYEE => "EMPLOYEE" end.

Definition status_name (s : ExpenseStatus) : string :=
  match s with
  | PENDING => "PENDING" | APPROVED => "APPROVED"
  | REJECTED => "REJECTED" | ESCALATED => "ESCALATED"
  end.

Definition decision_name (d : ApprovalDecision) : string :=
  match d with APPROVE => "APPROVE" | REJECT => "REJECT" end.

Definition type_name (t : ApprovalType) : string :=
  match t with MAJORITY => "MAJORITY" | PERCENTAGE => "PERCENTAGE" end.

Definition role_eqb (a b : MembershipRole) : bool :=
  match a, b with
  | ADMIN, ADMIN | MANAGER, MANAGER | EMPLOYEE, EMPLOYEE => true
  | _, _ => false
  end.

Definition status_eqb (a b : ExpenseStatus) : bool :=
  match a, b with
  | PENDING, PENDING | APPROVED, APPROVED
  | REJECTED, REJECTED | ESCALATED, ESCALATED => true
  | _, _ => false
  end.

(** Modelled from the spec: the Prisma schema (prisma/schema.prisma) is not
    among the sources.  The rows below carry the columns that the spec's
    data model lists and that the handlers and prisma/seed.ts read or
    write; ids are the strings the ORM generates, BigInt columns are
    integers, dates are kept as the strings they were built from. *)
Record Company := mkCompany {
  company_id : string;
  company_name : string;
  company_baseCurrency : string }.

Record User := mkUser {
  user_id : string;
  user_email : string;
  user_name : string;
  user_passwordHash : string }.

Record Membership := mkMembership {
  membership_id : string;
  membership_userId : string;
  membership_companyId : string;
  membership_role : MembershipRole }.

Record Project := mkProject {
  project_id : string;
  project_companyId : string;
  project_name : string;
  project_description : option string;
  project_active : bool }.

Record Expense := mkExpense {
  expense_id : string;
  expense_projectId : string;
  expense_employeeId : string;
  expense_amountMinor : Z;
  expense_currency : string;
  expense_description : string;
  expense_category : string;
  expense_paidBy : string;
  expense_expenseDate : string;
  expense_status : ExpenseStatus }.

Record ReceiptFile := mkReceiptFile {
  receipt_id : string;
  receipt_expenseId : string;
  receipt_url : string;
  receipt_mime : string;
  receipt_size : Z }.

Record Approval := mkApproval {
  approval_id : string;
  approval_expenseId : string;
  approval_managerId : string;
  approval_decision : ApprovalDecision;
  approval_note : option string;
  approval_decidedAt : string }.

Record ApprovalPolicy := mkApprovalPolicy {
  policy_id : string;
  policy_companyId : string;
  policy_type : ApprovalType;
  policy_thresholdPercent : option Z;
  policy_maxPerEmployeeMinor : option Z;
  policy_largeExpenseThresholdMinor : option Z;
  policy_requireCeoForLarge : bool }.

Record AuditLog := mkAuditLog {
  audit_id : string;
  audit_companyId : string;
  audit_actorUserId : string;
  audit_action : string;
  audit_entity : string;
  audit_entityId : string;
  audit_meta : jsval }.

Record ExchangeRateSnapshot := mkExchangeRateSnapshot {
  snapshot_id : string;
  snapshot_companyId : string;
  snapshot_baseCurrency : string;
  snapshot_rates : jsval }.

(** The database: one list per table, and the state of the id generator. *)
Record DB := mkDB {
  companies : list Company;
  users : list User;
  memberships : list Membership;
  projects : list Project;
  expenses : list Expense;
  receiptFiles : list ReceiptFile;
  approvals : list Approval;
  approvalPolicies : list ApprovalPolicy;
  auditLogs : list AuditLog;
  exchangeRateSnapshots : list ExchangeRateSnapshot;
  next_id : nat }.

Definition empty_db : DB := mkDB [] [] [] [] [] [] [] [] [] [] 0.

(** The id the ORM gives the [n]-th row it creates ([@default(cuid())]):
    a [c] and then letters and digits, here the digits of a counter. *)
Definition cuid (n : nat) : string :=
  "c00000000" ++ NilEmpty.string_of_uint (Nat.to_uint n).

Definition with_companies (f : list Company -> list Company) (db : DB) : DB :=
  mkDB (f (companies db)) (users db) (memberships db) (projects db) (expenses db)
       (receiptFiles db) (approvals db) (approvalPolicies db) (auditLogs db)
       (exchangeRateSnapshots db) (next_id db).
Definition with_users (f : list User -> list User) (db : DB) : DB :=
  mkDB (companies db) (f (users db)) (memberships db) (projects db) (expenses db)
       (receiptFiles db) (approvals db) (approvalPolicies db) (auditLogs db)
       (exchangeRateSnapshots db) (next_id db).
Definition with_memberships (f : list Membership -> list Membership) (db : DB) : DB :=
  mkDB (companies db) (users db) (f (memberships db)) (projects db) (expenses db)
       (receiptFiles db) (approvals db) (approvalPolicies db) (auditLogs db)
       (exchangeRateSnapshots db) (next_id db).
Definition with_projects (f : list Project -> list Project) (db : DB) : DB :=
  mkDB (companies db) (users db) (memberships db) (f (projects db)) (expenses db)
       (receiptFiles db) (approvals db) (approvalPolicies db) (auditLogs db)
       (exchangeRateSnapshots db) (next_id db).
Definition with_expenses (f : list Expense -> list Expense) (db : DB) : DB :=
  mkDB (companies db) (users db) (memberships db) (projects db) (f (expenses db))
       (receiptFiles db) (approvals db) (approvalPolicies db) (auditLogs db)
       (exchangeRateSnapshots db) (next_id db).
Definition with_receiptFiles (f : list ReceiptFile -> list ReceiptFile) (db : DB) : DB :=
  mkDB (companies db) (users db) (memberships db) (projects db) (expenses db)
       (f (receiptFiles db)) (approvals db) (approvalPolicies db) (auditLogs db)
       (exchangeRateSnapshots db) (next_id db).
Definition with_approvals (f : list Approval -> list Approval) (db : DB) : DB :=
  mkDB (companies db) (users db) (memberships db) (projects db) (expenses db)
       (receiptFiles db) (f (approvals db)) (approvalPolicies db) (auditLogs db)
       (exchangeRateSnapshots db) (next_id db).
Definition with_approvalPolicies (f : list ApprovalPolicy -> list ApprovalPolicy) (db : DB) : DB :=
  mkDB (companies db) (users db) (memberships db) (projects db) (expenses db)
       (receiptFiles db) (approvals db) (f (approvalPolicies db)) (auditLogs db)
       (exchangeRateSnapshots db) (next_id db).
Definition with_auditLogs (f : list AuditLog -> list AuditLog) (db : DB) : DB :=
  mkDB (companies db) (users db) (memberships db) (projects db) (expenses db)
       (receiptFiles db) (approvals db) (approvalPolicies db) (f (auditLogs db))
       (exchangeRateSnapshots db) (next_id db).
Definition with_exchangeRateSnapshots
  (f : list ExchangeRateSnapshot -> list ExchangeRateSnapshot) (db : DB) : DB :=
  mkDB (companies db) (users db) (memberships db) (projects db) (expenses db)
       (receiptFiles db) (approvals db) (approvalPolicies db) (auditLogs db)
       (f (exchangeRateSnapshots db)) (next_id db).
Definition with_next_id (n : nat) (db : DB) : DB :=
  mkDB (companies db) (users db) (memberships db) (projects db) (expenses db)
       (receiptFiles db) (approvals db) (approvalPolicies db) (auditLogs db)
       (exchangeRateSnapshots db) n.

(* ================================================================== *)
(** * The ORM's queries *)
(* ================================================================== *)

(** Column values a filter can be compared with. *)
Inductive scalar :=
| SStr (s : string)
| SInt (z : Z)
| SBool (b : bool)
| SNull.

Definition scalar_eqb (a b : scalar) : bool :=
  match a, b with
  | SStr x, SStr y => String.eqb x y
  | SInt x, SInt y => (x =? y)%Z
  | SBool x, SBool y => Bool.eqb x y
  | SNull, SNull => true
  | _, _ => false
  end.

(** The order [orderBy] sorts a column by (nulls first). *)
Definition scalar_leb (a b : scalar) : bool :=
  match a, b with
  | SNull, _ => true
  | _, SNull => false
  | SStr x, SStr y => String.leb x y
  | SInt x, SInt y => (x <=? y)%Z
  | SBool x, SBool y => implb x y
  | _, _ => true
  end.

(** What a filter on one column may ask: [k: v], [k: {not: v}],
    [k: {in: [...]}]. *)
Inductive ScalarFilter :=
| Equals (v : scalar)
| NotEquals (v : scalar)
| InList (vs : list scalar).

Definition scalar_filter_ok (f : ScalarFilter) (x : scalar) : bool :=
  match f with
  | Equals v => scalar_eqb x v
  | NotEquals v => negb (scalar_eqb x v)
  | InList vs => existsb (scalar_eqb x) vs
  end.

(** One property of a [where] object.  The object itself is the list of its
    properties; the ORM takes the conjunction of them. *)
Inductive WhereProp :=
| Field (name : string) (f : ScalarFilter)
| Relation (name : string) (w : list WhereProp)
| AND (ws : list (list WhereProp))
| OR (ws : list (list WhereProp))
| NOT (ws : list (list WhereProp)).

Definition WhereInput := list WhereProp.

Definition prop_key (p : WhereProp) : string :=
  match p with
  | Field k _ => k
  | Relation k _ => k
  | AND _ => "AND"
  | OR _ => "OR"
  | NOT _ => "NOT"
  end.

(** The object literal [{ ...w, k: v }]: the properties of [w] with [k]
    defined last, so an earlier definition of [k] is lost.  (In JavaScript
    an overridden key keeps its place in the enumeration order; the order
    of the properties of a [where] object is not observable in a query.) *)
Definition spread_with (w : WhereInput) (p : WhereProp) : WhereInput :=
  filter (fun q => negb (String.eqb (prop_key q) (prop_key p))) w ++ [p].

(** [args?.where] spread: nothing when the arguments or the filter are
    missing. *)
Definition or_empty (w : option WhereInput) : WhereInput :=
  match w with Some x => x | None => [] end.

(** A row as a filter sees it: its columns, and the rows its to-one
    relations lead to. *)
Inductive View :=
| mkView (column : string -> option scalar) (related : string -> option View).

Definition column (v : View) : string -> option scalar :=
  match v with mkView c _ => c end.
Definition related (v : View) : string -> option View :=
  match v with mkView _ r => r end.

(** Whether a row satisfies a [where] object. *)
Fixpoint matches_prop (v : View) (p : WhereProp) {struct p} : bool :=
  match p with
  | Field k f =>
      match column v k with
      | Some x => scalar_filter_ok f x
      | None => false
      end
  | Relation k w =>
      match related v k with
      | Some v' => forallb (matches_prop v') w
      | None => false
      end
  | AND ws => forallb (fun w => forallb (matches_prop v) w) ws
  | OR ws => existsb (fun w => forallb (matches_prop v) w) ws
  | NOT ws => negb (existsb (fun w => forallb (matches_prop v) w) ws)
  end.

Definition matches (v : View) (w : WhereInput) : bool :=
  forallb (matches_prop v) w.

(** ** Views of the tables *)

Definition no_relation : string -> option View := fun _ => None.

Definition company_view (c : Company) : View :=
  mkView (fun k =>
            if String.eqb k "id" then Some (SStr (company_id c))
            else if String.eqb k "name" then Some (SStr (company_name c))
            else if String.eqb k "baseCurrency" then Some (SStr (company_baseCurrency c))
            else None)
         no_relation.

Definition user_view (u : User) : View :=
  mkView (fun k =>
            if String.eqb k "id" then Some (SStr (user_id u))
            else if String.eqb k "email" then Some (SStr (user_email u))
            else if String.eqb k "name" then Some (SStr (user_name u))
            else None)
         no_relation.

Definition find_company (db : DB) (id : string) : option Company :=
  find (fun c => String.eqb (company_id c) id) (companies db).
Definition find_user (db : DB) (id : string) : option User :=
  find (fun u => String.eqb (user_id u) id) (users db).
Definition find_project (db : DB) (id : string) : option Project :=
  find (fun p => String.eqb (project_id p) id) (projects db).

Definition project_columns (p : Project) (k : string) : option scalar :=
  if String.eqb k "id" then Some (SStr (project_id p))
  else if String.eqb k "companyId" then Some (SStr (project_companyId p))
  else if String.eqb k "name" then Some (SStr (project_name p))
  else if String.eqb k "description" then
    Some (match project_description p with Some d => SStr d | None => SNull end)
  else if String.eqb k "active" then Some (SBool (project_active p))
  else None.

Definition project_view (db : DB) (p : Project) : View :=
  mkView (project_columns p)
         (fun k => if String.eqb k "company"
                   then option_map company_view (find_company db (project_companyId p))
                   else None).

Definition expense_columns (e : Expense) (k : string) : option scalar :=
  if String.eqb k "id" then Some (SStr (expense_id e))
  else if String.eqb k "projectId" then Some (SStr (expense_projectId e))
  else if String.eqb k "employeeId" then Some (SStr (expense_employeeId e))
  else if String.eqb k "amountMinor" then Some (SInt (expense_amountMinor e))
  else if String.eqb k "currency" then Some (SStr (expense_currency e))
  else if String.eqb k "description" then Some (SStr (expense_description e))
  else if String.eqb k "category" then Some (SStr (expense_category e))
  else if String.eqb k "paidBy" then Some (SStr (expense_paidBy e))
  else if String.eqb k "expenseDate" then Some (SStr (expense_expenseDate e))
  else if String.eqb k "status" then Some (SStr (status_name (expense_status e)))
  else None.

Definition expense_view (db : DB) (e : Expense) : View :=
  mkView (expense_columns e)
         (fun k => if String.eqb k "project"
                   then option_map (project_view db) (find_project db (expense_projectId e))
                   else if String.eqb k "employee"
                   then option_map user_view (find_user db (expense_employeeId e))
                   else None).

Definition membership_view (db : DB) (m : Membership) : View :=
  mkView (fun k =>
            if String.eqb k "id" then Some (SStr (membership_id m))
            else if String.eqb k "userId" then Some (SStr (membership_userId m))
            else if String.eqb k "companyId" then Some (SStr (membership_companyId m))
            else if String.eqb k "role" then Some (SStr (role_name (membership_role m)))
            else None)
         (fun k => if String.eqb k "user"
                   then option_map user_view (find_user db (membership_userId m))
                   else if String.eqb k "company"
                   then option_map company_view (find_company db (membership_companyId m))
                   else None).

Definition opt_int (o : option Z) : scalar :=
  match o with Some z => SInt z | None => SNull end.

Definition policy_view (db : DB) (p : ApprovalPolicy) : View :=
  mkView (fun k =>
            if String.eqb k "id" then Some (SStr (policy_id p))
            else if String.eqb k "companyId" then Some (SStr (policy_companyId p))
            else if String.eqb k "type" then Some (SStr (type_name (policy_type p)))
            else if String.eqb k "thresholdPercent" then Some (opt_int (policy_thresholdPercent p))
            else if String.eqb k "maxPerEmployeeMinor" then Some (opt_int (policy_maxPerEmployeeMinor p))
            else if String.eqb k "largeExpenseThresholdMinor"
            then Some (opt_int (policy_largeExpenseThresholdMinor p))
            else if String.eqb k "requireCeoForLarge" then Some (SBool (policy_requireCeoForLarge p))
            else None)
         (fun k => if String.eqb k "company"
                   then option_map company_view (find_company db (policy_companyId p))
                   else None).

Definition audit_view (db : DB) (a : AuditLog) : View :=
  mkView (fun k =>
            if String.eqb k "id" then Some (SStr (audit_id a))
            else if String.eqb k "companyId" then Some (SStr (audit_companyId a))
            else if String.eqb k "actorUserId" then Some (SStr (audit_actorUserId a))
            else if String.eqb k "action" then Some (SStr (audit_action a))
            else if String.eqb k "entity" then Some (SStr (audit_entity a))
            else if String.eqb k "entityId" then Some (SStr (audit_entityId a))
            else None)
         (fun k => if String.eqb k "company"
                   then option_map company_view (find_company db (audit_companyId a))
                   else None).

Definition snapshot_view (db : DB) (s : ExchangeRateSnapshot) : View :=
  mkView (fun k =>
            if String.eqb k "id" then Some (SStr (snapshot_id s))
            else if String.eqb k "companyId" then Some (SStr (snapshot_companyId s))
            else if String.eqb k "baseCurrency" then Some (SStr (snapshot_baseCurrency s))
            else None)
         (fun k => if String.eqb k "company"
                   then option_map company_view (find_company db (snapshot_companyId s))
                   else None).

(** ** The delegates [prisma.<model>] *)

(** A model of the client: its table and how a filter sees its rows. *)
Record Model (R : Type) := mkModel {
  table : DB -> list R;
  view : DB -> R -> View }.

Definition companyModel := mkModel companies (fun _ => company_view).
Definition userModel := mkModel users (fun _ => user_view).
Definition projectModel := mkModel projects project_view.
Definition expenseModel := mkModel expenses expense_view.
Definition membershipModel := mkModel memberships membership_view.
Definition approvalPolicyModel := mkModel approvalPolicies policy_view.
Definition auditLogModel := mkModel auditLogs audit_view.
Definition exchangeRateSnapshotModel := mkModel exchangeRateSnapshots snapshot_view.

Inductive SortOrder := asc | desc.

(** What [include] and [select] ask for beside the columns of a row: the
    relations to load with it, and for each of them what to load with its
    rows in turn ([rel: true], [rel: { include: ... }],
    [rel: { select: ... }]).  (A [select] also leaves columns out; the rows
    of the model keep all their columns.) *)
Inductive Relations := With (names : list (string * Relations)).

(** Neither [include] nor [select]. *)
Definition columns_only : Relations := With [].

(** The arguments of [findMany], [findFirst] and [count].  A negative
    [take] takes from the end. *)
Record FindManyArgs := mkFindManyArgsWith {
  where_ : option WhereInput;
  orderBy : option (string * SortOrder);
  cursor : option WhereInput;
  skip : option nat;
  take : option Z;
  distinct : list string;
  include : Relations }.

(** [{ where, orderBy, skip, take }] *)
Abbreviation mkFindManyArgs w o s t := (mkFindManyArgsWith w o None s t [] columns_only).

(** The arguments of [findUnique], [update], [delete]. *)
Record UniqueArgs := mkUniqueArgsWith {
  unique_where : WhereInput;
  unique_include : Relations }.

(** [{ where }] *)
Abbreviation mkUniqueArgs w := (mkUniqueArgsWith w columns_only).

Module prisma.
Section Delegate.
  Context {R : Type} (M : Model R).

Definition sort_key (db : DB) (k : string) (r : R) : scalar :=
  match column (view M db r) k with Some x => x | None => SNull end.

Fixpoint insert_sorted (le : R -> R -> bool) (x : R) (l : list R) : list R :=
  match l with
  | [] => [x]
  | y :: rest => if le x y then x :: l else y :: insert_sorted le x rest
  end.

Definition sort_rows (le : R -> R -> bool) (l : list R) : list R :=
  fold_right (insert_sorted le) [] l.

Definition order_rows (db : DB) (o : option (string * SortOrder)) (l : list R) : list R :=
  match o with
  | None => l
  | Some (k, asc) => sort_rows (fun a b => scalar_leb (sort_key db k a) (sort_key db k b)) l
  | Some (k, desc) => sort_rows (fun a b => scalar_leb (sort_key db k b) (sort_key db k a)) l
  end.

Definition key_of (db : DB) (columns : list string) (r : R) : list scalar :=
  map (fun k => sort_key db k r) columns.

Fixpoint same_key (a b : list scalar) : bool :=
  match a, b with
  | [], [] => true
  | x :: a', y :: b' => scalar_eqb x y && same_key a' b'
  | _, _ => false
  end.

(** [distinct: columns]: of the rows that agree on the columns, the
    first. *)
Fixpoint distinct_rows (key : R -> list scalar) (seen : list (list scalar)) (l : list R)
  : list R :=
  match l with
  | [] => []
  | x :: rest =>
      if existsb (same_key (key x)) seen then distinct_rows key seen rest
      else x :: distinct_rows key (key x :: seen) rest
  end.

Definition distinct_on (db : DB) (columns : list string) (l : list R) : list R :=
  match columns with
  | [] => l
  | _ => distinct_rows (key_of db columns) [] l
  end.

(** [cursor]: the rows from the one the cursor identifies on; none when
    it identifies no row of the list. *)
Fixpoint from_cursor (at_cursor : R -> bool) (l : list R) : list R :=
  match l with
  | [] => []
  | x :: rest => if at_cursor x then l else from_cursor at_cursor rest
  end.

Definition window (db : DB) (c : option WhereInput) (s n : option nat) (l : list R)
  : list R :=
  let l := match c with
           | Some w => from_cursor (fun r => matches (view M db r) w) l
           | None => l
           end in
  let l := match s with Some k => skipn k l | None => l end in
  match n with Some k => firstn k l | None => l end.

(** [cursor], [skip] and [take]; with a negative [take] the list is read
    from its end. *)
Definition page (db : DB) (args : FindManyArgs) (l : list R) : list R :=
  match take args with
  | Some (Zneg k) =>
      rev (window db (cursor args) (skip args) (Some (Pos.to_nat k)) (rev l))
  | Some t => window db (cursor args) (skip args) (Some (Z.to_nat t)) l
  | None => window db (cursor args) (skip args) None l
  end.

(** [prisma.<model>.findMany(args)]: the rows it selects, by filter, sort,
    distinct, cursor, skip and take. *)
Definition findMany (args : FindManyArgs) (db : DB) : list R :=
  page db args
    (distinct_on db (distinct args)
       (order_rows db (orderBy args)
          (filter (fun r => matches (view M db r) (or_empty (where_ args))) (table M db)))).

(** [prisma.<model>.findFirst(args)]. *)
Definition findFirst (args : FindManyArgs) (db : DB) : option R :=
  hd_error (findMany args db).

(** [prisma.<model>.findUnique(args)]: the row the filter identifies, or
    null. *)
Definition findUnique (args : UniqueArgs) (db : DB) : option R :=
  find (fun r => matches (view M db r) (unique_where args)) (table M db).

(** [prisma.<model>.count(args)]: how many rows [findMany] selects. *)
Definition count (args : FindManyArgs) (db : DB) : nat :=
  List.length (findMany args db).
End Delegate.
End prisma.

(* ================================================================== *)
(** * Awaited code: outcomes, and the database threaded through *)
(* ================================================================== *)

(** What a [throw] carries. *)
Inductive exn :=
| Error (message : string)        (* [new Error(m)], and the runtime's and the ORM's errors *)
| ZodError (issues : list string) (* the paths of the fields that failed *)
| NextRedirect (url : string).    (* what [redirect(url)] throws *)

Definition error_message (e : exn) : string :=
  match e with
  | Error m => m
  | ZodError issues => String.concat "," issues
  | NextRedirect _ => "NEXT_REDIRECT"
  end.

Inductive Outcome (A : Type) :=
| Return (a : A)
| Throw (e : exn).
Arguments Return {A} a.
Arguments Throw {A} e.

(** An awaited computation: it reads and writes the database, and what it
    wrote before a [throw] stays written. *)
Definition Async (A : Type) : Type := DB -> Outcome A * DB.

Definition ret {A} (a : A) : Async A := fun db => (Return a, db).
Definition throw {A} (e : exn) : Async A := fun db => (Throw e, db).
Definition bind {A B} (m : Async A) (k : A -> Async B) : Async B :=
  fun db =>
    match m db with
    | (Return a, db') => k a db'
    | (Throw e, db') => (Throw e, db')
    end.
Definition read {A} (f : DB -> A) : Async A := fun db => (Return (f db), db).
Definition lift {A} (o : Outcome A) : Async A := fun db => (o, db).

(** [try { m } catch (e) { h e }] *)
Definition try_catch {A} (m : Async A) (h : exn -> Async A) : Async A :=
  fun db =>
    match m db with
    | (Return a, db') => (Return a, db')
    | (Throw e, db') => h e db'
    end.

Declare Scope async_scope.
Delimit Scope async_scope with async.
Notation "x <- m ;; k" := (bind m (fun x => k))
  (at level 61, m at next level, right associativity) : async_scope.
Notation "m ;;; k" := (bind m (fun _ => k))
  (at level 61, right associativity) : async_scope.
Local Open Scope async_scope.

(** [prisma.$transaction(async (tx) => body)]: the writes of [body] are
    kept when it returns and undone when it throws. *)
Definition transaction {A} (body : Async A) : Async A :=
  fun db =>
    match body db with
    | (Return a, db') => (Return a, db')
    | (Throw e, _) => (Throw e, db)
    end.

(* ================================================================== *)
(** * The ORM's writes *)
(* ================================================================== *)

(** A new row takes the next id of the generator. *)
Definition fresh_id : Async string :=
  fun db => (Return (cuid (next_id db)), with_next_id (S (next_id db)) db).

Definition P2002 (fields : string) : exn :=
  Error ("Unique constraint failed on the fields: (" ++ fields ++ ")").
Definition P2025 : exn :=
  Error "An operation failed because it depends on one or more records that were required but not found.".
Definition P2003 (field : string) : exn :=
  Error ("Foreign key constraint failed on the field: " ++ field).
Definition invalid_value (field : string) : exn :=
  Error ("Invalid value for argument " ++ field).

(** A BigInt column holds a signed 64-bit integer. *)
Definition fits_int64 (z : Z) : bool :=
  ((- 2 ^ 63 <=? z) && (z <? 2 ^ 63))%Z.

(** [new Date(s)]: the string it was built from, or an invalid Date
    ([None]), which the ORM refuses to store. *)
Definition Date := option string.

Record CompanyCreateInput := mkCompanyCreateInput {
  new_company_name : string;
  new_company_baseCurrency : string }.

Record UserCreateInput := mkUserCreateInput {
  new_user_email : string;
  new_user_name : string;
  new_user_passwordHash : string }.

Record MembershipCreateInput := mkMembershipCreateInput {
  new_membership_userId : string;
  new_membership_companyId : string;
  new_membership_role : MembershipRole }.

Record ApprovalPolicyCreateInput := mkApprovalPolicyCreateInput {
  new_policy_companyId : string;
  new_policy_type : ApprovalType;
  new_policy_thresholdPercent : option Z;
  new_policy_maxPerEmployeeMinor : option Z;
  new_policy_largeExpenseThresholdMinor : option Z;
  new_policy_requireCeoForLarge : bool }.

Record ExpenseCreateInput := mkExpenseCreateInput {
  new_expense_projectId : string;
  new_expense_employeeId : string;
  new_expense_amountMinor : Z;
  new_expense_currency : string;
  new_expense_description : string;
  new_expense_category : string;
  new_expense_paidBy : string;
  new_expense_expenseDate : Date;
  new_expense_status : ExpenseStatus }.

(** The [data] of [expense.update]: the columns to set, the id apart.
    (The ORM also takes writes on the relations of the row in [data]; the
    records of the model hold columns only.) *)
Record ExpenseUpdateInput := mkExpenseUpdateInputWith {
  set_projectId : option string;
  set_description : option string;
  set_category : option string;
  set_paidBy : option string;
  set_expenseDate : option Date;
  set_amountMinor : option Z;
  set_currency : option string;
  set_status : option ExpenseStatus;
  set_employeeId : option string }.

(** A [data] that leaves [employeeId] out, as those of the handlers do. *)
Abbreviation mkExpenseUpdateInput p d c b e a u s :=
  (mkExpenseUpdateInputWith p d c b e a u s None).

Record ReceiptFileCreateInput := mkReceiptFileCreateInput {
  new_receipt_expenseId : string;
  new_receipt_url : string;
  new_receipt_mime : string;
  new_receipt_size : Z }.

Record ApprovalCreateInput := mkApprovalCreateInput {
  new_approval_expenseId : string;
  new_approval_managerId : string;
  new_approval_decision : ApprovalDecision;
  new_approval_note : option string;
  new_approval_decidedAt : string }.

Record AuditLogCreateInput := mkAuditLogCreateInput {
  new_audit_companyId : string;
  new_audit_actorUserId : string;
  new_audit_action : string;
  new_audit_entity : string;
  new_audit_entityId : string;
  new_audit_meta : jsval }.

(** Modelled from the spec: the schema's constraints are not among the
    sources.  The model keeps the two unique constraints the sources rely
    on ([user.findUnique] and [upsert] by [email]; the seed's compound key
    [userId_companyId], the spec's "uniqueness on the pair"), the width of
    the BigInt columns and the ORM's refusal of an invalid Date.  Foreign
    keys are not checked by [create]; the handlers look the referenced
    rows up themselves.  An [update] that sets a foreign key checks it. *)
Definition company_create (data : CompanyCreateInput) : Async Company :=
  id <- fresh_id ;;
  let row := mkCompany id (new_company_name data) (new_company_baseCurrency data) in
  fun db => (Return row, with_companies (fun l => l ++ [row]) db).

Definition user_create (data : UserCreateInput) : Async User :=
  fun db =>
    if existsb (fun u => String.eqb (user_email u) (new_user_email data)) (users db)
    then (Throw (P2002 "email"), db)
    else
      (id <- fresh_id ;;
       let row := mkUser id (new_user_email data) (new_user_name data)
                         (new_user_passwordHash data) in
       fun db => (Return row, with_users (fun l => l ++ [row]) db)) db.

Definition membership_create (data : MembershipCreateInput) : Async Membership :=
  fun db =>
    if existsb (fun m => String.eqb (membership_userId m) (new_membership_userId data)
                         && String.eqb (membership_companyId m) (new_membership_companyId data))
               (memberships db)
    then (Throw (P2002 "userId,companyId"), db)
    else
      (id <- fresh_id ;;
       let row := mkMembership id (new_membership_userId data)
                               (new_membership_companyId data) (new_membership_role data) in
       fun db => (Return row, with_memberships (fun l => l ++ [row]) db)) db.

Definition opt_fits (o : option Z) : bool :=
  match o with Some z => fits_int64 z | None => true end.

Definition approvalPolicy_create (data : ApprovalPolicyCreateInput) : Async ApprovalPolicy :=
  if opt_fits (new_policy_maxPerEmployeeMinor data)
     && opt_fits (new_policy_largeExpenseThresholdMinor data)
  then
    id <- fresh_id ;;
    let row := mkApprovalPolicy id (new_policy_companyId data) (new_policy_type data)
                 (new_policy_thresholdPercent data) (new_policy_maxPerEmployeeMinor data)
                 (new_policy_largeExpenseThresholdMinor data)
                 (new_policy_requireCeoForLarge data) in
    fun db => (Return row, with_approvalPolicies (fun l => l ++ [row]) db)
  else throw (invalid_value "maxPerEmployeeMinor").

Definition expense_create (data : ExpenseCreateInput) : Async Expense :=
  match new_expense_expenseDate data with
  | None => throw (invalid_value "expenseDate")
  | Some date =>
      if fits_int64 (new_expense_amountMinor data) then
        id <- fresh_id ;;
        let row := mkExpense id (new_expense_projectId data) (new_expense_employeeId data)
                     (new_expense_amountMinor data) (new_expense_currency data)
                     (new_expense_description data) (new_expense_category data)
                     (new_expense_paidBy data) date (new_expense_status data) in
        fun db => (Return row, with_expenses (fun l => l ++ [row]) db)
      else throw (invalid_value "amountMinor")
  end.

Definition receiptFile_create (data : ReceiptFileCreateInput) : Async ReceiptFile :=
  id <- fresh_id ;;
  let row := mkReceiptFile id (new_receipt_expenseId data) (new_receipt_url data)
                           (new_receipt_mime data) (new_receipt_size data) in
  fun db => (Return row, with_receiptFiles (fun l => l ++ [row]) db).

Definition approval_create (data : ApprovalCreateInput) : Async Approval :=
  id <- fresh_id ;;
  let row := mkApproval id (new_approval_expenseId data) (new_approval_managerId data)
                        (new_approval_decision data) (new_approval_note data)
                        (new_approval_decidedAt data) in
  fun db => (Return row, with_approvals (fun l => l ++ [row]) db).

Definition auditLog_create (data : AuditLogCreateInput) : Async AuditLog :=
  id <- fresh_id ;;
  let row := mkAuditLog id (new_audit_companyId data) (new_audit_actorUserId data)
                        (new_audit_action data) (new_audit_entity data)
                        (new_audit_entityId data) (new_audit_meta data) in
  fun db => (Return row, with_auditLogs (fun l => l ++ [row]) db).

Definition or_keep {A} (o : option A) (old : A) : A :=
  match o with Some x => x | None => old end.

(** The columns [data] sets, on one row. *)
Definition apply_update (data : ExpenseUpdateInput) (e : Expense) : Expense :=
  mkExpense (expense_id e)
    (or_keep (set_projectId data) (expense_projectId e))
    (or_keep (set_employeeId data) (expense_employeeId e))
    (or_keep (set_amountMinor data) (expense_amountMinor e))
    (or_keep (set_currency data) (expense_currency e))
    (or_keep (set_description data) (expense_description e))
    (or_keep (set_category data) (expense_category e))
    (or_keep (set_paidBy data) (expense_paidBy e))
    (match set_expenseDate data with Some (Some d) => d | _ => expense_expenseDate e end)
    (or_keep (set_status data) (expense_status e)).

Definition update_valid (data : ExpenseUpdateInput) : bool :=
  opt_fits (set_amountMinor data)
  && match set_expenseDate data with Some None => false | _ => true end.

(** A foreign key [data] sets that names no row, if there is one. *)
Definition dangling {R} (lookup : string -> option R) (field : string) (o : option string)
  : option string :=
  match o with
  | Some id => match lookup id with Some _ => None | None => Some field end
  | None => None
  end.

Definition or_else {A} (a b : option A) : option A :=
  match a with Some _ => a | None => b end.

Definition update_dangling (db : DB) (data : ExpenseUpdateInput) : option string :=
  or_else (dangling (find_project db) "projectId" (set_projectId data))
          (dangling (find_user db) "employeeId" (set_employeeId data)).

(** [prisma.expense.update({ where, data })]: the row the filter identifies
    is rewritten and returned; P2025 when there is none, P2003 when [data]
    sets a foreign key that names no row.  (A unique filter identifies at
    most one row of a table whose ids are unique; the model rewrites every
    row the filter matches and returns the first.) *)
Definition expense_update (w : WhereInput) (data : ExpenseUpdateInput) : Async Expense :=
  fun db =>
    if update_valid data then
      match find (fun e => matches (expense_view db e) w) (expenses db) with
      | Some e =>
          match update_dangling db data with
          | Some field => (Throw (P2003 field), db)
          | None =>
              (Return (apply_update data e),
               with_expenses
                 (map (fun x => if matches (expense_view db x) w then apply_update data x
                                else x)) db)
          end
      | None => (Throw P2025, db)
      end
    else (Throw (invalid_value "data"), db).

(** [prisma.expense.delete({ where })] *)
Definition expense_delete (w : WhereInput) : Async Expense :=
  fun db =>
    match find (fun e => matches (expense_view db e) w) (expenses db) with
    | Some e =>
        (Return e,
         with_expenses (filter (fun x => negb (matches (expense_view db x) w))) db)
    | None => (Throw P2025, db)
    end.

(** [prisma.project.delete({ where })] *)
Definition project_delete (w : WhereInput) : Async Project :=
  fun db =>
    match find (fun p => matches (project_view db p) w) (projects db) with
    | Some p =>
        (Return p,
         with_projects (filter (fun x => negb (matches (project_view db x) w))) db)
    | None => (Throw P2025, db)
    end.

(** [prisma.<model>.findUniqueOrThrow({ where })] *)
Definition findUniqueOrThrow {R} (M : Model R) (args : UniqueArgs) : Async R :=
  fun db =>
    match prisma.findUnique M args db with
    | Some r => (Return r, db)
    | None => (Throw P2025, db)
    end.

(** ** The other writes the tenant wrapper and the project handlers use *)

Record ProjectCreateInput := mkProjectCreateInput {
  new_project_companyId : string;
  new_project_name : string;
  new_project_description : option string;
  new_project_active : bool }.

(** The [data] of [project.create] as a caller of the wrapper may write it,
    when it gives columns only: with the scalar [companyId] or without
    it. *)
Record ProjectCreateData := mkProjectCreateData {
  data_companyId : option string;
  data_name : string;
  data_description : option string;
  data_active : bool }.

Record ExchangeRateSnapshotCreateInput := mkExchangeRateSnapshotCreateInput {
  new_snapshot_companyId : string;
  new_snapshot_baseCurrency : string;
  new_snapshot_rates : jsval }.

Definition project_create (data : ProjectCreateInput) : Async Project :=
  id <- fresh_id ;;
  let row := mkProject id (new_project_companyId data) (new_project_name data)
                       (new_project_description data) (new_project_active data) in
  fun db => (Return row, with_projects (fun l => l ++ [row]) db).

Definition exchangeRateSnapshot_create (data : ExchangeRateSnapshotCreateInput)
  : Async ExchangeRateSnapshot :=
  id <- fresh_id ;;
  let row := mkExchangeRateSnapshot id (new_snapshot_companyId data)
                                    (new_snapshot_baseCurrency data)
                                    (new_snapshot_rates data) in
  fun db => (Return row, with_exchangeRateSnapshots (fun l => l ++ [row]) db).

(** [update] and [delete] of any model, as [expense_update] and
    [expense_delete] above: the rows the filter matches are rewritten (or
    removed) and the first is returned; P2025 when there is none, and what
    [refused] says of the row and its rewriting. *)
Section Rewrite.
  Context {R : Type} (M : Model R).
  Variable put : (list R -> list R) -> DB -> DB.

Definition update_where (refused : DB -> R -> R -> option exn) (w : WhereInput) (f : R -> R)
  : Async R :=
  fun db =>
    match find (fun r => matches (view M db r) w) (table M db) with
    | Some r =>
        match refused db r (f r) with
        | Some e => (Throw e, db)
        | None =>
            (Return (f r),
             put (map (fun x => if matches (view M db x) w then f x else x)) db)
        end
    | None => (Throw P2025, db)
    end.

Definition delete_where (w : WhereInput) : Async R :=
  fun db =>
    match find (fun r => matches (view M db r) w) (table M db) with
    | Some r => (Return r, put (filter (fun x => negb (matches (view M db x) w))) db)
    | None => (Throw P2025, db)
    end.
End Rewrite.

(** The [data] of the updates: the columns to set, the ids apart.  (The
    ORM also takes writes on the relations of the row in [data]; the
    records of the model hold columns only.) *)
Record CompanyUpdateInput := mkCompanyUpdateInput {
  set_company_name : option string;
  set_baseCurrency : option string }.

Record ProjectUpdateInput := mkProjectUpdateInputWith {
  set_name : option string;
  set_project_description : option (option string);
  set_active : option bool;
  set_project_companyId : option string }.

(** A [data] that leaves [companyId] out, as those of the handlers do. *)
Abbreviation mkProjectUpdateInput n d a := (mkProjectUpdateInputWith n d a None).

Record MembershipUpdateInput := mkMembershipUpdateInputWith {
  set_role : option MembershipRole;
  set_membership_userId : option string;
  set_membership_companyId : option string }.

(** [{ role }] *)
Abbreviation mkMembershipUpdateInput r := (mkMembershipUpdateInputWith r None None).

Record ApprovalPolicyUpdateInput := mkApprovalPolicyUpdateInputWith {
  set_type : option ApprovalType;
  set_thresholdPercent : option (option Z);
  set_maxPerEmployeeMinor : option (option Z);
  set_largeExpenseThresholdMinor : option (option Z);
  set_requireCeoForLarge : option bool;
  set_policy_companyId : option string }.

(** A [data] that leaves [companyId] out. *)
Abbreviation mkApprovalPolicyUpdateInput t p m l r :=
  (mkApprovalPolicyUpdateInputWith t p m l r None).

Definition apply_company_update (data : CompanyUpdateInput) (c : Company) : Company :=
  mkCompany (company_id c)
    (or_keep (set_company_name data) (company_name c))
    (or_keep (set_baseCurrency data) (company_baseCurrency c)).

Definition apply_project_update (data : ProjectUpdateInput) (p : Project) : Project :=
  mkProject (project_id p)
    (or_keep (set_project_companyId data) (project_companyId p))
    (or_keep (set_name data) (project_name p))
    (or_keep (set_project_description data) (project_description p))
    (or_keep (set_active data) (project_active p)).

Definition apply_membership_update (data : MembershipUpdateInput) (m : Membership)
  : Membership :=
  mkMembership (membership_id m)
    (or_keep (set_membership_userId data) (membership_userId m))
    (or_keep (set_membership_companyId data) (membership_companyId m))
    (or_keep (set_role data) (membership_role m)).

Definition apply_policy_update (data : ApprovalPolicyUpdateInput) (p : ApprovalPolicy)
  : ApprovalPolicy :=
  mkApprovalPolicy (policy_id p)
    (or_keep (set_policy_companyId data) (policy_companyId p))
    (or_keep (set_type data) (policy_type p))
    (or_keep (set_thresholdPercent data) (policy_thresholdPercent p))
    (or_keep (set_maxPerEmployeeMinor data) (policy_maxPerEmployeeMinor p))
    (or_keep (set_largeExpenseThresholdMinor data) (policy_largeExpenseThresholdMinor p))
    (or_keep (set_requireCeoForLarge data) (policy_requireCeoForLarge p)).

Definition never_refused {R} : DB -> R -> R -> option exn := fun _ _ _ => None.

(** P2003 for the foreign key that names no row. *)
Definition foreign_key (field : option string) : option exn :=
  option_map P2003 field.

Definition company_update (w : WhereInput) (data : CompanyUpdateInput) : Async Company :=
  update_where companyModel with_companies never_refused w (apply_company_update data).

Definition project_update (w : WhereInput) (data : ProjectUpdateInput) : Async Project :=
  update_where projectModel with_projects
    (fun db _ _ =>
       foreign_key (dangling (find_company db) "companyId" (set_project_companyId data)))
    w (apply_project_update data).

(** A membership whose pair of user and company another row has already
    is refused. *)
Definition pair_taken (db : DB) (m : Membership) : bool :=
  existsb (fun x => negb (String.eqb (membership_id x) (membership_id m))
                    && String.eqb (membership_userId x) (membership_userId m)
                    && String.eqb (membership_companyId x) (membership_companyId m))
          (memberships db).

Definition membership_update (w : WhereInput) (data : MembershipUpdateInput)
  : Async Membership :=
  update_where membershipModel with_memberships
    (fun db _ m =>
       or_else
         (foreign_key
            (or_else (dangling (find_user db) "userId" (set_membership_userId data))
                     (dangling (find_company db) "companyId"
                               (set_membership_companyId data))))
         (if pair_taken db m then Some (P2002 "userId,companyId") else None))
    w (apply_membership_update data).

Definition membership_delete (w : WhereInput) : Async Membership :=
  delete_where membershipModel with_memberships w.

Definition set_fits (o : option (option Z)) : bool :=
  match o with Some (Some z) => fits_int64 z | _ => true end.

Definition approvalPolicy_update (w : WhereInput) (data : ApprovalPolicyUpdateInput)
  : Async ApprovalPolicy :=
  if set_fits (set_maxPerEmployeeMinor data)
     && set_fits (set_largeExpenseThresholdMinor data)
  then update_where approvalPolicyModel with_approvalPolicies
         (fun db _ _ =>
            foreign_key (dangling (find_company db) "companyId" (set_policy_companyId data)))
         w (apply_policy_update data)
  else throw (invalid_value "data").

(* ================================================================== *)
(** * The tenant wrapper (src/lib/tenant-guard.ts) *)
(* ================================================================== *)

Module TenantPrisma.

Record t := mk { companyId : string; userId : string }.

Definition getCompanyId (this : t) : string := companyId this.
Definition getUserId (this : t) : string := userId this.

(** [companyId: this.companyId] *)
Definition own_company (this : t) : WhereProp :=
  Field "companyId" (Equals (SStr (companyId this))).

(** [project: { companyId: this.companyId }] *)
Definition own_project (this : t) : WhereProp :=
  Relation "project" [Field "companyId" (Equals (SStr (companyId this)))].

(** [...args?.where] *)
Definition where_of (args : option FindManyArgs) : WhereInput :=
  or_empty (match args with Some a => where_ a | None => None end).

(** [{ ...args, where: w }] *)
Definition with_where (args : option FindManyArgs) (w : WhereInput) : FindManyArgs :=
  match args with
  | Some a =>
      mkFindManyArgsWith (Some w) (orderBy a) (cursor a) (skip a) (take a) (distinct a)
                         (include a)
  | None => mkFindManyArgs (Some w) None None None
  end.

(** [x && { k: x }] spread into an object: the key is set only when [x]
    is truthy; a number is truthy unless it is zero. *)
Definition if_truthy_nat (x : option nat) : option nat :=
  match x with
  | Some 0 => None
  | _ => x
  end.

Definition if_truthy_int (x : option Z) : option Z :=
  match x with
  | Some 0%Z => None
  | _ => x
  end.

(** [{ where: w, ...(args?.orderBy && { orderBy: args.orderBy }),
      ...(args?.cursor && { cursor: args.cursor }),
      ...(args?.take && { take: args.take }),
      ...(args?.skip && { skip: args.skip }) }]: an object, also an empty
    one, is truthy. *)
Definition count_args (args : option FindManyArgs) (w : WhereInput) : FindManyArgs :=
  match args with
  | Some a =>
      mkFindManyArgsWith (Some w) (orderBy a) (cursor a) (if_truthy_nat (skip a))
                         (if_truthy_int (take a)) [] columns_only
  | None => mkFindManyArgs (Some w) None None None
  end.

(** [{ ...args, where: { ...args.where, k: v } }] for [findUnique]. *)
Definition unique_with (args : UniqueArgs) (p : WhereProp) : UniqueArgs :=
  mkUniqueArgsWith (spread_with (unique_where args) p) (unique_include args).

(** [id: this.companyId] *)
Definition own_id (this : t) : WhereProp :=
  Field "id" (Equals (SStr (companyId this))).

(** [getCompany()] *)
Definition getCompany (this : t) : Async Company :=
  findUniqueOrThrow companyModel (mkUniqueArgs [own_id this]).

(** [get company()] *)
Module company.
Definition findUnique (this : t) (args : UniqueArgs) : DB -> option Company :=
  prisma.findUnique companyModel (unique_with args (own_id this)).

Definition update (this : t) (args : UniqueArgs) (data : CompanyUpdateInput) : Async Company :=
  company_update (unique_where (unique_with args (own_id this))) data.
End company.

(** [get project()] *)
Module project.
Definition findMany (this : t) (args : option FindManyArgs) : DB -> list Project :=
  prisma.findMany projectModel
    (with_where args (spread_with (where_of args) (own_company this))).

Definition findUnique (this : t) (args : UniqueArgs) : DB -> option Project :=
  prisma.findUnique projectModel (unique_with args (own_company this)).

(** [data: { ...args.data, company: { connect: { id: this.companyId } } }]:
    the caller's [data] names the company by the relation or not at all;
    a [data] that gives the scalar [companyId] beside the relation is
    refused by the ORM. *)
Definition create (this : t) (data : ProjectCreateData) : Async Project :=
  match data_companyId data with
  | Some _ => throw (invalid_value "companyId")
  | None =>
      project_create
        (mkProjectCreateInput (companyId this) (data_name data) (data_description data)
                              (data_active data))
  end.

Definition update (this : t) (args : UniqueArgs) (data : ProjectUpdateInput) : Async Project :=
  project_update (unique_where (unique_with args (own_company this))) data.

Definition delete (this : t) (args : UniqueArgs) : Async Project :=
  project_delete (unique_where (unique_with args (own_company this))).

Definition count (this : t) (args : option FindManyArgs) : DB -> nat :=
  prisma.count projectModel
    (count_args args (spread_with (where_of args) (own_company this))).
End project.

(** [get expense()] *)
Module expense.
Definition findMany (this : t) (args : option FindManyArgs) : DB -> list Expense :=
  prisma.findMany expenseModel
    (with_where args (spread_with (where_of args) (own_project this))).

Definition findUnique (this : t) (args : UniqueArgs) : DB -> option Expense :=
  prisma.findUnique expenseModel (unique_with args (own_project this)).

Definition create (this : t) (data : ExpenseCreateInput) : Async Expense :=
  (* Verify project belongs to company before creating expense *)
  _ <- findUniqueOrThrow projectModel
         (mkUniqueArgs [Field "id" (Equals (SStr (new_expense_projectId data)));
                        Field "companyId" (Equals (SStr (companyId this)))]) ;;
  expense_create data.

Definition update (this : t) (args : UniqueArgs) (data : ExpenseUpdateInput) : Async Expense :=
  expense_update (unique_where (unique_with args (own_project this))) data.

Definition delete (this : t) (args : UniqueArgs) : Async Expense :=
  expense_delete (unique_where (unique_with args (own_project this))).

Definition count (this : t) (args : option FindManyArgs) : DB -> nat :=
  prisma.count expenseModel
    (count_args args (spread_with (where_of args) (own_project this))).
End expense.

(** [get membership()] *)
Module membership.
Definition findMany (this : t) (args : option FindManyArgs) : DB -> list Membership :=
  prisma.findMany membershipModel
    (with_where args (spread_with (where_of args) (own_company this))).

Definition findUnique (this : t) (args : UniqueArgs) : DB -> option Membership :=
  prisma.findUnique membershipModel (unique_with args (own_company this)).

(** [data: { ...args.data, companyId: this.companyId }] *)
Definition create (this : t) (data : MembershipCreateInput) : Async Membership :=
  membership_create
    (mkMembershipCreateInput (new_membership_userId data) (companyId this)
                             (new_membership_role data)).

Definition update (this : t) (args : UniqueArgs) (data : MembershipUpdateInput)
  : Async Membership :=
  membership_update (unique_where (unique_with args (own_company this))) data.

Definition delete (this : t) (args : UniqueArgs) : Async Membership :=
  membership_delete (unique_where (unique_with args (own_company this))).

Definition count (this : t) (args : option FindManyArgs) : DB -> nat :=
  prisma.count membershipModel
    (count_args args (spread_with (where_of args) (own_company this))).
End membership.

(** [get approvalPolicy()] *)
Module approvalPolicy.
Definition findMany (this : t) (args : option FindManyArgs) : DB -> list ApprovalPolicy :=
  prisma.findMany approvalPolicyModel
    (with_where args (spread_with (where_of args) (own_company this))).

Definition findUnique (this : t) (args : UniqueArgs) : DB -> option ApprovalPolicy :=
  prisma.findUnique approvalPolicyModel (unique_with args (own_company this)).

Definition create (this : t) (data : ApprovalPolicyCreateInput) : Async ApprovalPolicy :=
  approvalPolicy_create
    (mkApprovalPolicyCreateInput (companyId this) (new_policy_type data)
       (new_policy_thresholdPercent data) (new_policy_maxPerEmployeeMinor data)
       (new_policy_largeExpenseThresholdMinor data) (new_policy_requireCeoForLarge data)).

Definition update (this : t) (args : UniqueArgs) (data : ApprovalPolicyUpdateInput)
  : Async ApprovalPolicy :=
  approvalPolicy_update (unique_where (unique_with args (own_company this))) data.
End approvalPolicy.

(** [get auditLog()] *)
Module auditLog.
Definition findMany (this : t) (args : option FindManyArgs) : DB -> list AuditLog :=
  prisma.findMany auditLogModel
    (with_where args (spread_with (where_of args) (own_company this))).

(** [actorUserId: args.data.actorUserId || this.userId]: an empty string
    is falsy. *)
Definition create (this : t) (data : AuditLogCreateInput) : Async AuditLog :=
  auditLog_create
    (mkAuditLogCreateInput (companyId this)
       (if String.eqb (new_audit_actorUserId data) "" then userId this
        else new_audit_actorUserId data)
       (new_audit_action data) (new_audit_entity data) (new_audit_entityId data)
       (new_audit_meta data)).
End auditLog.

(** [get exchangeRateSnapshot()] *)
Module exchangeRateSnapshot.
Definition findMany (this : t) (args : option FindManyArgs)
  : DB -> list ExchangeRateSnapshot :=
  prisma.findMany exchangeRateSnapshotModel
    (with_where args (spread_with (where_of args) (own_company this))).

Definition findFirst (this : t) (args : option FindManyArgs)
  : DB -> option ExchangeRateSnapshot :=
  prisma.findFirst exchangeRateSnapshotModel
    (with_where args (spread_with (where_of args) (own_company this))).

Definition create (this : t) (data : ExchangeRateSnapshotCreateInput)
  : Async ExchangeRateSnapshot :=
  exchangeRateSnapshot_create
    (mkExchangeRateSnapshotCreateInput (companyId this) (new_snapshot_baseCurrency data)
                                       (new_snapshot_rates data)).
End exchangeRateSnapshot.

(** [createAuditLog(action, entity, entityId, meta)], through the raw
    client; [Prisma.DbNull] when there is no [meta]. *)
Definition createAuditLog (this : t) (action entity entityId : string) (meta : option jsval)
  : Async AuditLog :=
  auditLog_create
    (mkAuditLogCreateInput (companyId this) (userId this) action entity entityId
       (match meta with
        | Some m => if truthy m then m else JNull
        | None => JNull
        end)).

End TenantPrisma.

(** ** Every query method of the wrapper, as one call *)

Inductive Row :=
| ProjectRow (p : Project)
| ExpenseRow (e : Expense)
| MembershipRow (m : Membership)
| ApprovalPolicyRow (p : ApprovalPolicy)
| AuditLogRow (a : AuditLog)
| ExchangeRateSnapshotRow (s : ExchangeRateSnapshot).

Inductive QueryCall :=
| project_findMany (args : option FindManyArgs)
| project_findUnique (args : UniqueArgs)
| project_count (args : option FindManyArgs)
| expense_findMany (args : option FindManyArgs)
| expense_findUnique (args : UniqueArgs)
| expense_count (args : option FindManyArgs)
| membership_findMany (args : option FindManyArgs)
| membership_findUnique (args : UniqueArgs)
| membership_count (args : option FindManyArgs)
| approvalPolicy_findMany (args : option FindManyArgs)
| approvalPolicy_findUnique (args : UniqueArgs)
| auditLog_findMany (args : option FindManyArgs)
| exchangeRateSnapshot_findMany (args : option FindManyArgs)
| exchangeRateSnapshot_findFirst (args : option FindManyArgs).

(** A row of any table. *)
Inductive AnyRow :=
| Scoped (r : Row)
| CompanyRow (c : Company)
| UserRow (u : User)
| ReceiptFileRow (f : ReceiptFile)
| ApprovalRow (a : Approval).

Definition to_list {A} (o : option A) : list A :=
  match o with Some x => [x] | None => [] end.

(** The rows a relation of a row leads to, for the relations the sources
    name in a filter, an [include] or a [select]; no row for a name that is
    none of them. *)
Definition related_rows (db : DB) (r : AnyRow) (name : string) : list AnyRow :=
  match r with
  | Scoped (ProjectRow p) =>
      if String.eqb name "company"
      then map CompanyRow (to_list (find_company db (project_companyId p)))
      else if String.eqb name "expenses"
      then map (fun e => Scoped (ExpenseRow e))
               (filter (fun e => String.eqb (expense_projectId e) (project_id p)) (expenses db))
      else []
  | Scoped (ExpenseRow e) =>
      if String.eqb name "project"
      then map (fun p => Scoped (ProjectRow p)) (to_list (find_project db (expense_projectId e)))
      else if String.eqb name "employee"
      then map UserRow (to_list (find_user db (expense_employeeId e)))
      else if String.eqb name "receiptFiles"
      then map ReceiptFileRow
               (filter (fun f => String.eqb (receipt_expenseId f) (expense_id e))
                       (receiptFiles db))
      else if String.eqb name "approvals"
      then map ApprovalRow
               (filter (fun a => String.eqb (approval_expenseId a) (expense_id e))
                       (approvals db))
      else []
  | Scoped (MembershipRow m) =>
      if String.eqb name "user"
      then map UserRow (to_list (find_user db (membership_userId m)))
      else if String.eqb name "company"
      then map CompanyRow (to_list (find_company db (membership_companyId m)))
      else []
  | Scoped (ApprovalPolicyRow p) =>
      if String.eqb name "company"
      then map CompanyRow (to_list (find_company db (policy_companyId p)))
      else []
  | Scoped (AuditLogRow a) =>
      if String.eqb name "company"
      then map CompanyRow (to_list (find_company db (audit_companyId a)))
      else []
  | Scoped (ExchangeRateSnapshotRow x) =>
      if String.eqb name "company"
      then map CompanyRow (to_list (find_company db (snapshot_companyId x)))
      else []
  | UserRow u =>
      if String.eqb name "memberships"
      then map (fun m => Scoped (MembershipRow m))
               (filter (fun m => String.eqb (membership_userId m) (user_id u)) (memberships db))
      else []
  | ApprovalRow a =>
      if String.eqb name "manager"
      then map UserRow (to_list (find_user db (approval_managerId a)))
      else []
  | CompanyRow _ | ReceiptFileRow _ => []
  end.

(** A row as a query returns it: with the rows of the relations that were
    asked for, each with its own. *)
Inductive Loaded := Node (row : AnyRow) (loaded : list (string * list Loaded)).

Definition row_of (t : Loaded) : AnyRow :=
  match t with Node r _ => r end.

(** The ORM loads the relations by the foreign keys alone. *)
Fixpoint load (db : DB) (rel : Relations) (r : AnyRow) : Loaded :=
  match rel with
  | With names =>
      Node r (map (fun kv : string * Relations =>
                     (fst kv, map (load db (snd kv)) (related_rows db r (fst kv))))
                  names)
  end.

(** Every row of a result, the loaded ones too. *)
Fixpoint rows_of (t : Loaded) : list AnyRow :=
  match t with
  | Node r loaded =>
      r :: flat_map (fun kv : string * list Loaded => flat_map rows_of (snd kv)) loaded
  end.

Inductive QueryResult :=
| Rows (l : list Loaded)
| OneRow (r : option Loaded)
| Counted (n : nat).

(** [args?.include] (or the relations of [args?.select]) *)
Definition included (args : option FindManyArgs) : Relations :=
  match args with Some a => include a | None => columns_only end.

(** What [findMany], [findFirst] and [findUnique] resolve to: the rows
    selected, each with the relations the arguments ask for. *)
Definition many {R} (row : R -> Row) (args : option FindManyArgs) (db : DB) (l : list R)
  : list Loaded :=
  map (fun r => load db (included args) (Scoped (row r))) l.

Definition first {R} (row : R -> Row) (args : option FindManyArgs) (db : DB) (o : option R)
  : option Loaded :=
  option_map (fun r => load db (included args) (Scoped (row r))) o.

Definition one {R} (row : R -> Row) (args : UniqueArgs) (db : DB) (o : option R)
  : option Loaded :=
  option_map (fun r => load db (unique_include args) (Scoped (row r))) o.

Definition run_query (this : TenantPrisma.t) (q : QueryCall) (db : DB) : QueryResult :=
  match q with
  | project_findMany a => Rows (many ProjectRow a db (TenantPrisma.project.findMany this a db))
  | project_findUnique a =>
      OneRow (one ProjectRow a db (TenantPrisma.project.findUnique this a db))
  | project_count a => Counted (TenantPrisma.project.count this a db)
  | expense_findMany a => Rows (many ExpenseRow a db (TenantPrisma.expense.findMany this a db))
  | expense_findUnique a =>
      OneRow (one ExpenseRow a db (TenantPrisma.expense.findUnique this a db))
  | expense_count a => Counted (TenantPrisma.expense.count this a db)
  | membership_findMany a =>
      Rows (many MembershipRow a db (TenantPrisma.membership.findMany this a db))
  | membership_findUnique a =>
      OneRow (one MembershipRow a db (TenantPrisma.membership.findUnique this a db))
  | membership_count a => Counted (TenantPrisma.membership.count this a db)
  | approvalPolicy_findMany a =>
      Rows (many ApprovalPolicyRow a db (TenantPrisma.approvalPolicy.findMany this a db))
  | approvalPolicy_findUnique a =>
      OneRow (one ApprovalPolicyRow a db (TenantPrisma.approvalPolicy.findUnique this a db))
  | auditLog_findMany a =>
      Rows (many AuditLogRow a db (TenantPrisma.auditLog.findMany this a db))
  | exchangeRateSnapshot_findMany a =>
      Rows (many ExchangeRateSnapshotRow a db
              (TenantPrisma.exchangeRateSnapshot.findMany this a db))
  | exchangeRateSnapshot_findFirst a =>
      OneRow (first ExchangeRateSnapshotRow a db
                (TenantPrisma.exchangeRateSnapshot.findFirst this a db))
  end.

(** The company a row belongs to: its own [companyId] column, and for an
    expense the company of its project. *)
Definition company_of (db : DB) (r : Row) : option string :=
  match r with
  | ProjectRow p => Some (project_companyId p)
  | ExpenseRow e => option_map project_companyId (find_project db (expense_projectId e))
  | MembershipRow m => Some (membership_companyId m)
  | ApprovalPolicyRow p => Some (policy_companyId p)
  | AuditLogRow a => Some (audit_companyId a)
  | ExchangeRateSnapshotRow s => Some (snapshot_companyId s)
  end.

Definition belongs_to (db : DB) (c : string) (r : Row) : Prop :=
  company_of db r = Some c.

Definition belongs_tob (db : DB) (c : string) (r : Row) : bool :=
  match company_of db r with
  | Some c' => String.eqb c' c
  | None => false
  end.

(** All the rows of the table a call reads. *)
Definition rows_read (q : QueryCall) (db : DB) : list Row :=
  match q with
  | project_findMany _ | project_findUnique _ | project_count _ => map ProjectRow (projects db)
  | expense_findMany _ | expense_findUnique _ | expense_count _ => map ExpenseRow (expenses db)
  | membership_findMany _ | membership_findUnique _ | membership_count _ =>
      map MembershipRow (memberships db)
  | approvalPolicy_findMany _ | approvalPolicy_findUnique _ =>
      map ApprovalPolicyRow (approvalPolicies db)
  | auditLog_findMany _ => map AuditLogRow (auditLogs db)
  | exchangeRateSnapshot_findMany _ | exchangeRateSnapshot_findFirst _ =>
      map ExchangeRateSnapshotRow (exchangeRateSnapshots db)
  end.

(** A row the call selected from its table, with what was loaded with it,
    is of the company. *)
Definition selected_in (db : DB) (c : string) (t : Loaded) : Prop :=
  match row_of t with
  | Scoped r => belongs_to db c r
  | _ => False
  end.

(** The rows a call selects from its table belong to the company, and a
    count counts no more than the company's rows. *)
Definition scoped_to (db : DB) (c : string) (q : QueryCall) (res : QueryResult) : Prop :=
  match res with
  | Rows l => Forall (selected_in db c) l
  | OneRow o => forall t, o = Some t -> selected_in db c t
  | Counted n => n <= List.length (filter (belongs_tob db c) (rows_read q db))
  end.

(** Every row a call returns, the rows loaded through relations too. *)
Definition rows_returned (res : QueryResult) : list AnyRow :=
  match res with
  | Rows l => flat_map rows_of l
  | OneRow o => flat_map rows_of (to_list o)
  | Counted _ => []
  end.

(** ** Every write method of the wrapper, as one call *)

Module Write.
(** [update] and [delete]. *)
Inductive Change :=
| company_update (args : UniqueArgs) (data : CompanyUpdateInput)
| project_update (args : UniqueArgs) (data : ProjectUpdateInput)
| project_delete (args : UniqueArgs)
| expense_update (args : UniqueArgs) (data : ExpenseUpdateInput)
| expense_delete (args : UniqueArgs)
| membership_update (args : UniqueArgs) (data : MembershipUpdateInput)
| membership_delete (args : UniqueArgs)
| approvalPolicy_update (args : UniqueArgs) (data : ApprovalPolicyUpdateInput).

(** [create] with the company set by the wrapper, and [createAuditLog]. *)
Inductive Create :=
| project_create (data : ProjectCreateData)
| membership_create (data : MembershipCreateInput)
| approvalPolicy_create (data : ApprovalPolicyCreateInput)
| auditLog_create (data : AuditLogCreateInput)
| exchangeRateSnapshot_create (data : ExchangeRateSnapshotCreateInput)
| createAuditLog (action entity entityId : string) (meta : option jsval).
End Write.

Definition forget {A} (m : Async A) : Async unit := _ <- m ;; ret tt.

Definition run_change (this : TenantPrisma.t) (c : Write.Change) : Async unit :=
  match c with
  | Write.company_update a d => forget (TenantPrisma.company.update this a d)
  | Write.project_update a d => forget (TenantPrisma.project.update this a d)
  | Write.project_delete a => forget (TenantPrisma.project.delete this a)
  | Write.expense_update a d => forget (TenantPrisma.expense.update this a d)
  | Write.expense_delete a => forget (TenantPrisma.expense.delete this a)
  | Write.membership_update a d => forget (TenantPrisma.membership.update this a d)
  | Write.membership_delete a => forget (TenantPrisma.membership.delete this a)
  | Write.approvalPolicy_update a d => forget (TenantPrisma.approvalPolicy.update this a d)
  end.

Definition run_create (this : TenantPrisma.t) (c : Write.Create) : Async Row :=
  match c with
  | Write.project_create d => r <- TenantPrisma.project.create this d ;; ret (ProjectRow r)
  | Write.membership_create d =>
      r <- TenantPrisma.membership.create this d ;; ret (MembershipRow r)
  | Write.approvalPolicy_create d =>
      r <- TenantPrisma.approvalPolicy.create this d ;; ret (ApprovalPolicyRow r)
  | Write.auditLog_create d => r <- TenantPrisma.auditLog.create this d ;; ret (AuditLogRow r)
  | Write.exchangeRateSnapshot_create d =>
      r <- TenantPrisma.exchangeRateSnapshot.create this d ;; ret (ExchangeRateSnapshotRow r)
  | Write.createAuditLog action entity entityId meta =>
      r <- TenantPrisma.createAuditLog this action entity entityId meta ;; ret (AuditLogRow r)
  end.

(** The rows of the six tables the wrapper scopes. *)
Definition all_rows (db : DB) : list Row :=
  map ProjectRow (projects db) ++ map ExpenseRow (expenses db)
  ++ map MembershipRow (memberships db) ++ map ApprovalPolicyRow (approvalPolicies db)
  ++ map AuditLogRow (auditLogs db)
  ++ map ExchangeRateSnapshotRow (exchangeRateSnapshots db).

(* ================================================================== *)
(** * Sessions (src/lib/server-auth.ts) *)
(* ================================================================== *)

Module Session.
Record t := mk {
  userId : string;
  companyId : string;
  role : MembershipRole;
  email : string;
  name : option string }.
End Session.

(** [redirect(url)] never returns: it throws. *)
Definition redirect {A} (url : string) : Outcome A := Throw (NextRedirect url).

(** [requireAuth()], given what [getSession()] found. *)
Definition requireAuth (current : option Session.t) : Outcome Session.t :=
  match current with
  | None => redirect "/login"
  | Some session => Return session
  end.

(** [requireRole(allowedRoles, redirectTo = "/login")] *)
Definition requireRole (current : option Session.t) (allowedRoles : list MembershipRole)
  : Outcome Session.t :=
  match requireAuth current with
  | Throw e => Throw e
  | Return session =>
      if existsb (role_eqb (Session.role session)) allowedRoles
      then Return session
      else redirect "/dashboard"
  end.

(* ================================================================== *)
(** * Requests, responses and the handler wrappers (lib/api-helpers) *)
(* ================================================================== *)

(** A request as a handler reads it: the path of its URL
    ([new URL(req.url).pathname]) and what [req.json()] resolves to, or
    the SyntaxError it rejects with (its message depends on the body). *)
Record NextRequest := mkRequest {
  pathname : string;
  json : Outcome jsval }.

(** [NextResponse.json(body, { status })] *)
Record NextResponse := mkResponse {
  status : nat;
  body : jsval }.

(** [JSON.stringify] throws a TypeError on a bigint, wherever it is in
    the value. *)
Fixpoint has_bigint (v : jsval) : bool :=
  match v with
  | JBigInt _ => true
  | JArr items => existsb has_bigint items
  | JObj fields => existsb (fun kv : string * jsval => has_bigint (snd kv)) fields
  | _ => false
  end.

Definition cannot_serialize : exn := Error "Do not know how to serialize a BigInt".

(** The response [NextResponse.json(body, { status })] builds of a body
    [JSON.stringify] takes. *)
Definition NextResponse_json (body : jsval) (init : option nat) : NextResponse :=
  mkResponse (match init with Some s => s | None => 200 end) body.

(** [NextResponse.json(body, { status })] for any body: it serialises the
    body first. *)
Definition NextResponse_json_of (body : jsval) (init : option nat) : Outcome NextResponse :=
  if has_bigint body then Throw cannot_serialize else Return (NextResponse_json body init).

Definition opt_string (o : option string) : jsval :=
  match o with Some s => JStr s | None => JUndefined end.

(** [createSuccessResponse(data, message?)]: it throws when [data] holds
    a bigint, as a row with a BigInt column does. *)
Definition createSuccessResponse (data : jsval) (message : option string)
  : Outcome NextResponse :=
  NextResponse_json_of
    (JObj [("success", JBool true); ("data", data); ("message", opt_string message)])
    None.

(** [createErrorResponse(error, status = 400, details?)] *)
Definition createErrorResponse (error : string) (status : option nat) (details : jsval)
  : NextResponse :=
  NextResponse_json
    (JObj ([("success", JBool false); ("error", JStr error)]
           ++ (if truthy details then [("details", details)] else [])))
    (Some (match status with Some s => s | None => 400 end)).

Definition issues_value (issues : list string) : jsval := JArr (map JStr issues).

(** [await req.json()] *)
Definition read_json (req : NextRequest) : Outcome jsval := json req.

Section Wrappers.
  Context {T : Type}.
  Variable requiredRole : option (list MembershipRole).
  Variable validationSchema : option (jsval -> Outcome T).

(** The session a wrapper starts from. *)
Definition authorize (current : option Session.t) : Outcome Session.t :=
  match requiredRole with
  | Some roles => requireRole current roles
  | None => requireAuth current
  end.

(** The [catch] of [createApiHandler]. *)
Definition apiHandler_catch (error : exn) : NextResponse :=
  if includes (error_message error) "UNAUTHORIZED" then
    createErrorResponse "Unauthorized" (Some 401) JUndefined
  else if includes (error_message error) "FORBIDDEN" then
    createErrorResponse "Forbidden" (Some 403) JUndefined
  else createErrorResponse (error_message error) (Some 500) JUndefined.

(** What [createApiHandler] does before it calls the handler: the session,
    the tenant client, the validated body; or the response it answers with
    at once. *)
Definition apiHandler_prepare (current : option Session.t) (req : NextRequest)
  : NextResponse + (TenantPrisma.t * Session.t * option T) :=
  match authorize current with
  | Throw error => inl (apiHandler_catch error)
  | Return session =>
      let tenant := TenantPrisma.mk (Session.companyId session) (Session.userId session) in
      match validationSchema with
      | None => inr (tenant, session, None)
      | Some parse =>
          match read_json req with
          | Throw error => inl (apiHandler_catch error)
          | Return body =>
              match parse body with
              | Throw (ZodError issues) =>
                  inl (createErrorResponse "Invalid request data" (Some 400)
                         (issues_value issues))
              | Throw error => inl (apiHandler_catch error)
              | Return data => inr (tenant, session, Some data)
              end
          end
      end
  end.

(** [createApiHandler(options)]: the function it returns.  The handler's
    promise is returned without being awaited, so what the handler throws
    is not caught here: it reaches the framework. *)
Definition createApiHandler
  (handler : NextRequest -> TenantPrisma.t -> Session.t -> option T -> Async NextResponse)
  (current : option Session.t) (req : NextRequest) : Async NextResponse :=
  match apiHandler_prepare current req with
  | inl response => ret response
  | inr (tenant, session, validatedData) => handler req tenant session validatedData
  end.

(** [createServerAction(options)]: the function it resolves to.  [formData]
    is the object of the form's entries, or the object passed directly. *)
Definition createServerAction
  (action : TenantPrisma.t -> Session.t -> option T -> Async jsval)
  (current : option Session.t) (formData : option jsval) : Async jsval :=
  try_catch
    (session <- lift (authorize current) ;;
     let tenant := TenantPrisma.mk (Session.companyId session) (Session.userId session) in
     validatedData <-
       lift (match validationSchema, formData with
             | Some parse, Some data =>
                 if truthy data then
                   match parse data with
                   | Return v => Return (Some v)
                   | Throw e => Throw e
                   end
                 else Return None
             | _, _ => Return None
             end) ;;
     result <- action tenant session validatedData ;;
     ret (JObj [("success", JBool true); ("data", result)]))
    (fun error =>
       ret (match error with
            | ZodError issues =>
                JObj [("success", JBool false); ("error", JStr "Validation failed");
                      ("details", issues_value issues)]
            | _ => JObj [("success", JBool false); ("error", JStr (error_message error))]
            end)).

End Wrappers.

(** [auditAction(tenant, action, entity, entityId, meta)] *)
Definition auditAction (now : string) (tenant : TenantPrisma.t)
  (action entity entityId : string) (meta : list (string * jsval)) : Async AuditLog :=
  TenantPrisma.createAuditLog tenant action entity entityId
    (Some (JObj (("timestamp", JStr now) :: meta))).

(* ================================================================== *)
(** * Schemas (zod) *)
(* ================================================================== *)

(** [z.string()] with [.min] and [.max] on the length. *)
Definition z_string (min : nat) (max : option nat) (v : jsval) : option string :=
  match v with
  | JStr s =>
      if (min <=? String.length s)%nat
         && match max with Some m => (String.length s <=? m)%nat | None => true end
      then Some s else None
  | _ => None
  end.

(** [.optional()] *)
Definition z_optional {A} (p : jsval -> option A) (v : jsval) : option (option A) :=
  match v with
  | JUndefined => Some None
  | _ => option_map Some (p v)
  end.

(** [.default(d)] *)
Definition z_default {A} (d : A) (p : jsval -> option A) (v : jsval) : option A :=
  match v with
  | JUndefined => Some d
  | _ => p v
  end.

(** The pattern [z.string().cuid()] tests: a [c] of either case, then
    eight characters or more, none of them white space or a hyphen. *)
Definition cuidRegex (s : string) : bool :=
  match s with
  | String c rest =>
      Ascii.eqb (lower c) "c"
      && (8 <=? String.length rest)%nat
      && forallb (fun a => negb (is_white_space a || Ascii.eqb a "-"))
                 (list_ascii_of_string rest)
  | EmptyString => false
  end.

Definition one_of (chars : string) (c : ascii) : bool :=
  existsb (Ascii.eqb c) (list_ascii_of_string chars).

(** A label of a domain: a letter or a digit, then letters, digits and
    hyphens. *)
Definition domain_label (l : string) : bool :=
  match l with
  | String c rest =>
      is_alnum c && forallb (fun a => is_alnum a || Ascii.eqb a "-") (list_ascii_of_string rest)
  | EmptyString => false
  end.

(** The pattern [z.string().email()] tests, without regard to case: one
    [@]; before it, letters, digits and the characters of [_'+-.], the
    last of them not a point or an apostrophe; after it, one label or
    more with a point after each, and then two letters or more; no point
    first, and no two points in a row. *)
Definition emailRegex (s : string) : bool :=
  match split "@" s with
  | [local; domain] =>
      negb (String.prefix "." s)
      && negb (includes s "..")
      && forallb (fun a => is_alnum a || one_of "_'+-." a) (list_ascii_of_string local)
      && match pop (list_ascii_of_string local) with
         | Some a => is_alnum a || one_of "_+-" a
         | None => false
         end
      && match rev (split "." domain) with
         | tld :: label :: labels =>
             (2 <=? String.length tld)%nat
             && forallb is_letter (list_ascii_of_string tld)
             && forallb domain_label (label :: labels)
         | _ => false
         end
  | _ => false
  end.

(** [z.number().int().positive()] *)
Definition z_positive_int (v : jsval) : option Number.t :=
  match v with
  | JNum x =>
      if negb (Number.isNaN x) && Number.isInteger x && Number.gtb x Number.zero
      then Some x else None
  | _ => None
  end.

(** The issues of an object schema: the keys whose value was refused. *)
Definition issues_of (checks : list (string * bool)) : list string :=
  map fst (filter (fun c => negb (snd c)) checks).

Definition is_some {A} (o : option A) : bool :=
  match o with Some _ => true | None => false end.

Definition is_object (v : jsval) : bool :=
  match v with JObj _ => true | _ => false end.

(** [z.object({ id: z.string().min(1, ...) })] *)
Definition idSchema (data : jsval) : Outcome string :=
  if is_object data then
    match z_string 1 None (prop "id" data) with
    | Some id => Return id
    | None => Throw (ZodError ["id"])
    end
  else Throw (ZodError [""]).

(* ================================================================== *)
(** * The handlers *)
(* ================================================================== *)

(** A row as the payload of a response. *)
Definition expense_value (e : Expense) : jsval :=
  JObj [("id", JStr (expense_id e));
        ("projectId", JStr (expense_projectId e));
        ("employeeId", JStr (expense_employeeId e));
        ("amountMinor", JBigInt (expense_amountMinor e));
        ("currency", JStr (expense_currency e));
        ("description", JStr (expense_description e));
        ("category", JStr (expense_category e));
        ("paidBy", JStr (expense_paidBy e));
        ("expenseDate", JStr (expense_expenseDate e));
        ("status", JStr (status_name (expense_status e)))].

Definition by_id (id : string) : WhereInput := [Field "id" (Equals (SStr id))].

(** The ORM client a handler imports: the operations company creation
    uses.  A read answers or throws; a write may do either and change the
    database. *)
Record Client := mkClient {
  client_company_findFirst : WhereInput -> DB -> Outcome (option Company);
  client_user_findUnique : WhereInput -> DB -> Outcome (option User);
  client_company_create : CompanyCreateInput -> Async Company;
  client_user_create : UserCreateInput -> Async User;
  client_membership_create : MembershipCreateInput -> Async Membership;
  client_approvalPolicy_create : ApprovalPolicyCreateInput -> Async ApprovalPolicy }.

(** The client of the model. *)
Definition prisma_client : Client :=
  mkClient
    (fun w db => Return (prisma.findFirst companyModel (mkFindManyArgs (Some w) None None None) db))
    (fun w db => Return (prisma.findUnique userModel (mkUniqueArgs w) db))
    company_create user_create membership_create approvalPolicy_create.

Definition query {A} (f : DB -> Outcome A) : Async A := fun db => (f db, db).

Section Handlers.
  (** What the handlers take from their runtime. *)
  Variable bcrypt_hash : string -> nat -> string.      (* bcrypt.hash(password, rounds) *)
  Variable is_email : string -> bool.                  (* the pattern of z.string().email() *)
  Variable is_cuid : string -> bool.                   (* the pattern of z.string().cuid() *)
  Variable valid_date : string -> bool.                (* new Date(s) is a valid Date *)
  Variable now : string.                               (* new Date() *)
  Variable JSON_parse : string -> option jsval.        (* JSON.parse; None when it throws *)
  Variable toFixed : Number.t -> nat -> string.        (* Number.prototype.toFixed *)

(** [new Date(s)] *)
Definition new_Date (s : string) : Date :=
  if valid_date s then Some s else None.

(** ** POST /api/company/create (src/app/api/company/create/route.ts) *)

Record CreateCompany := mkCreateCompany {
  companyName : string;
  adminName : string;
  adminEmail : string;
  adminPassword : string }.

Definition z_email (v : jsval) : option string :=
  match v with
  | JStr s => if is_email s then Some s else None
  | _ => None
  end.

Definition createCompanySchema (data : jsval) : Outcome CreateCompany :=
  if is_object data then
    match z_string 1 None (prop "companyName" data),
          z_string 1 None (prop "adminName" data),
          z_email (prop "adminEmail" data),
          z_string 6 None (prop "adminPassword" data) with
    | Some cn, Some an, Some ae, Some ap => Return (mkCreateCompany cn an ae ap)
    | cn, an, ae, ap =>
        Throw (ZodError (issues_of [("companyName", is_some cn); ("adminName", is_some an);
                                    ("adminEmail", is_some ae); ("adminPassword", is_some ap)]))
    end
  else Throw (ZodError [""]).

(** The callback handed to [prisma.$transaction]. *)
Definition create_company_and_admin (tx : Client) (d : CreateCompany) (passwordHash : string)
  : Async (Company * User) :=
  (* Create the company *)
  company <- client_company_create tx (mkCompanyCreateInput (companyName d) "USD") ;;
  (* Create the admin user *)
  adminUser <- client_user_create tx
                 (mkUserCreateInput (adminEmail d) (adminName d) passwordHash) ;;
  (* Create admin membership *)
  _ <- client_membership_create tx
         (mkMembershipCreateInput (user_id adminUser) (company_id company) ADMIN) ;;
  (* Create default approval policy *)
  _ <- client_approvalPolicy_create tx
         (mkApprovalPolicyCreateInput (company_id company) PERCENTAGE (Some 50%Z)
            (Some 100000%Z) (Some 500000%Z) false) ;;
  ret (company, adminUser).

Definition company_create_POST (prisma : Client) (request : NextRequest) : Async NextResponse :=
  try_catch
    (body <- lift (read_json request) ;;
     validatedData <- lift (createCompanySchema body) ;;
     (* Check if company with this name already exists *)
     existingCompany <- query (client_company_findFirst prisma
                                 [Field "name" (Equals (SStr (companyName validatedData)))]) ;;
     match existingCompany with
     | Some _ =>
         ret (NextResponse_json
                (JObj [("error", JStr "A company with this name already exists")]) (Some 400))
     | None =>
         (* Check if admin email already exists *)
         existingUser <- query (client_user_findUnique prisma
                                  [Field "email" (Equals (SStr (adminEmail validatedData)))]) ;;
         match existingUser with
         | Some _ =>
             ret (NextResponse_json
                    (JObj [("error", JStr "A user with this email already exists")]) (Some 400))
         | None =>
             (* Hash the password *)
             let passwordHash := bcrypt_hash (adminPassword validatedData) 12 in
             (* Create company and admin user in a transaction *)
             result <- transaction (create_company_and_admin prisma validatedData passwordHash) ;;
             ret (NextResponse_json
                    (JObj [("success", JBool true);
                           ("data", JObj [("companyId", JStr (company_id (fst result)));
                                          ("companyName", JStr (company_name (fst result)));
                                          ("adminEmail", JStr (user_email (snd result)));
                                          ("message", JStr "Company created successfully")])])
                    None)
         end
     end)
    (fun error =>
       ret (match error with
            | ZodError issues =>
                NextResponse_json
                  (JObj [("error", JStr "Validation failed"); ("details", issues_value issues)])
                  (Some 400)
            | _ => NextResponse_json (JObj [("error", JStr "Failed to create company")]) (Some 500)
            end)).

(** ** POST /api/expenses/[id]/approve *)

Record ApproveExpense := mkApproveExpense {
  decision : ApprovalDecision;
  note : option string }.

Definition z_decision (v : jsval) : option ApprovalDecision :=
  match v with
  | JStr s =>
      if String.eqb s "APPROVE" then Some APPROVE
      else if String.eqb s "REJECT" then Some REJECT
      else None
  | _ => None
  end.

Definition approveExpenseSchema (data : jsval) : Outcome ApproveExpense :=
  if is_object data then
    match z_decision (prop "decision" data),
          z_optional (z_string 0 None) (prop "note" data) with
    | Some d, Some n => Return (mkApproveExpense d n)
    | d, n => Throw (ZodError (issues_of [("decision", is_some d); ("note", is_some n)]))
    end
  else Throw (ZodError [""]).

(** [note || null] *)
Definition or_null (o : option string) : option string :=
  match o with
  | Some s => if String.eqb s "" then None else Some s
  | None => None
  end.

Definition approve_handler (req : NextRequest) (tenant : TenantPrisma.t)
  (session : Session.t) (validatedData : option ApproveExpense) : Async NextResponse :=
  let expenseId := match pop (split "/" (pathname req)) with Some s => s | None => "" end in
  if String.eqb expenseId "" then
    ret (NextResponse_json (JObj [("error", JStr "Expense ID is required")]) (Some 400))
  else
    match validatedData with
    | None => throw (Error "Cannot destructure property 'decision' of undefined")
    | Some data =>
        (* Get the expense to verify it exists and is pending *)
        expense <- read (prisma.findUnique expenseModel
                           (mkUniqueArgsWith (by_id expenseId)
                                             (With [("project", columns_only)]))) ;;
        match expense with
        | None =>
            ret (NextResponse_json (JObj [("error", JStr "Expense not found")]) (Some 404))
        | Some expense =>
            (* [expense.project], loaded with it *)
            project <- read (fun db => find_project db (expense_projectId expense)) ;;
            match project with
            | None => throw (Error "Cannot read properties of null (reading 'companyId')")
            | Some project =>
                (* Verify the expense belongs to the same company *)
                if negb (String.eqb (project_companyId project) (Session.companyId session)) then
                  ret (NextResponse_json (JObj [("error", JStr "Unauthorized")]) (Some 403))
                (* Check if expense is pending *)
                else if negb (status_eqb (expense_status expense) PENDING) then
                  ret (NextResponse_json
                         (JObj [("error", JStr "Expense is not pending approval")]) (Some 400))
                else
                  (* Update the expense status *)
                  updatedExpense <-
                    expense_update (by_id expenseId)
                      (mkExpenseUpdateInput None None None None None None None
                         (Some (match decision data with
                                | APPROVE => APPROVED
                                | REJECT => REJECTED
                                end))) ;;
                  (* Create approval record *)
                  _ <- approval_create
                         (mkApprovalCreateInput expenseId (Session.userId session)
                            (decision data) (or_null (note data)) now) ;;
                  (* Create audit log *)
                  _ <- auditLog_create
                         (mkAuditLogCreateInput (Session.companyId session)
                            (Session.userId session)
                            ("EXPENSE_" ++ decision_name (decision data))
                            "Expense" expenseId
                            (JObj [("expenseDescription", JStr (expense_description expense));
                                   ("amount", JNum (Number.of_Z (expense_amountMinor expense)));
                                   ("currency", JStr (expense_currency expense));
                                   ("decision", JStr (decision_name (decision data)));
                                   ("note", opt_string (note data))])) ;;
                  lift (createSuccessResponse (expense_value updatedExpense)
                          (Some ("Expense " ++ toLowerCase (decision_name (decision data))
                                 ++ "d successfully")%string))
            end
        end
    end.

(** POST /api/expenses/[id]/approve - Approve or reject an expense
    (Manager/Admin only) *)
Definition approve_POST : option Session.t -> NextRequest -> Async NextResponse :=
  createApiHandler (Some [MANAGER; ADMIN]) (Some approveExpenseSchema) approve_handler.

(** The path the route answers on for the expense [id], as the manager's
    dashboard requests it. *)
Definition approve_path (id : string) : string :=
  "/api/expenses/" ++ id ++ "/approve".

(** ** POST /api/expenses *)

Record CreateExpenseBody := mkCreateExpenseBody {
  body_projectId : string;
  body_amountMinor : Number.t;   (* Amount in minor units (cents) *)
  body_currency : string;
  body_description : string;
  body_category : string;
  body_paidBy : string;
  body_expenseDate : Date }.

Definition z_cuid (v : jsval) : option string :=
  match v with
  | JStr s => if is_cuid s then Some s else None
  | _ => None
  end.

(** [z.string().length(3)] *)
Definition z_length3 (v : jsval) : option string :=
  match v with
  | JStr s => if (String.length s =? 3)%nat then Some s else None
  | _ => None
  end.

(** [z.string().transform(str => new Date(str))] *)
Definition z_date (v : jsval) : option Date :=
  match v with
  | JStr s => Some (new_Date s)
  | _ => None
  end.

Definition api_createExpenseSchema (data : jsval) : Outcome CreateExpenseBody :=
  if is_object data then
    match z_cuid (prop "projectId" data),
          z_positive_int (prop "amountMinor" data),
          z_default "USD" z_length3 (prop "currency" data),
          z_string 1 (Some 500) (prop "description" data),
          z_string 1 (Some 100) (prop "category" data),
          z_string 1 (Some 100) (prop "paidBy" data),
          z_date (prop "expenseDate" data) with
    | Some p, Some a, Some c, Some d, Some g, Some b, Some e =>
        Return (mkCreateExpenseBody p a c d g b e)
    | p, a, c, d, g, b, e =>
        Throw (ZodError (issues_of [("projectId", is_some p); ("amountMinor", is_some a);
                                    ("currency", is_some c); ("description", is_some d);
                                    ("category", is_some g); ("paidBy", is_some b);
                                    ("expenseDate", is_some e)]))
    end
  else Throw (ZodError [""]).

Definition expenses_handler (req : NextRequest) (tenant : TenantPrisma.t)
  (session : Session.t) (validatedData : option CreateExpenseBody) : Async NextResponse :=
  match validatedData with
  | None => throw (Error "Cannot read properties of undefined (reading 'projectId')")
  | Some data =>
      (* Verify the project exists and belongs to the company (tenant guard handles this) *)
      project <- read (TenantPrisma.project.findUnique tenant
                         (mkUniqueArgs (by_id (body_projectId data)))) ;;
      match project with
      | None => throw (Error "Project not found")
      | Some project =>
          (* Create the expense (its [include] loads the project and the employee
             with the row the call returns) *)
          expense <- TenantPrisma.expense.create tenant
                       (mkExpenseCreateInput (body_projectId data)
                          (Session.userId session)        (* Always set to current user *)
                          (Number.to_Z (body_amountMinor data))
                          (body_currency data) (body_description data) (body_category data)
                          (body_paidBy data) (body_expenseDate data)
                          PENDING) ;;                      (* New expenses start as pending *)
          (* Audit log the creation *)
          _ <- auditAction now tenant "CREATE_EXPENSE" "Expense" (expense_id expense)
                 [("projectId", JStr (expense_projectId expense));
                  ("projectName", JStr (project_name project));
                  ("amount", JNum (Number.div (body_amountMinor data) (Number.of_Z 100)));
                  ("currency", JStr (body_currency data));
                  ("category", JStr (body_category data))] ;;
          lift (createSuccessResponse (expense_value expense)
                  (Some "Expense created successfully"))
      end
  end.

(** POST /api/expenses - Create new expense *)
Definition expenses_POST : option Session.t -> NextRequest -> Async NextResponse :=
  createApiHandler (Some [ADMIN; MANAGER; EMPLOYEE]) (Some api_createExpenseSchema)
    expenses_handler.

(** ** The expense actions (src/lib/actions/expense-actions.ts) *)

Record CreateExpenseForm := mkCreateExpenseForm {
  projectId : string;
  amount : string;
  currency : string;
  description : string;
  category : string;
  paidBy : string;
  expenseDate : string;
  receiptFileKeys : option string }.

Definition createExpenseSchema (data : jsval) : Outcome CreateExpenseForm :=
  if is_object data then
    match z_string 1 None (prop "projectId" data),
          z_string 1 None (prop "amount" data),
          z_string 1 None (prop "currency" data),
          z_string 1 None (prop "description" data),
          z_string 1 None (prop "category" data),
          z_string 1 None (prop "paidBy" data),
          z_string 1 None (prop "expenseDate" data),
          z_optional (z_string 0 None) (prop "receiptFileKeys" data) with
    | Some p, Some a, Some c, Some d, Some g, Some b, Some e, Some r =>
        Return (mkCreateExpenseForm p a c d g b e r)
    | p, a, c, d, g, b, e, r =>
        Throw (ZodError (issues_of [("projectId", is_some p); ("amount", is_some a);
                                    ("currency", is_some c); ("description", is_some d);
                                    ("category", is_some g); ("paidBy", is_some b);
                                    ("expenseDate", is_some e);
                                    ("receiptFileKeys", is_some r)]))
    end
  else Throw (ZodError [""]).

Definition failure (error : string) : jsval :=
  JObj [("success", JBool false); ("error", JStr error)].

(** What [for (const key of v)] goes through. *)
Definition iterate (v : jsval) : Outcome (list jsval) :=
  match v with
  | JArr items => Return items
  | JStr s => Return (map (fun c => JStr (String c EmptyString)) (list_ascii_of_string s))
  | _ => Throw (Error "fileKeys is not iterable")
  end.

Fixpoint create_receipt_files (expenseId : string) (keys : list jsval) : Async unit :=
  match keys with
  | [] => ret tt
  | key :: rest =>
      match key with
      | JStr url =>
          _ <- receiptFile_create
                 (mkReceiptFileCreateInput expenseId
                    url                           (* Store the S3 key as URL for now *)
                    "application/octet-stream" 0%Z) ;;
          create_receipt_files expenseId rest
      | _ => throw (invalid_value "url")
      end
  end.

(** [approvalPolicy?.maxPerEmployeeMinor] as a condition: a bigint is
    truthy unless it is [0n]; null and a missing policy are not. *)
Definition cap_of (approvalPolicy : option ApprovalPolicy) : option Z :=
  match approvalPolicy with
  | Some p =>
      match policy_maxPerEmployeeMinor p with
      | Some cap => if (cap =? 0)%Z then None else Some cap
      | None => None
      end
  | None => None
  end.

Definition createExpense_action (tenant : TenantPrisma.t) (session : Session.t)
  (validatedData : option CreateExpenseForm) : Async jsval :=
  match validatedData with
  | None => throw (Error "Cannot destructure property 'projectId' of 'data' as it is undefined.")
  | Some data =>
      (* Validate amount *)
      let amountNumber := parseFloat (amount data) in
      if Number.isNaN amountNumber || Number.leb amountNumber Number.zero then
        ret (failure "Invalid amount")
      else
        (* Check if project exists and is active *)
        project <- read (TenantPrisma.project.findUnique tenant
                           (mkUniqueArgs (by_id (projectId data)))) ;;
        if negb (match project with Some p => project_active p | None => false end) then
          ret (failure "Project not found or inactive")
        else
          (* Check approval policy for limits *)
          approvalPolicies <- read (TenantPrisma.approvalPolicy.findMany tenant None) ;;
          let approvalPolicy := hd_error approvalPolicies in
          let over :=
            match cap_of approvalPolicy with
            | Some cap =>
                let maxAmount := Number.div (Number.of_Z cap) (Number.of_Z 100) in
                if Number.gtb amountNumber maxAmount then Some maxAmount else None
            | None => None
            end in
          match over with
          | Some maxAmount =>
              ret (failure ("Amount exceeds maximum per employee limit of $"
                            ++ toFixed maxAmount 2))
          | None =>
              (* Convert amount to minor units (cents) *)
              let amountMinor := Number.Math_round (Number.mul amountNumber (Number.of_Z 100)) in
              match Number.BigInt amountMinor with
              | None => throw (Error "The number cannot be converted to a BigInt because it is not an integer")
              | Some amountMinor =>
                  (* Create expense *)
                  expense <- TenantPrisma.expense.create tenant
                               (mkExpenseCreateInput (projectId data) (Session.userId session)
                                  amountMinor (currency data) (description data)
                                  (category data) (paidBy data)
                                  (new_Date (expenseDate data)) PENDING) ;;
                  (* Create receipt file records if files were uploaded *)
                  _ <- match or_null (receiptFileKeys data) with
                       | Some keys =>
                           try_catch
                             (fileKeys <- lift (match JSON_parse keys with
                                                | Some v => iterate v
                                                | None => Throw (Error "Unexpected token")
                                                end) ;;
                              create_receipt_files (expense_id expense) fileKeys)
                             (* Don't fail the expense creation if receipt file creation fails *)
                             (fun _ => ret tt)
                       | None => ret tt
                       end ;;
                  ret (JObj [("success", JBool true);
                             ("data", JObj [("expenseId", JStr (expense_id expense))])])
              end
          end
  end.

Definition createExpense : option Session.t -> option jsval -> Async jsval :=
  createServerAction None (Some createExpenseSchema) createExpense_action.

Record UpdateExpenseForm := mkUpdateExpenseForm {
  update_id : string;
  update_projectId : option string;
  update_amount : option string;
  update_currency : option string;
  update_description : option string;
  update_category : option string;
  update_paidBy : option string;
  update_expenseDate : option string;
  update_receiptFileKeys : option string }.

(** [createExpenseSchema.partial().extend({ id: z.string().min(1, ...) })] *)
Definition updateExpenseSchema (data : jsval) : Outcome UpdateExpenseForm :=
  if is_object data then
    match z_string 1 None (prop "id" data),
          z_optional (z_string 1 None) (prop "projectId" data),
          z_optional (z_string 1 None) (prop "amount" data),
          z_optional (z_string 1 None) (prop "currency" data),
          z_optional (z_string 1 None) (prop "description" data),
          z_optional (z_string 1 None) (prop "category" data),
          z_optional (z_string 1 None) (prop "paidBy" data),
          z_optional (z_string 1 None) (prop "expenseDate" data),
          z_optional (z_optional (z_string 0 None)) (prop "receiptFileKeys" data) with
    | Some i, Some p, Some a, Some c, Some d, Some g, Some b, Some e, Some r =>
        Return (mkUpdateExpenseForm i p a c d g b e
                  (match r with Some x => x | None => None end))
    | i, p, a, c, d, g, b, e, r =>
        Throw (ZodError (issues_of [("id", is_some i); ("projectId", is_some p);
                                    ("amount", is_some a); ("currency", is_some c);
                                    ("description", is_some d); ("category", is_some g);
                                    ("paidBy", is_some b); ("expenseDate", is_some e);
                                    ("receiptFileKeys", is_some r)]))
    end
  else Throw (ZodError [""]).

Definition updateExpense_action (tenant : TenantPrisma.t) (session : Session.t)
  (validatedData : option UpdateExpenseForm) : Async jsval :=
  match validatedData with
  | None => throw (Error "Cannot destructure property 'id' of 'data' as it is undefined.")
  | Some updateData =>
      let id := update_id updateData in
      (* Check if expense exists and belongs to the user *)
      existingExpense <- read (TenantPrisma.expense.findUnique tenant (mkUniqueArgs (by_id id))) ;;
      match existingExpense with
      | None => ret (failure "Expense not found or access denied")
      | Some existingExpense =>
          if negb (String.eqb (expense_employeeId existingExpense) (Session.userId session)) then
            ret (failure "Expense not found or access denied")
          (* Only allow updates to pending expenses *)
          else if negb (status_eqb (expense_status existingExpense) PENDING) then
            ret (failure "Cannot update non-pending expenses")
          else
            (* Prepare update data *)
            let updateFields :=
              mkExpenseUpdateInput
                (or_null (update_projectId updateData))
                (or_null (update_description updateData))
                (or_null (update_category updateData))
                (or_null (update_paidBy updateData))
                (option_map new_Date (or_null (update_expenseDate updateData)))
                None
                (or_null (update_currency updateData))
                None in
            let amountField :=
              match or_null (update_amount updateData) with
              | Some a =>
                  let amountNumber := parseFloat a in
                  if Number.isNaN amountNumber || Number.leb amountNumber Number.zero
                  then inl tt
                  else inr (Some (Number.Math_round (Number.mul amountNumber (Number.of_Z 100))))
              | None => inr None
              end in
            match amountField with
            | inl _ => ret (failure "Invalid amount")
            | inr rounded =>
                amountMinor <- lift (match rounded with
                                     | None => Return None
                                     | Some x =>
                                         match Number.BigInt x with
                                         | Some z => Return (Some z)
                                         | None => Throw (Error "The number cannot be converted to a BigInt because it is not an integer")
                                         end
                                     end) ;;
                (* Update expense *)
                updatedExpense <-
                  TenantPrisma.expense.update tenant (mkUniqueArgs (by_id id))
                    (mkExpenseUpdateInput
                       (set_projectId updateFields) (set_description updateFields)
                       (set_category updateFields) (set_paidBy updateFields)
                       (set_expenseDate updateFields) amountMinor
                       (set_currency updateFields) None) ;;
                ret (JObj [("success", JBool true);
                           ("data", JObj [("expense", expense_value updatedExpense)])])
            end
      end
  end.

Definition updateExpense : option Session.t -> option jsval -> Async jsval :=
  createServerAction None (Some updateExpenseSchema) updateExpense_action.

Definition deleteExpense_action (tenant : TenantPrisma.t) (session : Session.t)
  (validatedData : option string) : Async jsval :=
  match validatedData with
  | None => throw (Error "Cannot destructure property 'id' of 'data' as it is undefined.")
  | Some id =>
      (* Check if expense exists and belongs to the user *)
      existingExpense <- read (TenantPrisma.expense.findUnique tenant (mkUniqueArgs (by_id id))) ;;
      match existingExpense with
      | None => ret (failure "Expense not found or access denied")
      | Some existingExpense =>
          if negb (String.eqb (expense_employeeId existingExpense) (Session.userId session)) then
            ret (failure "Expense not found or access denied")
          (* Only allow deletion of pending expenses *)
          else if negb (status_eqb (expense_status existingExpense) PENDING) then
            ret (failure "Cannot delete non-pending expenses")
          else
            (* Delete expense *)
            _ <- TenantPrisma.expense.delete tenant (mkUniqueArgs (by_id id)) ;;
            ret (JObj [("success", JBool true)])
      end
  end.

Definition deleteExpense : option Session.t -> option jsval -> Async jsval :=
  createServerAction None (Some idSchema) deleteExpense_action.

(** ** The project actions: deleteProject *)

Definition deleteProject_action (tenant : TenantPrisma.t) (session : Session.t)
  (validatedData : option string) : Async jsval :=
  let id := match validatedData with Some id => id | None => "" end in
  if String.eqb id "" then throw (Error "Project ID is required")
  else
    (* Get the project before deletion for audit log (the [_count] of its
       expenses the call also asks for is not read) *)
    project <- read (TenantPrisma.project.findUnique tenant (mkUniqueArgs (by_id id))) ;;
    match project with
    | None => throw (Error "Project not found")
    | Some project =>
        (* Check if project has expenses *)
        expenseCount <- read (TenantPrisma.expense.count tenant
                                (Some (mkFindManyArgs
                                         (Some [Field "projectId" (Equals (SStr id))])
                                         None None None))) ;;
        if (0 <? expenseCount)%nat then
          throw (Error "Cannot delete project with existing expenses")
        else
          _ <- TenantPrisma.project.delete tenant (mkUniqueArgs (by_id id)) ;;
          (* Audit log the deletion *)
          _ <- TenantPrisma.createAuditLog tenant "DELETE_PROJECT" "Project" id
                 (Some (JObj [("projectName", JStr (project_name project));
                              ("deletedBy", JStr (Session.userId session))])) ;;
          (* Revalidate and redirect *)
          lift (redirect "/projects")
    end.

(** Only admins can delete projects *)
Definition deleteProject : option Session.t -> option jsval -> Async jsval :=
  createServerAction (Some [ADMIN]) (Some idSchema) deleteProject_action.

End Handlers.

(** ** What a caller reads off the object an action returns *)

Definition succeeded (result : jsval) : Prop :=
  prop "success" result = JBool true.

Definition failed (result : jsval) : Prop :=
  prop "success" result = JBool false /\ exists m, prop "error" result = JStr m.

(** The status a decision leads to. *)
Definition decided (d : ApprovalDecision) : ExpenseStatus :=
  match d with APPROVE => APPROVED | REJECT => REJECTED end.

(** An expense with its status set. *)
Definition with_status (s : ExpenseStatus) (e : Expense) : Expense :=
  mkExpense (expense_id e) (expense_projectId e) (expense_employeeId e)
            (expense_amountMinor e) (expense_currency e) (expense_description e)
            (expense_category e) (expense_paidBy e) (expense_expenseDate e) s.

(** A Number that is not a negative finite one. *)
Definition not_negative (x : Number.t) : Prop :=
  match x with
  | S754_finite true _ _ => False
  | _ => True
  end.

(** The answer of [createExpense] when the amount is over the cap. *)
Definition over_cap (toFixed : Number.t -> nat -> string) (cap : Z) : jsval :=
  failure ("Amount exceeds maximum per employee limit of $"
           ++ toFixed (Number.div (Number.of_Z cap) (Number.of_Z 100)) 2).

(** Some expense with this id is the requester's and is pending. *)
Definition own_pending (session : Session.t) (db : DB) (id : string) : Prop :=
  exists e, In e (expenses db) /\ expense_id e = id
            /\ expense_employeeId e = Session.userId session
            /\ expense_status e = PENDING.

(** No expense with this id is both the requester's and pending: it is
    another employee's, or it was decided already, or there is none. *)
Definition not_own_pending (session : Session.t) (db : DB) (id : string) : Prop :=
  forall e, In e (expenses db) -> expense_id e = id ->
            ~ (expense_employeeId e = Session.userId session /\ expense_status e = PENDING).

(* ================================================================== *)
(** * The seeded database (prisma/seed.ts) *)
(* ================================================================== *)

Module Seed.
Definition company := mkCompany (cuid 0) "TechCorp Inc." "USD".
Definition admin := mkUser (cuid 1) "admin@techcorp.com" "Alice Admin" "hash(admin123)".
Definition manager := mkUser (cuid 2) "manager@techcorp.com" "Bob Manager" "hash(manager123)".
Definition employee :=
  mkUser (cuid 3) "employee@techcorp.com" "Charlie Employee" "hash(employee123)".
Definition project :=
  mkProject (cuid 7) (company_id company) "Website Redesign"
            (Some "Complete overhaul of company website with modern UI/UX") true.
Definition approvalPolicy :=
  mkApprovalPolicy (cuid 8) (company_id company) MAJORITY None
                   (Some 100000%Z)     (* $1,000.00 in minor units *)
                   (Some 500000%Z)     (* $5,000.00 in minor units *)
                   true.
Definition expense :=
  mkExpense (cuid 10) (project_id project) (user_id employee)
            4500                        (* $45.00 in minor units *)
            "USD" "Client dinner meeting at restaurant" "Meals & Entertainment"
            "Employee Credit Card" "2024-10-01" PENDING.

Definition db : DB :=
  mkDB [company]
       [admin; manager; employee]
       [mkMembership (cuid 4) (user_id admin) (company_id company) ADMIN;
        mkMembership (cuid 5) (user_id manager) (company_id company) MANAGER;
        mkMembership (cuid 6) (user_id employee) (company_id company) EMPLOYEE]
       [project]
       [expense]
       [mkReceiptFile (cuid 11) (expense_id expense)
          "https://example.com/receipts/dinner-receipt-001.jpg" "image/jpeg" 245760]
       []
       [approvalPolicy]
       [mkAuditLog (cuid 12) (company_id company) (user_id employee) "CREATE_EXPENSE"
          "Expense" (expense_id expense)
          (JObj [("amount", JNum (parseFloat "45.00")); ("currency", JStr "USD");
                 ("category", JStr "Meals & Entertainment");
                 ("projectName", JStr (project_name project))])]
       [mkExchangeRateSnapshot (cuid 9) (company_id company) "USD"
          (JObj [("EUR", JNum (parseFloat "0.85")); ("GBP", JNum (parseFloat "0.73"));
                 ("JPY", JNum (parseFloat "110.25")); ("CAD", JNum (parseFloat "1.25"));
                 ("AUD", JNum (parseFloat "1.35"))])]
       13.

(** The sessions of the three seeded users. *)
Definition as_admin :=
  Session.mk (user_id admin) (company_id company) ADMIN (user_email admin) (Some "Alice Admin").
Definition as_manager :=
  Session.mk (user_id manager) (company_id company) MANAGER (user_email manager)
             (Some "Bob Manager").
Definition as_employee :=
  Session.mk (user_id employee) (company_id company) EMPLOYEE (user_email employee)
             (Some "Charlie Employee").

(** The client [createApiHandler] and [createServerAction] build for a
    session. *)
Definition tenant_of (session : Session.t) : TenantPrisma.t :=
  TenantPrisma.mk (Session.companyId session) (Session.userId session).

(** A second tenant beside the seeded one, with a project of its own. *)
Definition rival := mkCompany "ck9rival00000000000000001" "Rival Ltd" "USD".
Definition rival_project :=
  mkProject "ck9rival00000000000000002" (company_id rival) "Secret" None true.
Definition two_tenants : DB :=
  with_projects (fun l => l ++ [rival_project]) (with_companies (fun l => l ++ [rival]) db).

(** The seeded employee also works for the rival. *)
Definition moonlighting :=
  mkMembership "ck9rival00000000000000003" (user_id employee) (company_id rival) EMPLOYEE.
Definition shared_employee : DB :=
  with_memberships (fun l => l ++ [moonlighting]) two_tenants.

(** [{ include: { employee: { include: { memberships: true } } } }] *)
Definition with_memberships_of_the_employee : FindManyArgs :=
  mkFindManyArgsWith None None None None None []
    (With [("employee", With [("memberships", columns_only)])]).

(** An expense the seeded employee would file on the rival's project. *)
Definition on_rival_project : ExpenseCreateInput :=
  mkExpenseCreateInput (project_id rival_project) (user_id employee) 4500 "USD"
                       "Lunch" "Meals & Entertainment" "Employee Credit Card"
                       (Some "2024-10-02") PENDING.

(** Stand-ins for what the handlers take from their runtime. *)
Definition any_date (s : string) : bool := true.
Definition no_JSON (s : string) : option jsval := None.
Definition plain_toFixed (x : Number.t) (digits : nat) : string := "".
Definition plain_hash (password : string) (rounds : nat) : string := "hash(" ++ password ++ ")".

(** The expense form filled in with an amount, in major units. *)
Definition form (amount : string) : CreateExpenseForm :=
  mkCreateExpenseForm (project_id project) amount "USD" "Laptop stand" "Equipment"
                      "Employee Credit Card" "2024-10-02" None.

(** What the manager's dashboard posts to approve an expense. *)
Definition approve : jsval := JObj [("decision", JStr "APPROVE")].

(** The body of [POST /api/expenses] for an amount in minor units. *)
Definition expense_of (amountMinor : Z) : NextRequest :=
  mkRequest "/api/expenses"
    (Return (JObj [("projectId", JStr (project_id project));
                 ("amountMinor", JNum (Number.of_Z amountMinor));
                 ("currency", JStr "USD");
                 ("description", JStr "Laptop stand");
                 ("category", JStr "Equipment");
                 ("paidBy", JStr "Employee Credit Card");
                 ("expenseDate", JStr "2024-10-02")])).

(** The form object the expense form submits. *)
Definition form_data (amount : string) : jsval :=
  JObj [("projectId", JStr (project_id project));
        ("amount", JStr amount);
        ("currency", JStr "USD");
        ("description", JStr "Laptop stand");
        ("category", JStr "Equipment");
        ("paidBy", JStr "Employee Credit Card");
        ("expenseDate", JStr "2024-10-02")].

(** A client whose connection drops when the admin user is written. *)
Definition flaky : Client :=
  mkClient (client_company_findFirst prisma_client) (client_user_findUnique prisma_client)
           company_create
           (fun _ => throw (Error "Can't reach database server"))
           membership_create approvalPolicy_create.

(** The body the login page posts to create the company Acme. *)
Definition acme : NextRequest :=
  mkRequest "/api/company/create"
    (Return (JObj [("companyName", JStr "Acme"); ("adminName", JStr "Ann");
                 ("adminEmail", JStr "admin@acme.com"); ("adminPassword", JStr "secret")])).

(** The same request for a name that is taken. *)
Definition taken : NextRequest :=
  mkRequest "/api/company/create"
    (Return (JObj [("companyName", JStr "TechCorp Inc."); ("adminName", JStr "Ann");
                 ("adminEmail", JStr "ann@acme.com"); ("adminPassword", JStr "secret")])).
End Seed.

(* ================================================================== *)
(** * The other helpers of src/lib/server-auth.ts *)
(* ================================================================== *)

(** [hasRole(allowedRoles)], given what [getSession()] found. *)
Definition hasRole (current : option Session.t) (allowedRoles : list MembershipRole) : bool :=
  match current with
  | None => false
  | Some session => existsb (role_eqb (Session.role session)) allowedRoles
  end.

Definition isAdmin (current : option Session.t) : bool := hasRole current [ADMIN].

Definition isManagerOrAbove (current : option Session.t) : bool :=
  hasRole current [ADMIN; MANAGER].

Record CompanyContext := mkCompanyContext {
  context_companyId : string;
  context_userId : string }.

Definition getCompanyContext (current : option Session.t) : option CompanyContext :=
  match current with
  | None => None
  | Some session => Some (mkCompanyContext (Session.companyId session) (Session.userId session))
  end.

Definition requireCompanyContext (current : option Session.t) : Outcome CompanyContext :=
  match getCompanyContext current with
  | None => Throw (Error "Company context required")
  | Some context => Return context
  end.

(** [TenantPrisma.fromSession()] *)
Definition fromSession (current : option Session.t) : Outcome TenantPrisma.t :=
  match requireCompanyContext current with
  | Throw e => Throw e
  | Return context =>
      Return (TenantPrisma.mk (context_companyId context) (context_userId context))
  end.

(** [TenantPrisma.fromSessionOptional()] *)
Definition fromSessionOptional (current : option Session.t) : option TenantPrisma.t :=
  match getCompanyContext current with
  | None => None
  | Some context =>
      Some (TenantPrisma.mk (context_companyId context) (context_userId context))
  end.

(* ================================================================== *)
(** * Signing in (src/lib/auth.ts) *)
(* ================================================================== *)

Module Credentials.
Record t := mk { email : option string; password : option string }.
End Credentials.

(** The user object [authorize] returns. *)
Module NextAuthUser.
Record t := mk {
  id : string;
  email : string;
  name : option string;
  companyId : string;
  role : MembershipRole }.
End NextAuthUser.

(** The token: the fields the callbacks read and write. *)
Module JWT.
Record t := mk {
  userId : string;
  companyId : string;
  role : MembershipRole;
  email : string;
  name : option string }.
End JWT.

(** The session object: its [user], when it has one. *)
Module NextAuthSession.
Record t := mk { user : option NextAuthUser.t; expires : string }.
End NextAuthSession.

(** A string as a condition: truthy unless missing or empty. *)
Definition if_truthy (s : option string) : option string :=
  match s with
  | Some "" => None
  | _ => s
  end.

Module Auth.
Section Authorize.
  Variable compare : string -> string -> bool.     (* bcryptjs' compare(password, hash) *)

(** [include: { memberships: ... }]: the memberships of the user, in the
    order the table gives them. *)
Definition memberships_of (db : DB) (user : User) : list Membership :=
  filter (fun m => String.eqb (membership_userId m) (user_id user)) (memberships db).

(** [authorize(credentials)] of the credentials provider. *)
Definition authorize (credentials : option Credentials.t) (db : DB) : option NextAuthUser.t :=
  match credentials with
  | None => None
  | Some credentials =>
      match if_truthy (Credentials.email credentials),
            if_truthy (Credentials.password credentials) with
      | Some email, Some password =>
          (* Find user by email and include memberships *)
          match prisma.findUnique userModel
                  (mkUniqueArgs [Field "email" (Equals (SStr email))]) db with
          | None => None
          | Some user =>
              (* Verify password *)
              if negb (compare password (user_passwordHash user)) then None
              else
                (* Get the first membership *)
                match hd_error (memberships_of db user) with
                | None => None        (* User has no company membership *)
                | Some primaryMembership =>
                    Some (NextAuthUser.mk (user_id user) (user_email user)
                            (if_truthy (Some (user_name user)))
                            (membership_companyId primaryMembership)
                            (membership_role primaryMembership))
                end
          end
      | _, _ => None
      end
  end.
End Authorize.

(** The [jwt] callback: [user] is there at sign-in only. *)
Definition jwt (token : JWT.t) (user : option NextAuthUser.t) : JWT.t :=
  match user with
  | Some user =>
      JWT.mk (NextAuthUser.id user) (NextAuthUser.companyId user) (NextAuthUser.role user)
             (JWT.email token) (JWT.name token)
  | None => token
  end.

(** The [session] callback. *)
Definition session (session : NextAuthSession.t) (token : JWT.t) : NextAuthSession.t :=
  NextAuthSession.mk
    (Some (NextAuthUser.mk (JWT.userId token) (JWT.email token)
                           (if_truthy (JWT.name token))
                           (JWT.companyId token) (JWT.role token)))
    (NextAuthSession.expires session).
End Auth.

(** [getSession()] of src/lib/server-auth.ts, given what
    [getServerSession(authOptions)] resolved to. *)
Definition getSession (session : option NextAuthSession.t) : option Session.t :=
  match session with
  | None => None
  | Some session =>
      match NextAuthSession.user session with
      | None => None
      | Some user =>
          Some (Session.mk (NextAuthUser.id user) (NextAuthUser.companyId user)
                           (NextAuthUser.role user) (NextAuthUser.email user)
                           (NextAuthUser.name user))
      end
  end.

(* ================================================================== *)
(** * The route guard (src/middleware.ts) *)
(* ================================================================== *)

(** [s.startsWith(prefix)] *)
Definition startsWith (s prefix : string) : bool := String.prefix prefix s.

Module Middleware.
Inductive Verdict :=
| next                          (* NextResponse.next() *)
| redirect_to (url : string)    (* NextResponse.redirect(new URL(url, req.url)) *)
| sign_in.                      (* the sign-in page, where withAuth sends the unauthorized *)

(** The middleware function: [req.nextauth.token] and [req.nextUrl.pathname]. *)
Definition middleware (token : option JWT.t) (pathname : string) : Verdict :=
  match token with
  | Some token =>
      let userRole := JWT.role token in
      (* Admin-only routes *)
      if startsWith pathname "/admin" && negb (role_eqb userRole ADMIN)
      then redirect_to "/dashboard"
      (* Manager+ routes (Admin or Manager) *)
      else if (startsWith pathname "/manage" || startsWith pathname "/reports"
               || startsWith pathname "/manager")
              && negb (existsb (role_eqb userRole) [ADMIN; MANAGER])
      then redirect_to "/dashboard"
      (* Redirect authenticated users away from login page *)
      else if String.eqb pathname "/login" then redirect_to "/dashboard"
      else next
  | None => next
  end.

(** The [authorized] callback. *)
Definition authorized (token : option JWT.t) (pathname : string) : bool :=
  (* Always allow access to public routes *)
  if String.eqb pathname "/"
     || startsWith pathname "/login"
     || startsWith pathname "/api/auth"
     || startsWith pathname "/api/company/create"
     || startsWith pathname "/_next"
     || String.eqb pathname "/favicon.ico"
  then true
  (* All other routes require authentication *)
  else if startsWith pathname "/dashboard"
          || startsWith pathname "/admin"
          || startsWith pathname "/manage"
          || startsWith pathname "/reports"
          || startsWith pathname "/expenses"
          || startsWith pathname "/employee"
          || startsWith pathname "/profile"
          || startsWith pathname "/api/"
  then is_some token
  (* Default: require authentication for unmatched routes *)
  else is_some token.

(** [withAuth(middleware, { callbacks: { authorized } })]: the middleware
    function runs for the requests [authorized] lets through; the others
    are sent to the sign-in page. *)
Definition guard (token : option JWT.t) (pathname : string) : Verdict :=
  if authorized token pathname then middleware token pathname else sign_in.

(** The routes [authorized] opens to everyone. *)
Definition public (pathname : string) : bool :=
  String.eqb pathname "/"
  || startsWith pathname "/login"
  || startsWith pathname "/api/auth"
  || startsWith pathname "/api/company/create"
  || startsWith pathname "/_next"
  || String.eqb pathname "/favicon.ico".
End Middleware.

(* ================================================================== *)
(** * The pages' own role checks *)
(* ================================================================== *)

(** A promise used as a condition without [await]: an object, truthy
    whatever it resolves to. *)
Definition not_awaited {A} (promise : A) : bool := true.

Inductive ManagerPage_view :=
| AccessDenied
| ManagerDashboard (tenant : TenantPrisma.t) (session : Session.t).

(** [ManagerPage()]: [if (!hasRole(["MANAGER", "ADMIN"]))] tests the
    promise [hasRole] returns. *)
Definition ManagerPage (current : option Session.t) : Outcome ManagerPage_view :=
  match requireAuth current with
  | Throw e => Throw e
  | Return session =>
      (* Check if user has manager or admin role *)
      if negb (not_awaited (hasRole current [MANAGER; ADMIN])) then Return AccessDenied
      else
        let tenant := TenantPrisma.mk (Session.companyId session) (Session.userId session) in
        Return (ManagerDashboard tenant session)
  end.

(** [AdminDashboard()] of src/app/admin/page.tsx: the company whose admin
    panel it renders.  What [hasRole("ADMIN")] resolves to is discarded. *)
Definition AdminDashboard (current : option Session.t) : Async Company :=
  session <- lift (requireAuth current) ;;
  let _ := hasRole current [ADMIN] in
  let tenant := TenantPrisma.mk (Session.companyId session) (Session.userId session) in
  TenantPrisma.getCompany tenant.

(* ================================================================== *)
(** * Projects: the actions and POST /api/projects *)
(* ================================================================== *)

(** A project as the payload of a response. *)
Definition project_value (p : Project) : jsval :=
  JObj [("id", JStr (project_id p));
        ("companyId", JStr (project_companyId p));
        ("name", JStr (project_name p));
        ("description", match project_description p with Some d => JStr d | None => JNull end);
        ("active", JBool (project_active p))].

(** [z.boolean()] *)
Definition z_boolean (v : jsval) : option bool :=
  match v with
  | JBool b => Some b
  | _ => None
  end.

(** What the ORM answers a [create] whose [data] lacks a required column. *)
Definition missing_argument (field : string) : exn :=
  Error ("Argument `" ++ field ++ "` is missing.").

Record CreateProject := mkCreateProject {
  create_name : string;
  create_description : option string;
  create_active : bool }.

Record UpdateProject := mkUpdateProject {
  update_project_id : string;
  update_name : option string;
  update_project_description : option string;
  update_active : option bool }.

Record ToggleProject := mkToggleProject {
  toggle_id : string;
  toggle_active : bool }.

(** [createProjectSchema] of the actions: the description is at most 500
    characters long; the one of the route ([max_description = None]) does
    not bound it. *)
Definition createProjectSchema_with (max_description : option nat) (data : jsval)
  : Outcome CreateProject :=
  if is_object data then
    match z_string 1 (Some 100) (prop "name" data),
          z_optional (z_string 0 max_description) (prop "description" data),
          z_default true z_boolean (prop "active" data) with
    | Some n, Some d, Some a => Return (mkCreateProject n d a)
    | n, d, a =>
        Throw (ZodError (issues_of [("name", is_some n); ("description", is_some d);
                                    ("active", is_some a)]))
    end
  else Throw (ZodError [""]).

Definition createProjectSchema : jsval -> Outcome CreateProject :=
  createProjectSchema_with (Some 500).

Definition api_createProjectSchema : jsval -> Outcome CreateProject :=
  createProjectSchema_with None.

(** [z.object({ id: z.string().min(1, ...), active: z.boolean() })] *)
Definition toggleProjectSchema (data : jsval) : Outcome ToggleProject :=
  if is_object data then
    match z_string 1 None (prop "id" data), z_boolean (prop "active" data) with
    | Some i, Some a => Return (mkToggleProject i a)
    | i, a => Throw (ZodError (issues_of [("id", is_some i); ("active", is_some a)]))
    end
  else Throw (ZodError [""]).

(** [x !== y] for a new string and a column that may be null. *)
Definition differs (new : string) (old : option string) : bool :=
  match old with
  | Some o => negb (String.eqb new o)
  | None => true
  end.

Definition from_to (from to : jsval) : jsval := JObj [("from", from); ("to", to)].

(** The [changes] object [updateProject] writes to the audit log. *)
Definition changes_of (updateData : UpdateProject) (existingProject : Project)
  : list (string * jsval) :=
  (match update_name updateData with
   | Some n =>
       if negb (String.eqb n "") && negb (String.eqb n (project_name existingProject))
       then [("name", from_to (JStr (project_name existingProject)) (JStr n))]
       else []
   | None => []
   end)
  ++ (match update_project_description updateData with
      | Some d =>
          if differs d (project_description existingProject)
          then [("description",
                 from_to (match project_description existingProject with
                          | Some o => JStr o
                          | None => JNull
                          end) (JStr d))]
          else []
      | None => []
      end)
  ++ (match update_active updateData with
      | Some a =>
          if negb (Bool.eqb a (project_active existingProject))
          then [("active", from_to (JBool (project_active existingProject)) (JBool a))]
          else []
      | None => []
      end).

Section ProjectHandlers.
  Variable is_cuid : string -> bool.                   (* the pattern of z.string().cuid() *)
  Variable now : string.                               (* new Date() *)

Definition updateProjectSchema (data : jsval) : Outcome UpdateProject :=
  if is_object data then
    match z_cuid is_cuid (prop "id" data),
          z_optional (z_string 1 (Some 100)) (prop "name" data),
          z_optional (z_string 0 (Some 500)) (prop "description" data),
          z_optional z_boolean (prop "active" data) with
    | Some i, Some n, Some d, Some a => Return (mkUpdateProject i n d a)
    | i, n, d, a =>
        Throw (ZodError (issues_of [("id", is_some i); ("name", is_some n);
                                    ("description", is_some d); ("active", is_some a)]))
    end
  else Throw (ZodError [""]).

(** ** createProject *)

Definition createProject_action (tenant : TenantPrisma.t) (session : Session.t)
  (validatedData : option CreateProject) : Async jsval :=
  match validatedData with
  | None => throw (missing_argument "name")
  | Some data =>
      project <- project_create
                   (mkProjectCreateInput (TenantPrisma.getCompanyId tenant)
                      (create_name data) (create_description data) (create_active data)) ;;
      (* Audit log the creation *)
      _ <- TenantPrisma.createAuditLog tenant "CREATE_PROJECT" "Project" (project_id project)
             (Some (JObj [("projectName", JStr (project_name project));
                          ("createdBy", JStr (Session.userId session))])) ;;
      ret (project_value project)
  end.

(** Only admins and managers can create projects *)
Definition createProject : option Session.t -> option jsval -> Async jsval :=
  createServerAction (Some [ADMIN; MANAGER]) (Some createProjectSchema) createProject_action.

(** ** updateProject *)

Definition updateProject_action (tenant : TenantPrisma.t) (session : Session.t)
  (validatedData : option UpdateProject) : Async jsval :=
  match validatedData with
  | None =>
      throw (Error "Cannot destructure property 'id' of 'validatedData' as it is undefined.")
  | Some updateData =>
      let id := update_project_id updateData in
      (* Get the existing project to compare changes *)
      existingProject <- read (TenantPrisma.project.findUnique tenant
                                 (mkUniqueArgs (by_id id))) ;;
      match existingProject with
      | None => throw (Error "Project not found")
      | Some existingProject =>
          updatedProject <-
            TenantPrisma.project.update tenant (mkUniqueArgs (by_id id))
              (mkProjectUpdateInput (update_name updateData)
                 (option_map Some (update_project_description updateData))
                 (update_active updateData)) ;;
          (* Audit log the update with changes *)
          _ <- TenantPrisma.createAuditLog tenant "UPDATE_PROJECT" "Project" id
                 (Some (JObj [("projectName", JStr (project_name updatedProject));
                              ("changes", JObj (changes_of updateData existingProject));
                              ("updatedBy", JStr (Session.userId session))])) ;;
          ret (project_value updatedProject)
      end
  end.

(** Only admins and managers can update projects *)
Definition updateProject : option Session.t -> option jsval -> Async jsval :=
  createServerAction (Some [ADMIN; MANAGER]) (Some updateProjectSchema) updateProject_action.

(** ** toggleProjectStatus *)

Definition toggleProjectStatus_action (tenant : TenantPrisma.t) (session : Session.t)
  (validatedData : option ToggleProject) : Async jsval :=
  match validatedData with
  | None =>
      throw (Error "Cannot destructure property 'id' of 'validatedData' as it is undefined.")
  | Some data =>
      let id := toggle_id data in
      let active := toggle_active data in
      if String.eqb id "" then throw (Error "Project ID is required")
      else
        (* Check if project exists *)
        project <- read (TenantPrisma.project.findUnique tenant (mkUniqueArgs (by_id id))) ;;
        match project with
        | None => throw (Error "Project not found")
        | Some project =>
            (* Update the active status *)
            updatedProject <-
              TenantPrisma.project.update tenant (mkUniqueArgs (by_id id))
                (mkProjectUpdateInput None None (Some active)) ;;
            (* Audit log the status change.  The project was read with
               [select: { id: true, name: true }]: its [active] is undefined,
               and [!undefined] is true. *)
            let project_active_read := JUndefined in
            _ <- TenantPrisma.createAuditLog tenant "TOGGLE_PROJECT_STATUS" "Project" id
                   (Some (JObj [("projectName", JStr (project_name project));
                                ("statusChange",
                                 from_to project_active_read
                                         (JBool (negb (truthy project_active_read))));
                                ("updatedBy", JStr (Session.userId session))])) ;;
            ret (project_value updatedProject)
        end
  end.

(** Admins and managers can toggle project status *)
Definition toggleProjectStatus : option Session.t -> option jsval -> Async jsval :=
  createServerAction (Some [ADMIN; MANAGER]) (Some toggleProjectSchema)
    toggleProjectStatus_action.

(** ** POST /api/projects *)

Definition projects_handler (req : NextRequest) (tenant : TenantPrisma.t)
  (session : Session.t) (validatedData : option CreateProject) : Async NextResponse :=
  match validatedData with
  | None => throw (missing_argument "name")
  | Some data =>
      project <- project_create
                   (mkProjectCreateInput (Session.companyId session)
                      (create_name data) (create_description data) (create_active data)) ;;
      (* Audit log the creation *)
      _ <- auditAction now tenant "CREATE_PROJECT" "Project" (project_id project)
             [("projectName", JStr (project_name project));
              ("createdBy", JStr (Session.userId session))] ;;
      lift (createSuccessResponse (project_value project)
              (Some "Project created successfully"))
  end.

(** POST /api/projects - Create new project (Admin only) *)
Definition projects_POST : option Session.t -> NextRequest -> Async NextResponse :=
  createApiHandler (Some [ADMIN]) (Some api_createProjectSchema) projects_handler.

End ProjectHandlers.

(* ================================================================== *)
(** * Code that does not read the approval policies *)
(* ================================================================== *)

(** [m] answers the same and writes the same whatever the ApprovalPolicy
    table holds, and leaves that table as it found it. *)
Definition ignores_policies {A} (m : Async A) : Prop :=
  forall (db : DB) (policies : list ApprovalPolicy),
    m (with_approvalPolicies (fun _ => policies) db)
    = (fst (m db), with_approvalPolicies (fun _ => policies) (snd (m db))).

(* ================================================================== *)
(** * Uploads: the presigned-URL route and src/lib/file-upload.ts *)
(* ================================================================== *)

(** [z.number().min(lo).max(hi)]: a Number that is not NaN, within the
    bounds. *)
Definition z_number_between (lo hi : Z) (v : jsval) : option Number.t :=
  match v with
  | JNum x =>
      if negb (Number.isNaN x) && Number.leb (Number.of_Z lo) x
         && Number.leb x (Number.of_Z hi)
      then Some x else None
  | _ => None
  end.

Record PresignedUrlBody := mkPresignedUrlBody {
  fileName : string;
  mimeType : string;
  fileSize : Number.t }.

Definition presignedUrlSchema (data : jsval) : Outcome PresignedUrlBody :=
  if is_object data then
    match z_string 1 None (prop "fileName" data),
          z_string 1 None (prop "mimeType" data),
          z_number_between 1 (10 * 1024 * 1024) (* 10MB max *) (prop "fileSize" data) with
    | Some n, Some m, Some s => Return (mkPresignedUrlBody n m s)
    | n, m, s =>
        Throw (ZodError (issues_of [("fileName", is_some n); ("mimeType", is_some m);
                                    ("fileSize", is_some s)]))
    end
  else Throw (ZodError [""]).

Section Upload.
  (** What the upload code takes from its runtime. *)
  Variable randomBytes_hex : string.       (* randomBytes(16).toString('hex') *)
  (* getSignedUrl(s3Client, new PutObjectCommand({ Key, ContentType,
     ContentLength }), { expiresIn: 3600 }) *)
  Variable getSignedUrl : string -> string -> Number.t -> Outcome string.

(** [generatePresignedPost(fileName, mimeType, fileSize)]: the object
    [{ url, fields: { key, 'Content-Type' } }]. *)
Definition generatePresignedPost (fileName mimeType : string) (fileSize : Number.t)
  : Outcome jsval :=
  let key := ("receipts/" ++ randomBytes_hex ++ "/" ++ fileName)%string in
  match getSignedUrl key mimeType fileSize with
  | Throw e => Throw e
  | Return presignedUrl =>
      Return (JObj [("url", JStr presignedUrl);
                    ("fields", JObj [("key", JStr key); ("Content-Type", JStr mimeType)])])
  end.

(** POST of the presigned-URL route, given what [getSession()] found. *)
Definition presigned_POST (current : option Session.t) (request : NextRequest)
  : NextResponse :=
  match current with
  | None => NextResponse_json (JObj [("error", JStr "Unauthorized")]) (Some 401)
  | Some session =>
      match
        match read_json request with
        | Throw e => Throw e
        | Return body =>
            match presignedUrlSchema body with
            | Throw e => Throw e
            | Return data =>
                generatePresignedPost (fileName data) (mimeType data) (fileSize data)
            end
        end
      with
      | Return presignedData =>
          NextResponse_json (JObj [("success", JBool true); ("data", presignedData)]) None
      | Throw error =>
          NextResponse_json (JObj [("error", JStr "Failed to generate upload URL")])
                            (Some 500)
      end
  end.
End Upload.

(* ================================================================== *)
(** * Toasts (src/hooks/use-toast.ts) *)
(* ================================================================== *)

Module Toast.
Record t := mk {
  id : string;
  title : option string;
  description : option string;
  variant : string }.

(** [toast({ title, description, variant = 'default' })] on the global
    list [toasts], with the id it drew. *)
Definition toast (random_id : string) (title description : option string)
  (variant : option string) (toasts : list t) : list t :=
  toasts ++ [mk random_id title description
                (match variant with Some v => v | None => "default" end)].

(** [dismiss(id)]; the timer [toast] sets runs the same filter after 5
    seconds. *)
Definition dismiss (id' : string) (toasts : list t) : list t :=
  filter (fun t => negb (String.eqb (id t) id')) toasts.
End Toast.

(* ================================================================== *)
(** * Properties *)
(* ================================================================== *)

(** ** Tenant isolation of the query methods *)

Section DelegateFacts.
  Context {R : Type} (M : Model R).

Lemma insert_sorted_In (le : R -> R -> bool) (x y : R) (l : list R) :
  In y (prisma.insert_sorted le x l) <-> y = x \/ In y l.
Proof.
  induction l as [|z l IH]; simpl.
  - intuition congruence.
  - destruct (le x z); simpl; rewrite ?IH; intuition congruence.
Qed.

Lemma sort_rows_In (le : R -> R -> bool) (y : R) (l : list R) :
  In y (prisma.sort_rows le l) <-> In y l.
Proof.
  induction l as [|z l IH]; simpl; [tauto|].
  rewrite insert_sorted_In, IH. intuition congruence.
Qed.

Lemma insert_sorted_length (le : R -> R -> bool) (x : R) (l : list R) :
  List.length (prisma.insert_sorted le x l) = S (List.length l).
Proof.
  induction l as [|z l IH]; simpl; [reflexivity|].
  destruct (le x z); simpl; congruence.
Qed.

Lemma sort_rows_length (le : R -> R -> bool) (l : list R) :
  List.length (prisma.sort_rows le l) = List.length l.
Proof.
  induction l as [|z l IH]; simpl; [reflexivity|].
  rewrite insert_sorted_length. congruence.
Qed.

Lemma order_rows_In (db : DB) o (y : R) (l : list R) :
  In y (prisma.order_rows M db o l) <-> In y l.
Proof.
  destruct o as [[k []]|]; simpl; try apply sort_rows_In. tauto.
Qed.

Lemma order_rows_length (db : DB) o (l : list R) :
  List.length (prisma.order_rows M db o l) = List.length l.
Proof.
  destruct o as [[k []]|]; simpl; try apply sort_rows_length. reflexivity.
Qed.

Lemma In_firstn (n : nat) (y : R) (l : list R) : In y (firstn n l) -> In y l.
Proof.
  intros H. rewrite <- (firstn_skipn n l). apply in_or_app. left. exact H.
Qed.

Lemma In_skipn (n : nat) (y : R) (l : list R) : In y (skipn n l) -> In y l.
Proof.
  intros H. rewrite <- (firstn_skipn n l). apply in_or_app. right. exact H.
Qed.

Lemma distinct_rows_In (key : R -> list scalar) (seen : list (list scalar)) (y : R)
  (l : list R) :
  In y (prisma.distinct_rows key seen l) -> In y l.
Proof.
  revert seen. induction l as [|x l IH]; intros seen; simpl; [tauto|].
  destruct (existsb _ seen).
  - intros H. right. exact (IH _ H).
  - intros [H|H]; [left; exact H | right; exact (IH _ H)].
Qed.

Lemma distinct_rows_length (key : R -> list scalar) (seen : list (list scalar)) (l : list R) :
  List.length (prisma.distinct_rows key seen l) <= List.length l.
Proof.
  revert seen. induction l as [|x l IH]; intros seen; simpl; [lia|].
  destruct (existsb _ seen); simpl.
  - specialize (IH seen). lia.
  - specialize (IH (key x :: seen)). lia.
Qed.

Lemma distinct_on_In (db : DB) (columns : list string) (y : R) (l : list R) :
  In y (prisma.distinct_on M db columns l) -> In y l.
Proof.
  destruct columns; simpl; [tauto | apply distinct_rows_In].
Qed.

Lemma distinct_on_length (db : DB) (columns : list string) (l : list R) :
  List.length (prisma.distinct_on M db columns l) <= List.length l.
Proof.
  destruct columns; simpl; [lia | apply distinct_rows_length].
Qed.

Lemma from_cursor_In (at_cursor : R -> bool) (y : R) (l : list R) :
  In y (prisma.from_cursor at_cursor l) -> In y l.
Proof.
  induction l as [|x l IH]; simpl; [tauto|].
  destruct (at_cursor x); [tauto | intros H; right; exact (IH H)].
Qed.

Lemma from_cursor_length (at_cursor : R -> bool) (l : list R) :
  List.length (prisma.from_cursor at_cursor l) <= List.length l.
Proof.
  induction l as [|x l IH]; simpl; [lia|].
  destruct (at_cursor x); simpl; lia.
Qed.

Lemma window_In (db : DB) (c : option WhereInput) (s n : option nat) (y : R) (l : list R) :
  In y (prisma.window M db c s n l) -> In y l.
Proof.
  unfold prisma.window. intros H.
  assert (H1 : In y (match s with
                     | Some k => skipn k (match c with
                                          | Some w => prisma.from_cursor
                                                        (fun r => matches (view M db r) w) l
                                          | None => l
                                          end)
                     | None => match c with
                               | Some w => prisma.from_cursor
                                             (fun r => matches (view M db r) w) l
                               | None => l
                               end
                     end)).
  { destruct n; [eapply In_firstn; eassumption | assumption]. }
  assert (H2 : In y (match c with
                     | Some w => prisma.from_cursor (fun r => matches (view M db r) w) l
                     | None => l
                     end)).
  { destruct s; [eapply In_skipn; eassumption | assumption]. }
  destruct c; [eapply from_cursor_In; eassumption | assumption].
Qed.

Lemma window_length (db : DB) (c : option WhereInput) (s n : option nat) (l : list R) :
  List.length (prisma.window M db c s n l) <= List.length l.
Proof.
  unfold prisma.window.
  assert (H2 : List.length (match c with
                            | Some w => prisma.from_cursor
                                          (fun r => matches (view M db r) w) l
                            | None => l
                            end) <= List.length l).
  { destruct c; [apply from_cursor_length | lia]. }
  destruct n, s; rewrite ?length_firstn, ?length_skipn; lia.
Qed.

Lemma page_In (db : DB) (args : FindManyArgs) (y : R) (l : list R) :
  In y (prisma.page M db args l) -> In y l.
Proof.
  unfold prisma.page. destruct (take args) as [[|k|k]|]; intros H.
  1, 2, 4: eapply window_In; eassumption.
  apply in_rev in H. apply window_In in H. apply in_rev. exact H.
Qed.

Lemma page_length (db : DB) (args : FindManyArgs) (l : list R) :
  List.length (prisma.page M db args l) <= List.length l.
Proof.
  unfold prisma.page. destruct (take args) as [[|k|k]|].
  1, 2, 4: apply window_length.
  rewrite length_rev. eapply Nat.le_trans; [apply window_length|].
  rewrite length_rev. lia.
Qed.

(** Every row [findMany] returns is a row of the table that satisfies the
    filter it was given. *)
Lemma findMany_sound (args : FindManyArgs) (db : DB) (r : R) :
  In r (prisma.findMany M args db) ->
  In r (table M db) /\ matches (view M db r) (or_empty (where_ args)) = true.
Proof.
  unfold prisma.findMany. intros H.
  apply page_In in H. apply distinct_on_In in H. apply order_rows_In in H.
  apply filter_In in H. exact H.
Qed.

Lemma findFirst_sound (args : FindManyArgs) (db : DB) (r : R) :
  prisma.findFirst M args db = Some r ->
  In r (table M db) /\ matches (view M db r) (or_empty (where_ args)) = true.
Proof.
  unfold prisma.findFirst. intros H. apply findMany_sound.
  destruct (prisma.findMany M args db); simpl in H; [discriminate|].
  injection H as ->. left. reflexivity.
Qed.

Lemma findUnique_sound (args : UniqueArgs) (db : DB) (r : R) :
  prisma.findUnique M args db = Some r ->
  In r (table M db) /\ matches (view M db r) (unique_where args) = true.
Proof.
  unfold prisma.findUnique. intros H. apply find_some in H. exact H.
Qed.

Lemma filter_length_le (f g : R -> bool) (l : list R) :
  (forall x, In x l -> f x = true -> g x = true) ->
  List.length (filter f l) <= List.length (filter g l).
Proof.
  induction l as [|x l IH]; simpl; intros H; [lia|].
  assert (IH' : List.length (filter f l) <= List.length (filter g l)).
  { apply IH. intros y Hy. apply H. right. exact Hy. }
  destruct (f x) eqn:Hf.
  - rewrite (H x (or_introl eq_refl) Hf). simpl. lia.
  - destruct (g x); simpl; lia.
Qed.

(** [count] counts no more than the rows satisfying any condition the
    filter implies. *)
Lemma count_le (args : FindManyArgs) (db : DB) (g : R -> bool) :
  (forall r, In r (table M db) ->
             matches (view M db r) (or_empty (where_ args)) = true -> g r = true) ->
  prisma.count M args db <= List.length (filter g (table M db)).
Proof.
  intros H. unfold prisma.count, prisma.findMany.
  eapply Nat.le_trans; [apply page_length|].
  eapply Nat.le_trans; [apply distinct_on_length|].
  rewrite order_rows_length. apply filter_length_le. exact H.
Qed.

End DelegateFacts.

Lemma filter_map_length {A B : Type} (F : A -> B) (g : B -> bool) (l : list A) :
  List.length (filter g (map F l)) = List.length (filter (fun x => g (F x)) l).
Proof.
  induction l as [|x l IH]; simpl; [reflexivity|].
  destruct (g (F x)); simpl; congruence.
Qed.

(** The property defined last in [{ ...w, k: v }] holds of every row the
    object selects, whatever [w] says. *)
Lemma matches_spread_with (v : View) (w : WhereInput) (p : WhereProp) :
  matches v (spread_with w p) = true -> matches_prop v p = true.
Proof.
  unfold matches, spread_with. rewrite forallb_app. simpl.
  intros H. apply andb_true_iff in H. destruct H as [_ H].
  apply andb_true_iff in H. tauto.
Qed.

Section OwnCompany.
  Variables (this : TenantPrisma.t) (db : DB).

Lemma own_company_project (p : Project) :
  matches_prop (project_view db p) (TenantPrisma.own_company this) = true ->
  project_companyId p = TenantPrisma.companyId this.
Proof. cbn. apply String.eqb_eq. Qed.

Lemma own_company_membership (m : Membership) :
  matches_prop (membership_view db m) (TenantPrisma.own_company this) = true ->
  membership_companyId m = TenantPrisma.companyId this.
Proof. cbn. apply String.eqb_eq. Qed.

Lemma own_company_policy (p : ApprovalPolicy) :
  matches_prop (policy_view db p) (TenantPrisma.own_company this) = true ->
  policy_companyId p = TenantPrisma.companyId this.
Proof. cbn. apply String.eqb_eq. Qed.

Lemma own_company_audit (a : AuditLog) :
  matches_prop (audit_view db a) (TenantPrisma.own_company this) = true ->
  audit_companyId a = TenantPrisma.companyId this.
Proof. cbn. apply String.eqb_eq. Qed.

Lemma own_company_snapshot (s : ExchangeRateSnapshot) :
  matches_prop (snapshot_view db s) (TenantPrisma.own_company this) = true ->
  snapshot_companyId s = TenantPrisma.companyId this.
Proof. cbn. apply String.eqb_eq. Qed.

(** An expense passes [project: { companyId }] only when its project is
    found and is the company's. *)
Lemma own_project_expense (e : Expense) :
  matches_prop (expense_view db e) (TenantPrisma.own_project this) = true ->
  option_map project_companyId (find_project db (expense_projectId e)) = Some (TenantPrisma.companyId this).
Proof.
  cbn. destruct (find_project db (expense_projectId e)) as [p|]; cbn; [|discriminate].
  rewrite andb_true_r. intros H. apply String.eqb_eq in H. congruence.
Qed.

End OwnCompany.

(** The filter each call hands to the ORM is the one the wrapper built. *)
Lemma with_where_filter (args : option FindManyArgs) (w : WhereInput) :
  or_empty (where_ (TenantPrisma.with_where args w)) = w.
Proof. destruct args; reflexivity. Qed.

Lemma count_args_filter (args : option FindManyArgs) (w : WhereInput) :
  or_empty (where_ (TenantPrisma.count_args args w)) = w.
Proof. destruct args; reflexivity. Qed.

Lemma belongs_tob_spec (db : DB) (c : string) (r : Row) :
  belongs_to db c r -> belongs_tob db c r = true.
Proof.
  unfold belongs_to, belongs_tob. intros ->. apply String.eqb_refl.
Qed.

Lemma row_of_load (db : DB) (rel : Relations) (r : AnyRow) :
  row_of (load db rel r) = r.
Proof. destruct rel. reflexivity. Qed.

(** C1. For every query method the tenant wrapper exposes (findMany,
    findUnique, findFirst and count of project, expense, membership,
    approvalPolicy, auditLog and exchangeRateSnapshot, where they exist) and
    every argument object of the caller (filter, order, cursor, skip, take,
    distinct, and the relations of include and select), also one whose
    filter names another company, every row the call selects from its
    table belongs to the wrapper's company (an expense through its
    project), and a count counts none but the company's rows: the tenant's
    property is defined after the caller's filter is spread, so it
    overrides it.  The rows loaded with them through relations are not
    filtered. *)
Theorem tenant_queries_scope_the_rows_they_select
  (this : TenantPrisma.t) (db : DB) (q : QueryCall) :
  scoped_to db (TenantPrisma.companyId this) q (run_query this q db).
Proof.
  destruct q as [a|a|a|a|a|a|a|a|a|a|a|a|a|a]; cbn [run_query scoped_to rows_read].
  all: try (apply Forall_forall; intros r Hr; unfold many in Hr; apply in_map_iff in Hr;
            destruct Hr as [x [<- Hx]]; apply findMany_sound in Hx;
            destruct Hx as [_ Hx]; rewrite with_where_filter in Hx;
            apply matches_spread_with in Hx;
            unfold selected_in; rewrite row_of_load; unfold belongs_to; cbn [company_of]).
  all: try (intros r Hr; unfold one, first in Hr;
            match type of Hr with
            | option_map _ ?o = _ => destruct o as [x|] eqn:Hx; [|discriminate]
            end;
            injection Hr as <-;
            first [apply findUnique_sound in Hx | apply findFirst_sound in Hx];
            destruct Hx as [_ Hx];
            rewrite ?with_where_filter in Hx;
            cbn [TenantPrisma.unique_with unique_where] in Hx;
            apply matches_spread_with in Hx;
            unfold selected_in; rewrite row_of_load; unfold belongs_to; cbn [company_of]).
  all: try (rewrite filter_map_length;
            first [apply (count_le projectModel) | apply (count_le expenseModel)
                  | apply (count_le membershipModel)];
            intros r _ Hr; rewrite count_args_filter in Hr;
            apply matches_spread_with in Hr; apply belongs_tob_spec;
            unfold belongs_to; cbn [company_of]).
  all: first [ f_equal; eapply own_company_project; eassumption
             | eapply own_project_expense; eassumption
             | f_equal; eapply own_company_membership; eassumption
             | f_equal; eapply own_company_policy; eassumption
             | f_equal; eapply own_company_audit; eassumption
             | f_equal; eapply own_company_snapshot; eassumption ].
Qed.

(** The manager of the seeded company lists its expenses with each
    employee and the employee's memberships: the membership the employee
    has in the rival company comes back with them, and it is not a row of
    the manager's company. *)
Lemma an_include_returns_a_row_of_another_company :
  In (Scoped (MembershipRow Seed.moonlighting))
     (rows_returned
        (run_query (Seed.tenant_of Seed.as_manager)
                   (expense_findMany (Some Seed.with_memberships_of_the_employee))
                   Seed.shared_employee))
  /\ belongs_tob Seed.shared_employee (company_id Seed.company)
                 (MembershipRow Seed.moonlighting) = false.
Proof.
  split; [|reflexivity].
  vm_compute. right. right. right. left. reflexivity.
Qed.

(** An example of the override: the seeded company asks for the projects
    of its rival and gets its own. *)
Example conflicting_companyId_is_overridden :
  TenantPrisma.project.findMany (Seed.tenant_of Seed.as_employee)
    (Some (mkFindManyArgs
             (Some [Field "companyId" (Equals (SStr (company_id Seed.rival)))])
             None None None))
    Seed.two_tenants
  = [Seed.project].
Proof. reflexivity. Qed.

(** ** The guard of [expense.create] *)

Lemma matches_id_company (db : DB) (p : Project) (id c : string) :
  matches (project_view db p)
          [Field "id" (Equals (SStr id)); Field "companyId" (Equals (SStr c))] = true
  <-> project_id p = id /\ project_companyId p = c.
Proof.
  cbn. rewrite andb_true_r, andb_true_iff, !String.eqb_eq. tauto.
Qed.

Lemma bind_unfold {A B} (m : Async A) (k : A -> Async B) (db : DB) :
  bind m k db = match m db with
                | (Return a, db') => k a db'
                | (Throw e, db') => (Throw e, db')
                end.
Proof. reflexivity. Qed.

(** C7. [expense.create] of the tenant wrapper: when no project of the
    caller's company has the given [projectId], the call throws and the
    database is left as it was (no expense is inserted); and when the call
    returns a row, a project with that id belongs to the caller's company. *)
Theorem expense_create_checks_project
  (this : TenantPrisma.t) (data : ExpenseCreateInput) (db : DB) :
  ((forall p, In p (projects db) ->
              project_id p = new_expense_projectId data ->
              project_companyId p <> TenantPrisma.companyId this) ->
   (exists e, fst (TenantPrisma.expense.create this data db) = Throw e)
   /\ snd (TenantPrisma.expense.create this data db) = db)
  /\ (forall row, fst (TenantPrisma.expense.create this data db) = Return row ->
      exists p, In p (projects db)
                /\ project_id p = new_expense_projectId data
                /\ project_companyId p = TenantPrisma.companyId this).
Proof.
  unfold TenantPrisma.expense.create. rewrite bind_unfold.
  unfold findUniqueOrThrow, prisma.findUnique. cbn [table view projectModel unique_where].
  destruct (find _ (projects db)) as [p|] eqn:Hfind.
  - apply find_some in Hfind. destruct Hfind as [Hin Hm].
    apply matches_id_company in Hm. destruct Hm as [Hid Hc].
    split.
    + intros Hno. exfalso. exact (Hno p Hin Hid Hc).
    + intros row _. exists p. auto.
  - split.
    + intros _. split; [eexists; reflexivity | reflexivity].
    + intros row H. discriminate H.
Qed.

(** The guard at work: the seeded employee cannot file an expense on the
    rival's project. *)
Lemma expense_create_checks_project_witness :
  (exists e, fst (TenantPrisma.expense.create (Seed.tenant_of Seed.as_employee)
                    Seed.on_rival_project Seed.two_tenants) = Throw e)
  /\ snd (TenantPrisma.expense.create (Seed.tenant_of Seed.as_employee)
            Seed.on_rival_project Seed.two_tenants) = Seed.two_tenants.
Proof.
  apply (proj1 (expense_create_checks_project (Seed.tenant_of Seed.as_employee)
                  Seed.on_rival_project Seed.two_tenants)).
  intros p [<-|[<-|[]]] Hid; vm_compute in Hid; [discriminate Hid|].
  vm_compute. discriminate.
Defined.

(** ** Editing and deleting an expense *)

Lemma bind_read {A B} (f : DB -> A) (k : A -> Async B) (db : DB) :
  bind (read f) k db = k (f db) db.
Proof. reflexivity. Qed.

Lemma failure_failed (m : string) : failed (failure m).
Proof. split; [reflexivity | exists m; reflexivity]. Qed.

Lemma failure_not_succeeded (m : string) : ~ succeeded (failure m).
Proof. unfold succeeded. cbn. discriminate. Qed.

Lemma status_eqb_eq (a b : ExpenseStatus) : status_eqb a b = true <-> a = b.
Proof. destruct a, b; cbn; split; intros H; try reflexivity; discriminate H. Qed.

(** The expense the wrapper finds by id is a row with that id. *)
Lemma tenant_expense_findUnique_id (this : TenantPrisma.t) (id : string) (db : DB) (e : Expense) :
  TenantPrisma.expense.findUnique this (mkUniqueArgs (by_id id)) db = Some e ->
  In e (expenses db) /\ expense_id e = id.
Proof.
  intros H. apply (findUnique_sound expenseModel) in H. destruct H as [Hin Hm].
  split; [exact Hin|].
  cbn in Hm. apply andb_true_iff in Hm. destruct Hm as [Hm _].
  apply String.eqb_eq in Hm. exact Hm.
Qed.

Section OwnPending.
  Variables (valid_date : string -> bool).
  Variables (tenant : TenantPrisma.t) (session : Session.t) (db : DB).

Lemma updateExpense_guard (form : UpdateExpenseForm) :
  let r := updateExpense_action valid_date tenant session (Some form) db in
  (forall v, fst r = Return v -> succeeded v -> own_pending session db (update_id form))
  /\ (not_own_pending session db (update_id form) ->
      (exists v, fst r = Return v /\ failed v) /\ snd r = db).
Proof.
  cbv zeta. unfold updateExpense_action. rewrite bind_read.
  destruct (TenantPrisma.expense.findUnique tenant _ db) as [e|] eqn:Hfind.
  2:{ split.
      - intros v Hv Hs. injection Hv as <-. apply failure_not_succeeded in Hs. contradiction.
      - intros _. split; [eexists; split; [reflexivity | apply failure_failed] | reflexivity]. }
  apply tenant_expense_findUnique_id in Hfind. destruct Hfind as [Hin Hid].
  destruct (String.eqb (expense_employeeId e) (Session.userId session)) eqn:Hown; cbn [negb].
  2:{ split.
      - intros v Hv Hs. injection Hv as <-. apply failure_not_succeeded in Hs. contradiction.
      - intros _. split; [eexists; split; [reflexivity | apply failure_failed] | reflexivity]. }
  apply String.eqb_eq in Hown.
  destruct (status_eqb (expense_status e) PENDING) eqn:Hst; cbn [negb].
  2:{ split.
      - intros v Hv Hs. injection Hv as <-. apply failure_not_succeeded in Hs. contradiction.
      - intros _. split; [eexists; split; [reflexivity | apply failure_failed] | reflexivity]. }
  apply status_eqb_eq in Hst.
  split.
  - intros _ _ _. exists e. auto.
  - intros Hno. exfalso. exact (Hno e Hin Hid (conj Hown Hst)).
Qed.

Lemma deleteExpense_guard (id : string) :
  let r := deleteExpense_action tenant session (Some id) db in
  (forall v, fst r = Return v -> succeeded v -> own_pending session db id)
  /\ (not_own_pending session db id ->
      (exists v, fst r = Return v /\ failed v) /\ snd r = db).
Proof.
  cbv zeta. unfold deleteExpense_action. rewrite bind_read.
  destruct (TenantPrisma.expense.findUnique tenant _ db) as [e|] eqn:Hfind.
  2:{ split.
      - intros v Hv Hs. injection Hv as <-. apply failure_not_succeeded in Hs. contradiction.
      - intros _. split; [eexists; split; [reflexivity | apply failure_failed] | reflexivity]. }
  apply tenant_expense_findUnique_id in Hfind. destruct Hfind as [Hin Hid].
  destruct (String.eqb (expense_employeeId e) (Session.userId session)) eqn:Hown; cbn [negb].
  2:{ split.
      - intros v Hv Hs. injection Hv as <-. apply failure_not_succeeded in Hs. contradiction.
      - intros _. split; [eexists; split; [reflexivity | apply failure_failed] | reflexivity]. }
  apply String.eqb_eq in Hown.
  destruct (status_eqb (expense_status e) PENDING) eqn:Hst; cbn [negb].
  2:{ split.
      - intros v Hv Hs. injection Hv as <-. apply failure_not_succeeded in Hs. contradiction.
      - intros _. split; [eexists; split; [reflexivity | apply failure_failed] | reflexivity]. }
  apply status_eqb_eq in Hst.
  split.
  - intros _ _ _. exists e. auto.
  - intros Hno. exfalso. exact (Hno e Hin Hid (conj Hown Hst)).
Qed.

End OwnPending.

(** C6. Updating or deleting an expense (the actions [updateExpense] and
    [deleteExpense]): the operation succeeds only when an expense with the
    given id is the requester's own ([employeeId] is the session's [userId])
    and is PENDING; when the expense is another employee's, or is not
    PENDING, the operation answers with an error and the database, so the
    expense, is left as it was. *)
Theorem expense_edit_delete_only_own_pending
  (valid_date : string -> bool) (tenant : TenantPrisma.t) (session : Session.t) (db : DB) :
  (forall form : UpdateExpenseForm,
      let r := updateExpense_action valid_date tenant session (Some form) db in
      (forall v, fst r = Return v -> succeeded v -> own_pending session db (update_id form))
      /\ (not_own_pending session db (update_id form) ->
          (exists v, fst r = Return v /\ failed v) /\ snd r = db))
  /\ (forall id : string,
      let r := deleteExpense_action tenant session (Some id) db in
      (forall v, fst r = Return v -> succeeded v -> own_pending session db id)
      /\ (not_own_pending session db id ->
          (exists v, fst r = Return v /\ failed v) /\ snd r = db)).
Proof.
  split.
  - intros form. apply updateExpense_guard.
  - intros id. apply deleteExpense_guard.
Qed.

(** The manager may not delete the employee's expense. *)
Lemma expense_edit_delete_only_own_pending_witness :
  (exists v, fst (deleteExpense_action (Seed.tenant_of Seed.as_manager) Seed.as_manager
                    (Some (expense_id Seed.expense)) Seed.db) = Return v /\ failed v)
  /\ snd (deleteExpense_action (Seed.tenant_of Seed.as_manager) Seed.as_manager
            (Some (expense_id Seed.expense)) Seed.db) = Seed.db.
Proof.
  apply (proj2 (proj2 (expense_edit_delete_only_own_pending
                         Seed.any_date (Seed.tenant_of Seed.as_manager)
                         Seed.as_manager Seed.db) (expense_id Seed.expense))).
  intros e [<-|[]] _ [H _]. vm_compute in H. discriminate H.
Defined.

(** ** Deleting a project *)

Lemma find_Some_of_In {A} (f : A -> bool) (l : list A) (x : A) :
  In x l -> f x = true -> exists y, find f l = Some y.
Proof.
  intros Hin Hf. destruct (find f l) as [y|] eqn:E; [eexists; reflexivity|].
  rewrite (find_none f l E x Hin) in Hf. discriminate Hf.
Qed.


Lemma filter_none {A} (f : A -> bool) (l : list A) :
  (forall x, In x l -> f x = false) -> filter f l = [].
Proof.
  induction l as [|x l IH]; simpl; intros H; [reflexivity|].
  rewrite (H x (or_introl eq_refl)). apply IH. intros y Hy. apply H. right. exact Hy.
Qed.

(** The filter the wrapper gives [project.findUnique] and [project.delete]
    for an id. *)
Lemma matches_own_project_by_id (this : TenantPrisma.t) (db : DB) (id : string) (p : Project) :
  matches (project_view db p)
          (unique_where (TenantPrisma.unique_with (mkUniqueArgs (by_id id))
                                                  (TenantPrisma.own_company this)))
  = String.eqb (project_id p) id
    && String.eqb (project_companyId p) (TenantPrisma.companyId this).
Proof. cbn. rewrite !andb_true_r. reflexivity. Qed.






(** What the wrapper hands back for that: the error of the action. *)
Example deleteProject_reports_the_error :
  deleteProject (Some Seed.as_admin) (Some (JObj [("id", JStr (project_id Seed.project))]))
                Seed.db
  = (Return (failure "Cannot delete project with existing expenses"), Seed.db).
Proof. reflexivity. Qed.

(** Once its expense is gone, the seeded project can be deleted. *)
Example deleteProject_removes_an_empty_project :
  let db := with_expenses (fun _ => []) Seed.db in
  let r := deleteProject_action (Seed.tenant_of Seed.as_admin) Seed.as_admin
             (Some (project_id Seed.project)) db in
  fst r = Throw (NextRedirect "/projects") /\ projects (snd r) = [].
Proof. vm_compute. split; reflexivity. Qed.

(** The employee deletes the seeded expense, which is pending and theirs;
    the manager cannot. *)
Example deleteExpense_by_its_owner :
  let own := deleteExpense (Some Seed.as_employee)
               (Some (JObj [("id", JStr (expense_id Seed.expense))])) Seed.db in
  let other := deleteExpense (Some Seed.as_manager)
                 (Some (JObj [("id", JStr (expense_id Seed.expense))])) Seed.db in
  own = (Return (JObj [("success", JBool true); ("data", JObj [("success", JBool true)])]),
         with_expenses (fun _ => []) Seed.db)
  /\ other = (Return (JObj [("success", JBool true);
                            ("data", failure "Expense not found or access denied")]),
              Seed.db).
Proof. split; reflexivity. Qed.

(** An approved expense is no longer edited, even by its owner. *)
Example updateExpense_after_approval :
  let db := with_expenses (map (with_status APPROVED)) Seed.db in
  updateExpense Seed.any_date (Some Seed.as_employee)
    (Some (JObj [("id", JStr (expense_id Seed.expense)); ("amount", JStr "1")])) db
  = (Return (JObj [("success", JBool true);
                   ("data", failure "Cannot update non-pending expenses")]), db).
Proof. reflexivity. Qed.

(** The wrapper catches the redirect the action ends in: the project is
    removed and the caller is handed the message of what [redirect]
    threw. *)
Example deleteProject_catches_the_redirect :
  let db := with_expenses (fun _ => []) Seed.db in
  let r := deleteProject (Some Seed.as_admin)
             (Some (JObj [("id", JStr (project_id Seed.project))])) db in
  fst r = Return (failure "NEXT_REDIRECT") /\ projects (snd r) = [].
Proof. split; reflexivity. Qed.

(** ** Company creation *)

Lemma transaction_atomic {A} (body : Async A) (db : DB) :
  match transaction body db with
  | (Return a, db') => body db = (Return a, db')
  | (Throw e, db') => db' = db /\ exists db'', body db = (Throw e, db'')
  end.
Proof.
  unfold transaction. destruct (body db) as [[a|e] db']; [reflexivity|].
  split; [reflexivity | eexists; reflexivity].
Qed.

Section CompanyCreation.
  Variable bcrypt_hash : string -> nat -> string.
  Variable is_email : string -> bool.

(** Whatever the client does (any read or write may throw, at any point),
    the handler answers, and an answer other than 200 leaves the database
    as it was; a 200 means the four writes of the transaction all
    returned, and the payload names the company they created. *)
Lemma company_create_all_or_nothing (client : Client) (request : NextRequest) (db : DB) :
  exists response db',
    company_create_POST bcrypt_hash is_email client request db = (Return response, db')
    /\ (status response <> 200 -> db' = db)
    /\ (status response = 200 ->
        exists d result,
          create_company_and_admin client d (bcrypt_hash (adminPassword d) 12) db
          = (Return result, db')
          /\ prop "companyId" (prop "data" (body response))
             = JStr (company_id (fst result))).
Proof.
  unfold company_create_POST, try_catch.
  rewrite bind_unfold. unfold lift at 1.
  destruct (read_json request) as [body|e].
  2:{ destruct e; do 2 eexists; (split; [reflexivity|]); cbn;
      (split; [reflexivity | discriminate]). }
  rewrite bind_unfold. unfold lift at 1.
  destruct (createCompanySchema is_email body) as [d|e].
  2:{ destruct e; do 2 eexists; (split; [reflexivity|]); cbn;
      (split; [reflexivity | discriminate]). }
  rewrite bind_unfold. unfold query at 1.
  destruct (client_company_findFirst client _ db) as [[c|]|e].
  3:{ destruct e; do 2 eexists; (split; [reflexivity|]); cbn;
      (split; [reflexivity | discriminate]). }
  1:{ do 2 eexists; (split; [reflexivity|]); cbn; (split; [reflexivity | discriminate]). }
  rewrite bind_unfold. unfold query at 1.
  destruct (client_user_findUnique client _ db) as [[u|]|e].
  3:{ destruct e; do 2 eexists; (split; [reflexivity|]); cbn;
      (split; [reflexivity | discriminate]). }
  1:{ do 2 eexists; (split; [reflexivity|]); cbn; (split; [reflexivity | discriminate]). }
  rewrite bind_unfold.
  pose proof (transaction_atomic
                (create_company_and_admin client d (bcrypt_hash (adminPassword d) 12)) db) as Htx.
  destruct (transaction _ db) as [[result|e] db'].
  - do 2 eexists. split; [reflexivity|]. cbn. split; [congruence|].
    intros _. exists d, result. split; [exact Htx | reflexivity].
  - destruct Htx as [-> _].
    destruct e; do 2 eexists; (split; [reflexivity|]); cbn;
      (split; [reflexivity | discriminate]).
Qed.

(** With the client of the model, the four rows a successful transaction
    leaves behind. *)
Lemma create_company_and_admin_rows (d : CreateCompany) (h : string) (db db' : DB)
  (company : Company) (adminUser : User) :
  create_company_and_admin prisma_client d h db = (Return (company, adminUser), db') ->
  In company (companies db') /\ company_name company = companyName d
  /\ In adminUser (users db') /\ user_email adminUser = adminEmail d
  /\ (exists m, In m (memberships db')
                /\ membership_userId m = user_id adminUser
                /\ membership_companyId m = company_id company
                /\ membership_role m = ADMIN)
  /\ (exists policy, In policy (approvalPolicies db')
                     /\ policy_companyId policy = company_id company).
Proof.
  unfold create_company_and_admin. cbn [prisma_client client_company_create
    client_user_create client_membership_create client_approvalPolicy_create].
  unfold company_create, fresh_id. rewrite !bind_unfold.
  unfold user_create.
  match goal with |- context [existsb ?f ?l] => destruct (existsb f l) end;
    [discriminate|].
  unfold fresh_id. rewrite !bind_unfold.
  unfold membership_create.
  match goal with |- context [existsb ?f ?l] => destruct (existsb f l) end;
    [discriminate|].
  unfold fresh_id. rewrite !bind_unfold.
  unfold approvalPolicy_create. cbn [new_policy_maxPerEmployeeMinor
    new_policy_largeExpenseThresholdMinor opt_fits].
  replace (fits_int64 100000 && fits_int64 500000)%bool with true by reflexivity.
  unfold fresh_id, ret. rewrite !bind_unfold.
  intros H. injection H as Hc Hu Hdb. subst company adminUser db'.
  cbn. repeat split.
  - apply in_or_app. right. left. reflexivity.
  - apply in_or_app. right. left. reflexivity.
  - eexists. split; [apply in_or_app; right; left; reflexivity|]. cbn. auto.
  - eexists. split; [apply in_or_app; right; left; reflexivity|]. reflexivity.
Qed.

Lemma find_none_of {A} (f : A -> bool) (l : list A) :
  (forall x, In x l -> f x = false) -> find f l = None.
Proof.
  induction l as [|x l IH]; simpl; intros H; [reflexivity|].
  rewrite (H x (or_introl eq_refl)). apply IH. intros y Hy. apply H. right. exact Hy.
Qed.

Lemma existsb_none_of {A} (f : A -> bool) (l : list A) :
  (forall x, In x l -> f x = false) -> existsb f l = false.
Proof.
  induction l as [|x l IH]; simpl; intros H; [reflexivity|].
  rewrite (H x (or_introl eq_refl)). apply IH. intros y Hy. apply H. right. exact Hy.
Qed.

(** With the client of the model, a request the schema accepts, for a
    company name and an email that are not taken, is answered 200 and its
    four rows are appended. *)
Lemma company_create_POST_succeeds (request : NextRequest) (db : DB) (payload : jsval)
  (d : CreateCompany) :
  json request = Return payload ->
  createCompanySchema is_email payload = Return d ->
  (forall c, In c (companies db) -> company_name c <> companyName d) ->
  (forall u, In u (users db) -> user_email u <> adminEmail d) ->
  (forall m, In m (memberships db) -> membership_userId m <> cuid (S (next_id db))) ->
  exists db',
    company_create_POST bcrypt_hash is_email prisma_client request db
    = (Return (NextResponse_json
                 (JObj [("success", JBool true);
                        ("data", JObj [("companyId", JStr (cuid (next_id db)));
                                       ("companyName", JStr (companyName d));
                                       ("adminEmail", JStr (adminEmail d));
                                       ("message", JStr "Company created successfully")])])
                 None), db')
    /\ companies db' = companies db ++ [mkCompany (cuid (next_id db)) (companyName d) "USD"]
    /\ users db'
       = users db ++ [mkUser (cuid (S (next_id db))) (adminEmail d) (adminName d)
                             (bcrypt_hash (adminPassword d) 12)]
    /\ memberships db'
       = memberships db ++ [mkMembership (cuid (S (S (next_id db)))) (cuid (S (next_id db)))
                                         (cuid (next_id db)) ADMIN]
    /\ approvalPolicies db'
       = approvalPolicies db
         ++ [mkApprovalPolicy (cuid (S (S (S (next_id db))))) (cuid (next_id db)) PERCENTAGE
                              (Some 50%Z) (Some 100000%Z) (Some 500000%Z) false].
Proof.
  intros Hj Hd Hc Hu Hm.
  unfold company_create_POST, try_catch.
  rewrite bind_unfold. unfold lift at 1. unfold read_json. rewrite Hj.
  rewrite bind_unfold. unfold lift at 1. rewrite Hd.
  rewrite bind_unfold. unfold query at 1. cbn [prisma_client client_company_findFirst].
  destruct (prisma.findFirst companyModel _ db) as [c|] eqn:Hfirst.
  1:{ exfalso. apply findFirst_sound in Hfirst. destruct Hfirst as [Hin Hname].
      cbn in Hname. rewrite andb_true_r in Hname. apply String.eqb_eq in Hname.
      exact (Hc c Hin Hname). }
  rewrite bind_unfold. unfold query at 1. cbn [prisma_client client_user_findUnique].
  unfold prisma.findUnique. cbn [table view userModel unique_where].
  rewrite find_none_of.
  2:{ intros u Hin. cbn. rewrite andb_true_r. apply String.eqb_neq. apply Hu, Hin. }
  rewrite bind_unfold. unfold transaction, create_company_and_admin.
  cbn [prisma_client client_company_create client_user_create client_membership_create
       client_approvalPolicy_create].
  unfold company_create, fresh_id. rewrite !bind_unfold.
  unfold user_create. cbn [users with_companies with_next_id new_user_email].
  rewrite existsb_none_of.
  2:{ intros u Hin. apply String.eqb_neq. apply Hu, Hin. }
  unfold fresh_id. rewrite !bind_unfold.
  unfold membership_create.
  cbn [memberships with_users with_next_id with_companies next_id new_membership_userId
       new_membership_companyId user_id company_id].
  rewrite existsb_none_of.
  2:{ intros m Hin. apply andb_false_iff. left. apply String.eqb_neq. apply Hm, Hin. }
  unfold fresh_id. rewrite !bind_unfold.
  unfold approvalPolicy_create. cbn [new_policy_maxPerEmployeeMinor
    new_policy_largeExpenseThresholdMinor opt_fits].
  replace (fits_int64 100000 && fits_int64 500000)%bool with true by reflexivity.
  unfold fresh_id, ret. rewrite !bind_unfold.
  eexists. split; [reflexivity|]. cbn. auto.
Qed.

End CompanyCreation.

(** C2. Company creation ([POST /api/company/create]) makes its four writes
    (Company, admin User, ADMIN Membership, default ApprovalPolicy) in one
    transaction.  Whatever the client does, and so whichever read or write
    fails, a response other than 200 leaves the database as it was: no
    Company row of the request persists.  With the client of the model, a
    200 response means the four rows exist, the membership joining the new
    admin to the new company and the policy belonging to it; and the
    request does succeed, with 200 and exactly these four rows appended,
    whenever the schema accepts its body and neither the company name nor
    the email is taken (and the id of the new user is not already the
    [userId] of a membership). *)
Theorem company_creation_is_atomic
  (bcrypt_hash : string -> nat -> string) (is_email : string -> bool)
  (request : NextRequest) (db : DB) :
  (forall client : Client,
      exists response,
        fst (company_create_POST bcrypt_hash is_email client request db) = Return response
        /\ (status response <> 200 ->
            snd (company_create_POST bcrypt_hash is_email client request db) = db))
  /\ (forall response,
         fst (company_create_POST bcrypt_hash is_email prisma_client request db)
         = Return response ->
         status response = 200 ->
         let db' := snd (company_create_POST bcrypt_hash is_email prisma_client request db) in
         exists company adminUser,
           In company (companies db') /\ In adminUser (users db')
           /\ prop "companyId" (prop "data" (body response)) = JStr (company_id company)
           /\ (exists m, In m (memberships db')
                         /\ membership_userId m = user_id adminUser
                         /\ membership_companyId m = company_id company
                         /\ membership_role m = ADMIN)
           /\ (exists policy, In policy (approvalPolicies db')
                              /\ policy_companyId policy = company_id company))
  /\ (forall payload d,
         json request = Return payload ->
         createCompanySchema is_email payload = Return d ->
         (forall c, In c (companies db) -> company_name c <> companyName d) ->
         (forall u, In u (users db) -> user_email u <> adminEmail d) ->
         (forall m, In m (memberships db) ->
                    membership_userId m <> cuid (S (next_id db))) ->
         let r := company_create_POST bcrypt_hash is_email prisma_client request db in
         fst r
         = Return (NextResponse_json
                     (JObj [("success", JBool true);
                            ("data",
                             JObj [("companyId", JStr (cuid (next_id db)));
                                   ("companyName", JStr (companyName d));
                                   ("adminEmail", JStr (adminEmail d));
                                   ("message", JStr "Company created successfully")])])
                     None)
         /\ companies (snd r)
            = companies db ++ [mkCompany (cuid (next_id db)) (companyName d) "USD"]
         /\ users (snd r)
            = users db ++ [mkUser (cuid (S (next_id db))) (adminEmail d) (adminName d)
                                  (bcrypt_hash (adminPassword d) 12)]
         /\ memberships (snd r)
            = memberships db
              ++ [mkMembership (cuid (S (S (next_id db)))) (cuid (S (next_id db)))
                               (cuid (next_id db)) ADMIN]
         /\ approvalPolicies (snd r)
            = approvalPolicies db
              ++ [mkApprovalPolicy (cuid (S (S (S (next_id db))))) (cuid (next_id db))
                                   PERCENTAGE (Some 50%Z) (Some 100000%Z) (Some 500000%Z)
                                   false]).
Proof.
  split; [|split].
  - intros client.
    destruct (company_create_all_or_nothing bcrypt_hash is_email client request db)
      as [response [db' [H1 [H2 _]]]].
    exists response. rewrite H1. auto.
  - intros response Hr Hs db'.
    destruct (company_create_all_or_nothing bcrypt_hash is_email prisma_client request db)
      as [response' [db'' [H1 [_ H3]]]].
    subst db'. rewrite H1 in Hr |- *. cbn [fst snd] in Hr |- *. injection Hr as ->.
    destruct (H3 Hs) as [d [[company adminUser] [Hbody Hpayload]]].
    destruct (create_company_and_admin_rows _ _ _ Hbody)
      as [Hc [_ [Hu [_ [Hm Hp]]]]].
    exists company, adminUser. repeat split; assumption.
  - intros payload d Hj Hd Hc Hu Hm. cbv zeta.
    destruct (company_create_POST_succeeds bcrypt_hash is_email request db Hj Hd Hc Hu Hm)
      as [db' [-> H]].
    split; [reflexivity | exact H].
Qed.

(** Acme is created in the seeded database: 200, and its four rows are
    there.  And when the connection drops after the Company row was
    written, the handler answers and the database is as it was before the
    request. *)
Lemma company_creation_is_atomic_witness :
  (map company_name
       (companies (snd (company_create_POST Seed.plain_hash emailRegex prisma_client
                          Seed.acme Seed.db)))
   = ["TechCorp Inc."; "Acme"]
   /\ map user_email
          (users (snd (company_create_POST Seed.plain_hash emailRegex prisma_client
                         Seed.acme Seed.db)))
      = ["admin@techcorp.com"; "manager@techcorp.com"; "employee@techcorp.com";
         "admin@acme.com"]
   /\ List.length (memberships (snd (company_create_POST Seed.plain_hash emailRegex
                                       prisma_client Seed.acme Seed.db))) = 4
   /\ List.length (approvalPolicies (snd (company_create_POST Seed.plain_hash emailRegex
                                            prisma_client Seed.acme Seed.db))) = 2)
  /\ exists response,
       fst (company_create_POST Seed.plain_hash emailRegex Seed.flaky Seed.acme Seed.db)
       = Return response
       /\ snd (company_create_POST Seed.plain_hash emailRegex Seed.flaky Seed.acme Seed.db)
          = Seed.db.
Proof.
  split.
  - destruct (proj2 (proj2 (company_creation_is_atomic Seed.plain_hash emailRegex
                              Seed.acme Seed.db))
                    _ (mkCreateCompany "Acme" "Ann" "admin@acme.com" "secret")
                    eq_refl eq_refl)
      as [_ [Hc [Hu [Hm Hp]]]].
    + intros c [<-|[]]. vm_compute. discriminate.
    + intros u [<-|[<-|[<-|[]]]]; vm_compute; discriminate.
    + intros m [<-|[<-|[<-|[]]]]; vm_compute; discriminate.
    + rewrite Hc, Hu, Hm, Hp. repeat split.
  - destruct (proj1 (company_creation_is_atomic Seed.plain_hash emailRegex Seed.acme
                       Seed.db) Seed.flaky) as [response [H1 H2]].
    exists response. split; [exact H1|].
    apply H2. vm_compute in H1. injection H1 as <-. cbn. discriminate.
Defined.

(** Outside a transaction the same failure would leave the Company row
    behind. *)
Example without_transaction_an_orphan_company :
  map company_name
      (companies (snd (create_company_and_admin Seed.flaky
                         (mkCreateCompany "Acme" "Ann" "admin@acme.com" "secret") "h" Seed.db)))
  = ["TechCorp Inc."; "Acme"].
Proof. reflexivity. Qed.

(** On the seeded database the request succeeds and the four rows are
    there. *)
Example acme_is_created :
  let r := company_create_POST Seed.plain_hash emailRegex prisma_client Seed.acme Seed.db in
  option_map status (match fst r with Return x => Some x | Throw _ => None end) = Some 200
  /\ map company_name (companies (snd r)) = ["TechCorp Inc."; "Acme"]
  /\ List.length (users (snd r)) = 4
  /\ List.length (memberships (snd r)) = 4
  /\ List.length (approvalPolicies (snd r)) = 2.
Proof. vm_compute. repeat split. Qed.

(** ** The per-employee cap of the [createExpense] action *)

Lemma SFcompare_swap (x y : spec_float) :
  SFcompare y x = option_map CompOpp (SFcompare x y).
Proof.
  destruct x as [sx|sx| |sx mx ex], y as [sy|sy| |sy my ey]; cbn;
    try reflexivity;
    try (destruct sx; reflexivity); try (destruct sy; reflexivity);
    try (destruct sx, sy; reflexivity).
  pose proof (Pos.compare_cont_antisym mx my Eq) as Hm. cbn in Hm.
  destruct sx, sy; cbn; try reflexivity;
    rewrite (Z.compare_antisym ex ey), <- Hm;
    destruct (ex ?= ey)%Z; cbn; try reflexivity;
    destruct (Pos.compare_cont Eq mx my); reflexivity.
Qed.

(** [x == y] excludes [x > y]. *)
Lemma eqb_not_gtb (x y : Number.t) :
  Number.eqb x y = true -> Number.gtb x y = false.
Proof.
  unfold Number.eqb, Number.gtb, SFeqb, SFltb. rewrite (SFcompare_swap x y).
  destruct (SFcompare x y) as [[| |]|]; cbn; intros H; try discriminate H; reflexivity.
Qed.

(** The guard of [expense.create] is the filter of [project.findUnique]. *)
Lemma create_guard_is_findUnique (tenant : TenantPrisma.t) (id : string) (db : DB) :
  prisma.findUnique projectModel
    (mkUniqueArgs [Field "id" (Equals (SStr id));
                   Field "companyId" (Equals (SStr (TenantPrisma.companyId tenant)))]) db
  = TenantPrisma.project.findUnique tenant (mkUniqueArgs (by_id id)) db.
Proof. reflexivity. Qed.

Lemma create_receipt_files_expenses (expenseId : string) (keys : list jsval) (db : DB) :
  expenses (snd (create_receipt_files expenseId keys db)) = expenses db.
Proof.
  revert db. induction keys as [|key keys IH]; intros db; [reflexivity|].
  cbn [create_receipt_files]. destruct key; try reflexivity.
  unfold receiptFile_create, fresh_id. rewrite !bind_unfold.
  rewrite IH. reflexivity.
Qed.

Section CapCheck.
  Variable valid_date : string -> bool.
  Variable JSON_parse : string -> option jsval.
  Variable toFixed : Number.t -> nat -> string.
  Variables (tenant : TenantPrisma.t) (session : Session.t) (db : DB).
  Variables (form : CreateExpenseForm) (project : Project) (policy : ApprovalPolicy) (cap : Z).

  Hypothesis amount_valid :
    Number.isNaN (parseFloat (amount form)) = false
    /\ Number.leb (parseFloat (amount form)) Number.zero = false.
  Hypothesis project_found :
    TenantPrisma.project.findUnique tenant (mkUniqueArgs (by_id (projectId form))) db
    = Some project.
  Hypothesis project_is_active : project_active project = true.
  Hypothesis policy_found :
    hd_error (TenantPrisma.approvalPolicy.findMany tenant None db) = Some policy.
  Hypothesis policy_cap : policy_maxPerEmployeeMinor policy = Some cap.

(** The action up to the cap check, under the hypotheses. *)
Lemma createExpense_at_cap_check :
  let amountNumber := parseFloat (amount form) in
  let maxAmount := Number.div (Number.of_Z cap) (Number.of_Z 100) in
  createExpense_action valid_date JSON_parse toFixed tenant session (Some form) db
  = (if negb (cap =? 0)%Z && Number.gtb amountNumber maxAmount
       then (Return (over_cap toFixed cap), db)
       else
         match Number.BigInt (Number.Math_round (Number.mul amountNumber (Number.of_Z 100))) with
         | None => (Throw (Error "The number cannot be converted to a BigInt because it is not an integer"), db)
         | Some amountMinor =>
             bind (TenantPrisma.expense.create tenant
                     (mkExpenseCreateInput (projectId form) (Session.userId session)
                        amountMinor (currency form) (description form) (category form)
                        (paidBy form) (new_Date valid_date (expenseDate form)) PENDING))
               (fun expense =>
                  bind (match or_null (receiptFileKeys form) with
                        | Some keys =>
                            try_catch
                              (bind (lift (match JSON_parse keys with
                                           | Some v => iterate v
                                           | None => Throw (Error "Unexpected token")
                                           end))
                                 (fun fileKeys =>
                                    create_receipt_files (expense_id expense) fileKeys))
                              (fun _ => ret tt)
                        | None => ret tt
                        end)
                    (fun _ => ret (JObj [("success", JBool true);
                                         ("data", JObj [("expenseId",
                                                         JStr (expense_id expense))])]))) db
         end).
Proof.
  destruct amount_valid as [Hnan Hpos].
  cbv zeta. unfold createExpense_action.
  rewrite Hnan, Hpos.
  cbn [orb]. rewrite bind_read, project_found, project_is_active. cbn [negb].
  rewrite bind_read, policy_found. unfold cap_of. rewrite policy_cap.
  destruct (cap =? 0)%Z; cbn [negb andb].
  - destruct (Number.BigInt _); reflexivity.
  - destruct (Number.gtb _ _); [reflexivity|].
    destruct (Number.BigInt _); reflexivity.
Qed.

End CapCheck.

(** The receipt records never fail the creation and never touch the
    expenses. *)
Lemma receipt_step (JSON_parse : string -> option jsval) (keys : option string)
  (expenseId : string) (db : DB) :
  exists db',
    (match or_null keys with
     | Some keys =>
         try_catch
           (bind (lift (match JSON_parse keys with
                        | Some v => iterate v
                        | None => Throw (Error "Unexpected token")
                        end))
                 (fun fileKeys => create_receipt_files expenseId fileKeys))
           (fun _ => ret tt)
     | None => ret tt
     end) db = (Return tt, db')
    /\ expenses db' = expenses db.
Proof.
  destruct (or_null keys) as [k|]; [|exists db; split; reflexivity].
  unfold try_catch. rewrite bind_unfold. unfold lift.
  destruct (match JSON_parse k with Some v => iterate v | None => _ end) as [l|e].
  - pose proof (create_receipt_files_expenses expenseId l db) as H.
    destruct (create_receipt_files expenseId l db) as [[[]|e] db']; cbn in H;
      exists db'; split; [reflexivity | exact H | reflexivity | exact H].
  - exists db. split; reflexivity.
Qed.

(** C10. The cap check of the [createExpense] action is strict.  For a
    valid amount on an active project of the company, under a policy whose
    [maxPerEmployeeMinor] is [cap]: an amount equal to the cap
    ([cap / 100] in major units) passes the check and the expense is
    created (given that the amount in minor units fits the column and the
    date is a date); an amount strictly greater is refused with the cap
    error and nothing is written; and an amount that is not strictly
    greater is never refused with the cap error. *)
Theorem cap_check_is_strict
  (valid_date : string -> bool) (JSON_parse : string -> option jsval)
  (toFixed : Number.t -> nat -> string)
  (tenant : TenantPrisma.t) (session : Session.t) (db : DB)
  (form : CreateExpenseForm) (project : Project) (policy : ApprovalPolicy) (cap : Z) :
  let amountNumber := parseFloat (amount form) in
  let maxAmount := Number.div (Number.of_Z cap) (Number.of_Z 100) in
  let r := createExpense_action valid_date JSON_parse toFixed tenant session (Some form) db in
  Number.isNaN amountNumber = false /\ Number.leb amountNumber Number.zero = false ->
  TenantPrisma.project.findUnique tenant (mkUniqueArgs (by_id (projectId form))) db
  = Some project ->
  project_active project = true ->
  hd_error (TenantPrisma.approvalPolicy.findMany tenant None db) = Some policy ->
  policy_maxPerEmployeeMinor policy = Some cap ->
  (Number.eqb amountNumber maxAmount = true ->
   forall amountMinor,
     Number.BigInt (Number.Math_round (Number.mul amountNumber (Number.of_Z 100)))
     = Some amountMinor ->
     fits_int64 amountMinor = true ->
     valid_date (expenseDate form) = true ->
     fst r = Return (JObj [("success", JBool true);
                           ("data", JObj [("expenseId", JStr (cuid (next_id db)))])])
     /\ expenses (snd r)
        = expenses db
          ++ [mkExpense (cuid (next_id db)) (projectId form) (Session.userId session)
                        amountMinor (currency form) (description form) (category form)
                        (paidBy form) (expenseDate form) PENDING])
  /\ (cap <> 0%Z -> Number.gtb amountNumber maxAmount = true ->
      r = (Return (over_cap toFixed cap), db))
  /\ (Number.gtb amountNumber maxAmount = false ->
      fst r <> Return (over_cap toFixed cap)).
Proof.
  intros amountNumber maxAmount r Hvalid Hproject Hactive Hpolicy Hcap.
  pose proof (createExpense_at_cap_check valid_date JSON_parse toFixed tenant session
                db form Hvalid Hproject Hactive Hpolicy Hcap) as Hr.
  cbv zeta in Hr. fold amountNumber maxAmount r in Hr.
  assert (Hcreate : forall z,
    TenantPrisma.expense.create tenant
      (mkExpenseCreateInput (projectId form) (Session.userId session) z (currency form)
         (description form) (category form) (paidBy form)
         (new_Date valid_date (expenseDate form)) PENDING) db
    = expense_create
        (mkExpenseCreateInput (projectId form) (Session.userId session) z (currency form)
           (description form) (category form) (paidBy form)
           (new_Date valid_date (expenseDate form)) PENDING) db).
  { intros z. unfold TenantPrisma.expense.create, findUniqueOrThrow. rewrite bind_unfold.
    cbn [new_expense_projectId]. rewrite create_guard_is_findUnique, Hproject. reflexivity. }
  split; [|split].
  - intros Heq amountMinor Hbig Hfits Hdate.
    rewrite (eqb_not_gtb _ _ Heq), andb_false_r, Hbig in Hr.
    rewrite bind_unfold, Hcreate in Hr.
    unfold expense_create, new_Date in Hr.
    cbn [new_expense_expenseDate new_expense_amountMinor] in Hr.
    rewrite Hdate, Hfits in Hr. unfold fresh_id in Hr. rewrite bind_unfold in Hr.
    rewrite bind_unfold in Hr.
    match type of Hr with
    | context [(match or_null _ with Some _ => _ | None => _ end) ?d] =>
        destruct (receipt_step JSON_parse (receiptFileKeys form) (cuid (next_id db)) d)
          as [db' [Hstep Hexp]]
    end.
    cbn [expense_id] in Hr. rewrite Hstep in Hr. unfold ret in Hr.
    rewrite Hr. cbn [fst snd]. split; [reflexivity|].
    rewrite Hexp. reflexivity.
  - intros Hne Hgt. apply Z.eqb_neq in Hne. rewrite Hne, Hgt in Hr. exact Hr.
  - intros Hgt. rewrite Hgt, andb_false_r in Hr.
    destruct (Number.BigInt _) as [z|]; [|rewrite Hr; discriminate].
    rewrite bind_unfold in Hr.
    destruct (TenantPrisma.expense.create tenant _ db) as [[expense|e] db1];
      [|rewrite Hr; discriminate].
    rewrite bind_unfold in Hr.
    destruct (receipt_step JSON_parse (receiptFileKeys form) (expense_id expense) db1)
      as [db' [Hstep _]].
    rewrite Hstep in Hr. rewrite Hr. cbn. discriminate.
Qed.

(** The seeded policy caps an employee at 100000 minor units: an expense
    of exactly 1000 is created. *)
Lemma cap_check_is_strict_witness :
  fst (createExpense_action Seed.any_date Seed.no_JSON Seed.plain_toFixed
         (Seed.tenant_of Seed.as_employee) Seed.as_employee (Some (Seed.form "1000")) Seed.db)
  = Return (JObj [("success", JBool true);
                  ("data", JObj [("expenseId", JStr (cuid (next_id Seed.db)))])])
  /\ expenses (snd (createExpense_action Seed.any_date Seed.no_JSON Seed.plain_toFixed
                      (Seed.tenant_of Seed.as_employee) Seed.as_employee
                      (Some (Seed.form "1000")) Seed.db))
     = expenses Seed.db
       ++ [mkExpense (cuid (next_id Seed.db)) (projectId (Seed.form "1000"))
                     (Session.userId Seed.as_employee) 100000
                     (currency (Seed.form "1000")) (description (Seed.form "1000"))
                     (category (Seed.form "1000")) (paidBy (Seed.form "1000"))
                     (expenseDate (Seed.form "1000")) PENDING].
Proof.
  refine (proj1 (@cap_check_is_strict Seed.any_date Seed.no_JSON Seed.plain_toFixed
                   (Seed.tenant_of Seed.as_employee) Seed.as_employee Seed.db
                   (Seed.form "1000") Seed.project Seed.approvalPolicy 100000%Z
                   _ _ _ _ _) _ 100000%Z _ _ _);
    vm_compute; try split; reflexivity.
Defined.

(** One cent more is refused. *)
Example one_cent_over_the_cap :
  createExpense_action Seed.any_date Seed.no_JSON Seed.plain_toFixed
    (Seed.tenant_of Seed.as_employee) Seed.as_employee (Some (Seed.form "1000.01")) Seed.db
  = (Return (over_cap Seed.plain_toFixed 100000), Seed.db).
Proof. vm_compute. reflexivity. Qed.

(** ** The approve route reads its expense id off the wrong segment *)

Lemma split_ends_with_approve (s : string) :
  exists piece pieces, split "/" (s ++ "/approve") = (piece :: pieces) ++ ["approve"].
Proof.
  induction s as [|c s [piece [pieces IH]]].
  - exists "", []. reflexivity.
  - cbn [append split]. rewrite IH.
    destruct (Ascii.eqb c "/").
    + exists "", (piece :: pieces). reflexivity.
    + exists (String c piece), pieces. reflexivity.
Qed.

Lemma pop_last {A} (l : list A) (x : A) : pop (l ++ [x]) = Some x.
Proof. unfold pop. rewrite rev_app_distr. reflexivity. Qed.

(** [url.pathname.split('/').pop()] on the path of the route is the word
    "approve", whatever the expense id in it. *)
Lemma last_segment_of_approve_path (id : string) :
  pop (split "/" (approve_path id)) = Some "approve".
Proof.
  unfold approve_path.
  destruct (split_ends_with_approve ("/api/expenses/" ++ id)) as [piece [pieces H]].
  replace ("/api/expenses/" ++ id ++ "/approve")%string
    with (("/api/expenses/" ++ id) ++ "/approve")%string by reflexivity.
  rewrite H. apply pop_last.
Qed.

Lemma findUnique_by_id_None (db : DB) (id : string) (loaded : Relations) :
  (forall e, In e (expenses db) -> expense_id e <> id) ->
  prisma.findUnique expenseModel (mkUniqueArgsWith (by_id id) loaded) db = None.
Proof.
  intros H. unfold prisma.findUnique.
  destruct (find _ (table expenseModel db)) as [e|] eqn:E; [|reflexivity].
  apply find_some in E. destruct E as [Hin Hm]. cbn in Hm.
  rewrite andb_true_r in Hm. apply String.eqb_eq in Hm.
  exfalso. exact (H e Hin Hm).
Qed.

(** C3 (the code does not do what the claim says).  A MANAGER or ADMIN
    who posts a valid decision to [/api/expenses/<id>/approve] is answered
    404 "Expense not found" and nothing is written, whichever expense
    [<id>] names and whatever its status: the handler looks up the expense
    whose id is the last segment of the path, the word "approve" (no
    expense has that id). *)
Theorem approve_route_never_finds_the_expense
  (now : string) (session : Session.t) (id : string) (payload : jsval)
  (data : ApproveExpense) (db : DB) :
  Session.role session = MANAGER \/ Session.role session = ADMIN ->
  approveExpenseSchema payload = Return data ->
  (forall e, In e (expenses db) -> expense_id e <> "approve") ->
  approve_POST now (Some session) (mkRequest (approve_path id) (Return payload)) db
  = (Return (NextResponse_json (JObj [("error", JStr "Expense not found")]) (Some 404)), db).
Proof.
  intros Hrole Hdata Hnone.
  unfold approve_POST, createApiHandler, apiHandler_prepare, authorize, requireRole.
  cbn [requireAuth].
  replace (existsb (role_eqb (Session.role session)) [MANAGER; ADMIN]) with true
    by (destruct Hrole as [-> | ->]; reflexivity).
  cbn [read_json json]. rewrite Hdata.
  unfold approve_handler. cbn [pathname].
  rewrite last_segment_of_approve_path. cbn [String.eqb Ascii.eqb Bool.eqb].
  rewrite bind_read, (findUnique_by_id_None db _ Hnone). reflexivity.
Qed.

(** The seeded manager approves the seeded, pending expense: 404, and the
    expense is still PENDING, with no Approval written. *)
Lemma approve_route_never_finds_the_expense_witness :
  approve_POST "2024-10-03" (Some Seed.as_manager)
    (mkRequest (approve_path (expense_id Seed.expense)) (Return Seed.approve)) Seed.db
  = (Return (NextResponse_json (JObj [("error", JStr "Expense not found")]) (Some 404)),
     Seed.db).
Proof.
  apply (@approve_route_never_finds_the_expense "2024-10-03" Seed.as_manager
           (expense_id Seed.expense) Seed.approve (mkApproveExpense APPROVE None) Seed.db).
  - left. reflexivity.
  - reflexivity.
  - intros e [<-|[]]. vm_compute. discriminate.
Defined.

(** Had the id been the last segment of the path, the handler would have
    written what the claim says: the expense becomes APPROVED, and one
    Approval and one AuditLog row are written.  It would then have thrown:
    the row it answers with holds a bigint, which [JSON.stringify]
    refuses. *)
Example approve_handler_on_a_path_ending_in_the_id :
  let r := approve_POST "2024-10-03" (Some Seed.as_manager)
             (mkRequest ("/api/expenses/" ++ expense_id Seed.expense) (Return Seed.approve))
             Seed.db in
  fst r = Throw cannot_serialize
  /\ map expense_status (expenses (snd r)) = [APPROVED]
  /\ map approval_decision (approvals (snd r)) = [APPROVE]
  /\ map audit_action (auditLogs (snd r)) = ["CREATE_EXPENSE"; "EXPENSE_APPROVE"].
Proof. vm_compute. repeat split. Qed.

(** ** The JSON route creates expenses over the cap *)

(** The route's handler does the same whatever the policies are. *)
Lemma expenses_POST_ignores_policies
  (is_cuid valid_date : string -> bool) (now : string) (current : option Session.t)
  (req : NextRequest) (db : DB) (policies : list ApprovalPolicy) :
  expenses_POST is_cuid valid_date now current req
    (with_approvalPolicies (fun _ => policies) db)
  = (fst (expenses_POST is_cuid valid_date now current req db),
     with_approvalPolicies (fun _ => policies)
       (snd (expenses_POST is_cuid valid_date now current req db))).
Proof.
  unfold expenses_POST, createApiHandler.
  destruct (apiHandler_prepare _ _ current req) as [response | [[tenant session] data]];
    [reflexivity|].
  unfold expenses_handler. destruct data as [data|]; [|reflexivity].
  rewrite !bind_read.
  change (TenantPrisma.project.findUnique tenant (mkUniqueArgs (by_id (body_projectId data)))
            (with_approvalPolicies (fun _ => policies) db))
    with (TenantPrisma.project.findUnique tenant (mkUniqueArgs (by_id (body_projectId data)))
            db).
  destruct (TenantPrisma.project.findUnique tenant _ db) as [project|]; [|reflexivity].
  unfold TenantPrisma.expense.create, findUniqueOrThrow. rewrite !bind_unfold.
  change (prisma.findUnique projectModel ?a (with_approvalPolicies (fun _ => policies) db))
    with (prisma.findUnique projectModel a db).
  destruct (prisma.findUnique projectModel _ db); [|reflexivity].
  unfold expense_create.
  destruct (new_expense_expenseDate _); [|reflexivity].
  destruct (fits_int64 _); reflexivity.
Qed.

(** C4 (the code does not do what the claim says).  [POST /api/expenses]
    does the same and stores the same expense whatever the company's
    policies are: the route never reads them.  The seeded policy caps an
    employee at 100000 minor units; with [amountMinor = 200000] on the
    seeded project the Expense row is written (the handler then throws,
    as it does after every expense it stores: the row it answers with
    holds a bigint, which [JSON.stringify] refuses).  The server action
    refuses the same amount and writes nothing. *)
Theorem api_route_ignores_the_cap :
  (forall is_cuid valid_date now current req db policies,
      expenses_POST is_cuid valid_date now current req
        (with_approvalPolicies (fun _ => policies) db)
      = (fst (expenses_POST is_cuid valid_date now current req db),
         with_approvalPolicies (fun _ => policies)
           (snd (expenses_POST is_cuid valid_date now current req db))))
  /\ policy_maxPerEmployeeMinor Seed.approvalPolicy = Some 100000%Z
  /\ fst (expenses_POST cuidRegex Seed.any_date "2024-10-03"
            (Some Seed.as_employee) (Seed.expense_of 200000) Seed.db)
     = Throw cannot_serialize
  /\ map expense_amountMinor
         (expenses (snd (expenses_POST cuidRegex Seed.any_date "2024-10-03"
                           (Some Seed.as_employee) (Seed.expense_of 200000) Seed.db)))
     = [4500; 200000]%Z
  /\ createExpense Seed.any_date Seed.no_JSON Seed.plain_toFixed (Some Seed.as_employee)
       (Some (Seed.form_data "2000")) Seed.db
     = (Return (JObj [("success", JBool true);
                      ("data", over_cap Seed.plain_toFixed 100000)]), Seed.db).
Proof.
  split; [exact expenses_POST_ignores_policies|]. vm_compute. repeat split.
Qed.

(** A cap of zero is a cap the action does not see either: [0n] is falsy. *)
Example a_zero_cap_is_no_cap :
  let db := with_approvalPolicies
              (fun _ => [mkApprovalPolicy "p" (company_id Seed.company) MAJORITY None
                                          (Some 0%Z) None false]) Seed.db in
  map expense_amountMinor
      (expenses (snd (createExpense_action Seed.any_date Seed.no_JSON Seed.plain_toFixed
                        (Seed.tenant_of Seed.as_employee) Seed.as_employee
                        (Some (Seed.form "2000")) db)))
  = [4500; 200000]%Z.
Proof. vm_compute. reflexivity. Qed.

(** ** Responses that are not of the standard shape *)

(** No error answer of the company route carries the [success] flag. *)
Lemma company_create_errors_have_no_flag
  (bcrypt_hash : string -> nat -> string) (is_email : string -> bool)
  (client : Client) (request : NextRequest) (db : DB) (response : NextResponse) :
  fst (company_create_POST bcrypt_hash is_email client request db) = Return response ->
  status response <> 200 ->
  has_key "success" (body response) = false.
Proof.
  unfold company_create_POST, try_catch.
  rewrite bind_unfold. unfold lift at 1.
  destruct (read_json request) as [payload|e].
  2:{ destruct e; cbn; intros H _; injection H as <-; reflexivity. }
  rewrite bind_unfold. unfold lift at 1.
  destruct (createCompanySchema is_email payload) as [d|e].
  2:{ destruct e; cbn; intros H _; injection H as <-; reflexivity. }
  rewrite bind_unfold. unfold query at 1.
  destruct (client_company_findFirst client _ db) as [[c|]|e].
  3:{ destruct e; cbn; intros H _; injection H as <-; reflexivity. }
  1:{ cbn; intros H _; injection H as <-; reflexivity. }
  rewrite bind_unfold. unfold query at 1.
  destruct (client_user_findUnique client _ db) as [[u|]|e].
  3:{ destruct e; cbn; intros H _; injection H as <-; reflexivity. }
  1:{ cbn; intros H _; injection H as <-; reflexivity. }
  rewrite bind_unfold.
  destruct (transaction _ db) as [[result|e] db'].
  - cbn. intros H Hs. injection H as <-. cbn in Hs. congruence.
  - destruct e; cbn; intros H _; injection H as <-; reflexivity.
Qed.

(** C5 (the code does not do what the claim says).  No error answer of
    [POST /api/company/create] has [success: false]: creating a company
    whose name is taken answers 400 with the body [{ error }].  The approve
    route's "not found" answer has no [success] either.  And an EMPLOYEE
    who posts to the approve route, which the claim wants answered 403, is
    answered 500: [requireRole] redirects, and the handler's catch finds
    neither UNAUTHORIZED nor FORBIDDEN in the message of what [redirect]
    throws. *)
Theorem error_responses_without_success_flag :
  (forall bcrypt_hash is_email client request db response,
      fst (company_create_POST bcrypt_hash is_email client request db) = Return response ->
      status response <> 200 ->
      has_key "success" (body response) = false)
  /\ company_create_POST Seed.plain_hash emailRegex prisma_client Seed.taken Seed.db
     = (Return (mkResponse 400
                  (JObj [("error", JStr "A company with this name already exists")])),
        Seed.db)
  /\ approve_POST "2024-10-03" (Some Seed.as_manager)
       (mkRequest (approve_path (expense_id Seed.expense)) (Return Seed.approve)) Seed.db
     = (Return (mkResponse 404 (JObj [("error", JStr "Expense not found")])), Seed.db)
  /\ approve_POST "2024-10-03" (Some Seed.as_employee)
       (mkRequest (approve_path (expense_id Seed.expense)) (Return Seed.approve)) Seed.db
     = (Return (mkResponse 500 (JObj [("success", JBool false);
                                      ("error", JStr "NEXT_REDIRECT")])), Seed.db).
Proof.
  split; [exact company_create_errors_have_no_flag|]. vm_compute. repeat split.
Qed.

(** ** Amounts that are not numbers *)

Lemma take_digits_then (s junk : string) (acc : N) (n : nat) :
  all_digits s = true -> not_numeric junk = true ->
  exists v k, take_digits s acc n = (v, n + k, EmptyString)
              /\ take_digits (s ++ junk) acc n = (v, n + k, junk).
Proof.
  intros Hs Hj. revert acc n. induction s as [|c s IH]; intros acc n.
  - exists acc, 0. rewrite Nat.add_0_r. split; [reflexivity|].
    cbn [append]. destruct junk as [|c r]; [reflexivity|].
    cbn [take_digits]. cbn [not_numeric] in Hj.
    destruct (is_digit c); [discriminate Hj | reflexivity].
  - cbn [all_digits] in Hs. apply andb_true_iff in Hs. destruct Hs as [Hc Hs].
    destruct (IH Hs (10 * acc + digit_value c)%N (S n)) as [v [k [H1 H2]]].
    exists v, (S k). cbn [append take_digits]. rewrite Hc, H1, H2.
    replace (n + S k) with (S n + k) by lia. split; reflexivity.
Qed.

Lemma after_the_digits (junk : string) (A : Type) (F : string -> A) (G : A) :
  not_numeric junk = true ->
  match junk with
  | String "." r => F r
  | _ => G
  end = G
  /\ exponent_part junk = 0%Z.
Proof.
  destruct junk as [|c r]; [split; reflexivity|].
  destruct c as [[] [] [] [] [] [] [] []]; cbn; intros H;
    try discriminate H; split; reflexivity.
Qed.

(** [parseFloat] on a string that starts with a digit. *)
Lemma parseFloat_digit (d : ascii) (rest : string) :
  is_digit d = true ->
  parseFloat (String d rest)
  = match take_digits rest (digit_value d) 1 with
    | (i, ni, s1) =>
        match s1 with
        | String "." r =>
            let '(m, nf, s2) := take_digits r i 0 in
            match (ni + nf)%nat with
            | O => Number.NaN
            | S _ => of_decimal false m (exponent_part s2 - Z.of_nat nf)
            end
        | _ =>
            match ni with
            | O => Number.NaN
            | S _ => of_decimal false i (exponent_part s1)
            end
        end
    end.
Proof.
  destruct d as [[] [] [] [] [] [] [] []]; intros H; try discriminate H; reflexivity.
Qed.

(** [parseFloat] reads the digits an amount starts with and ignores what
    follows them. *)
Lemma parseFloat_reads_a_prefix (d : ascii) (s junk : string) :
  is_digit d = true -> all_digits s = true -> not_numeric junk = true ->
  parseFloat (String d s ++ junk) = parseFloat (String d s).
Proof.
  intros Hd Hs Hj.
  destruct (take_digits_then s junk (digit_value d) 1 Hs Hj) as [v [k [H1 H2]]].
  cbn [append]. rewrite !parseFloat_digit, H1, H2 by exact Hd.
  destruct (after_the_digits junk
              (fun r => let '(m, nf, s2) := take_digits r v 0 in
                        match (1 + k + nf)%nat with
                        | O => Number.NaN
                        | S _ => of_decimal false m (exponent_part s2 - Z.of_nat nf)
                        end)
              (match (1 + k)%nat with
               | O => Number.NaN
               | S _ => of_decimal false v (exponent_part junk)
               end) Hj) as [Hm He].
  rewrite Hm, He. reflexivity.
Qed.

(** C8 (the code does not do what the claim says).  The action reads the
    amount with [parseFloat], which reads the digits the amount starts
    with and ignores what follows them: the amount "12abc" is taken for
    12, and an expense of 1200 minor units is stored.  The JSON route
    refuses the same value, and a number that is not positive, with a
    validation error. *)
Theorem action_accepts_a_non_numeric_amount :
  (forall d s junk,
      is_digit d = true -> all_digits s = true -> not_numeric junk = true ->
      parseFloat (String d s ++ junk) = parseFloat (String d s))
  /\ parseFloat "12abc" = Number.of_Z 12
  /\ map expense_amountMinor
         (expenses (snd (createExpense Seed.any_date Seed.no_JSON Seed.plain_toFixed
                           (Some Seed.as_employee) (Some (Seed.form_data "12abc")) Seed.db)))
     = [4500; 1200]%Z
  /\ fst (createExpense Seed.any_date Seed.no_JSON Seed.plain_toFixed
            (Some Seed.as_employee) (Some (Seed.form_data "12abc")) Seed.db)
     = Return (JObj [("success", JBool true);
                     ("data", JObj [("success", JBool true);
                                    ("data", JObj [("expenseId", JStr (cuid 13))])])])
  /\ z_positive_int (JStr "12abc") = None
  /\ z_positive_int (JNum (Number.of_Z (-5))) = None.
Proof.
  split; [exact parseFloat_reads_a_prefix|]. vm_compute. repeat split.
Qed.

(** ** What the action stores is not negative *)

Lemma binary_round_aux_sign (m e : Z) (l : location) :
  not_negative (binary_round_aux Number.prec Number.emax false m e l).
Proof.
  unfold binary_round_aux.
  destruct (shr_fexp Number.prec Number.emax m e l) as [mrs e'].
  destruct (shr_fexp Number.prec Number.emax _ e' loc_Exact) as [mrs' e''].
  destruct (shr_m mrs'); [exact I | | exact I].
  destruct (e'' <=? Number.emax - Number.prec)%Z; exact I.
Qed.

Lemma of_Z_sign (n : Z) : (0 <= n)%Z -> not_negative (Number.of_Z n).
Proof.
  intros Hn. unfold Number.of_Z, binary_normalize.
  destruct n as [|p|p]; [exact I | | lia].
  unfold binary_round.
  destruct (shl_align p 0 _) as [mz ez]. apply binary_round_aux_sign.
Qed.

Lemma to_Z_not_negative (x : Number.t) : not_negative x -> (0 <= Number.to_Z x)%Z.
Proof.
  destruct x as [s|s| |[] m e]; cbn [Number.to_Z not_negative]; intros H;
    try apply Z.le_refl; try contradiction.
  destruct e as [|k|k].
  - apply Z.mul_nonneg_nonneg; [lia | apply Z.pow_nonneg; lia].
  - apply Z.mul_nonneg_nonneg; [lia | apply Z.pow_nonneg; lia].
  - apply Z.div_pos; [lia | apply Z.pow_pos_nonneg; lia].
Qed.

Lemma round_half_up_not_negative (m : positive) (e : Z) :
  (0 <= Number.round_half_up false m e)%Z.
Proof.
  unfold Number.round_half_up. destruct e as [|k|k].
  - apply Z.mul_nonneg_nonneg; [lia | apply Z.pow_nonneg; lia].
  - apply Z.mul_nonneg_nonneg; [lia | apply Z.pow_nonneg; lia].
  - apply Z.div_pos.
    + assert (0 < 2 ^ Z.pos k)%Z by (apply Z.pow_pos_nonneg; lia). lia.
    + apply Z.pow_pos_nonneg; lia.
Qed.

Lemma Math_round_sign (x : Number.t) : not_negative x -> not_negative (Number.Math_round x).
Proof.
  destruct x as [s|s| |[] m e]; cbn [Number.Math_round not_negative]; intros H;
    try exact I; try contradiction.
  destruct (Number.round_half_up false m e =? 0)%Z; [exact I|].
  apply of_Z_sign, round_half_up_not_negative.
Qed.

(** A valid amount is positive, and so is not negative once in minor
    units. *)
Lemma minor_units_not_negative (x : Number.t) (z : Z) :
  Number.isNaN x = false -> Number.leb x Number.zero = false ->
  Number.BigInt (Number.Math_round (Number.mul x (Number.of_Z 100))) = Some z ->
  (0 <= z)%Z.
Proof.
  intros Hnan Hpos Hbig.
  assert (Hx : not_negative (Number.mul x (Number.of_Z 100))).
  { destruct x as [s|s| |s m e]; try discriminate Hnan.
    - destruct s; discriminate Hpos.
    - destruct s; [discriminate Hpos | exact I].
    - destruct s; [discriminate Hpos|].
      change (Number.of_Z 100) with (S754_finite false 7036874417766400 (-46)).
      unfold Number.mul, SFmul. apply binary_round_aux_sign. }
  apply Math_round_sign in Hx.
  unfold Number.BigInt in Hbig.
  destruct (Number.isInteger _); [|discriminate Hbig].
  injection Hbig as <-. apply to_Z_not_negative. exact Hx.
Qed.

Lemma expense_create_expenses (data : ExpenseCreateInput) (db : DB) :
  expenses (snd (expense_create data db)) = expenses db
  \/ exists e, expenses (snd (expense_create data db)) = expenses db ++ [e]
               /\ expense_amountMinor e = new_expense_amountMinor data
               /\ expense_status e = new_expense_status data.
Proof.
  unfold expense_create.
  destruct (new_expense_expenseDate data); [|left; reflexivity].
  destruct (fits_int64 _); [|left; reflexivity].
  right. eexists. split; [reflexivity|]. split; reflexivity.
Qed.

Lemma tenant_expense_create_expenses (this : TenantPrisma.t) (data : ExpenseCreateInput) (db : DB) :
  expenses (snd (TenantPrisma.expense.create this data db)) = expenses db
  \/ exists e, expenses (snd (TenantPrisma.expense.create this data db)) = expenses db ++ [e]
               /\ expense_amountMinor e = new_expense_amountMinor data
               /\ expense_status e = new_expense_status data.
Proof.
  unfold TenantPrisma.expense.create, findUniqueOrThrow. rewrite bind_unfold.
  destruct (prisma.findUnique projectModel _ db); [|left; reflexivity].
  apply expense_create_expenses.
Qed.

(** X1. Whatever the [createExpense] action is given, the rows it adds to
    the Expense table are PENDING and carry a non-negative [amountMinor]:
    a stored amount is a non-negative integer of minor units. *)
Theorem createExpense_stores_non_negative_amounts
  (valid_date : string -> bool) (JSON_parse : string -> option jsval)
  (toFixed : Number.t -> nat -> string)
  (tenant : TenantPrisma.t) (session : Session.t) (data : option CreateExpenseForm) (db : DB) :
  let db' := snd (createExpense_action valid_date JSON_parse toFixed tenant session data db) in
  expenses db' = expenses db
  \/ exists e, expenses db' = expenses db ++ [e]
               /\ (0 <= expense_amountMinor e)%Z /\ expense_status e = PENDING.
Proof.
  cbv zeta. unfold createExpense_action.
  destruct data as [form|]; [|left; reflexivity].
  destruct (Number.isNaN (parseFloat (amount form))) eqn:Hnan; [left; reflexivity|].
  destruct (Number.leb (parseFloat (amount form)) Number.zero) eqn:Hpos; [left; reflexivity|].
  cbn [orb]. rewrite bind_read.
  destruct (negb _); [left; reflexivity|].
  rewrite bind_read.
  destruct (match cap_of _ with Some _ => _ | None => None end); [left; reflexivity|].
  destruct (Number.BigInt _) as [z|] eqn:Hbig; [|left; reflexivity].
  pose proof (minor_units_not_negative _ Hnan Hpos Hbig) as Hz.
  rewrite bind_unfold.
  match goal with
  | |- context [TenantPrisma.expense.create tenant ?d db] =>
      pose proof (tenant_expense_create_expenses tenant d db) as Hc;
      destruct (TenantPrisma.expense.create tenant d db) as [[expense|err] db1]
  end; cbn [fst snd] in Hc.
  - rewrite bind_unfold.
    destruct (receipt_step JSON_parse (receiptFileKeys form) (expense_id expense) db1)
      as [db2 [Hstep Hexp]].
    rewrite Hstep. cbn [snd ret]. rewrite Hexp.
    destruct Hc as [Hc | [e [He [Ha Hs]]]]; [left; exact Hc|].
    right. exists e. cbn in Ha, Hs. split; [exact He|]. split; [lia | exact Hs].
  - cbn [snd].
    destruct Hc as [Hc | [e [He [Ha Hs]]]]; [left; exact Hc|].
    right. exists e. cbn in Ha, Hs. split; [exact He|]. split; [lia | exact Hs].
Qed.

(** ** The JSON route validates the amount *)

Lemma z_positive_int_None (v : jsval) :
  (forall x, v = JNum x ->
             Number.isNaN x = true \/ Number.isInteger x = false
             \/ Number.gtb x Number.zero = false) ->
  z_positive_int v = None.
Proof.
  intros H. destruct v; try reflexivity. cbn [z_positive_int].
  destruct (H x eq_refl) as [-> | [-> | ->]]; cbn [negb andb];
    rewrite ?andb_false_r; reflexivity.
Qed.

Lemma api_createExpenseSchema_refuses (is_cuid valid_date : string -> bool) (payload : jsval) :
  z_positive_int (prop "amountMinor" payload) = None ->
  exists issues, api_createExpenseSchema is_cuid valid_date payload = Throw (ZodError issues).
Proof.
  intros H. unfold api_createExpenseSchema. rewrite H.
  destruct (is_object payload); [|eexists; reflexivity].
  destruct (z_cuid is_cuid _); eexists; reflexivity.
Qed.

(** X2. [POST /api/expenses] with an [amountMinor] that is not a number,
    or is NaN, not an integer, or not greater than zero, is answered 400
    "Invalid request data" by the validation, and nothing is written. *)
Theorem api_route_refuses_bad_amounts
  (is_cuid valid_date : string -> bool) (now : string) (session : Session.t)
  (path : string) (payload : jsval) (db : DB) :
  (forall x, prop "amountMinor" payload = JNum x ->
             Number.isNaN x = true \/ Number.isInteger x = false
             \/ Number.gtb x Number.zero = false) ->
  exists issues,
    expenses_POST is_cuid valid_date now (Some session) (mkRequest path (Return payload)) db
    = (Return (createErrorResponse "Invalid request data" (Some 400) (issues_value issues)),
       db).
Proof.
  intros H. apply z_positive_int_None in H.
  destruct (api_createExpenseSchema_refuses is_cuid valid_date payload H) as [issues Hi].
  exists issues.
  unfold expenses_POST, createApiHandler, apiHandler_prepare, authorize, requireRole.
  cbn [requireAuth].
  replace (existsb (role_eqb (Session.role session)) [ADMIN; MANAGER; EMPLOYEE]) with true
    by (destruct (Session.role session); reflexivity).
  cbn [read_json json]. rewrite Hi. reflexivity.
Qed.

(** An amount of -5 is refused. *)
Lemma api_route_refuses_bad_amounts_witness :
  exists issues,
    expenses_POST cuidRegex Seed.any_date "2024-10-03" (Some Seed.as_employee)
      (Seed.expense_of (-5)) Seed.db
    = (Return (createErrorResponse "Invalid request data" (Some 400) (issues_value issues)),
       Seed.db).
Proof.
  apply (@api_route_refuses_bad_amounts cuidRegex Seed.any_date "2024-10-03"
           Seed.as_employee "/api/expenses" _ Seed.db).
  intros x Hx. vm_compute in Hx. injection Hx as <-. right. right. reflexivity.
Defined.

(** ** What the approve handler does with the id it reads *)

Lemma an_expense_is_not_serialised (e : Expense) (message : option string) :
  createSuccessResponse (expense_value e) message = Throw cannot_serialize.
Proof. reflexivity. Qed.

(** X3. The body of the approve handler, for the expense whose id is the
    last segment of the request's path.  If that expense is of another
    company or is not PENDING, the answer is 403 or 400 and nothing is
    written.  If it is a PENDING expense of the caller's company, its
    status becomes APPROVED or REJECTED as decided, and one Approval row
    (manager, decision, note) and one AuditLog row naming the expense are
    appended; the handler then throws instead of answering, and the writes
    stay: the row it answers with holds a bigint, which [JSON.stringify]
    refuses. *)
Theorem approve_handler_decides_pending_expenses
  (now : string) (req : NextRequest) (tenant : TenantPrisma.t) (session : Session.t)
  (data : ApproveExpense) (db : DB) (id : string) (e : Expense) (p : Project) :
  pop (split "/" (pathname req)) = Some id ->
  id <> "" ->
  prisma.findUnique expenseModel (mkUniqueArgs (by_id id)) db = Some e ->
  find_project db (expense_projectId e) = Some p ->
  let r := approve_handler now req tenant session (Some data) db in
  (project_companyId p <> Session.companyId session \/ expense_status e <> PENDING ->
   exists response,
     r = (Return response, db) /\ (status response = 403 \/ status response = 400))
  /\ (project_companyId p = Session.companyId session -> expense_status e = PENDING ->
      fst r = Throw cannot_serialize
        /\ expenses (snd r)
           = map (fun x => if String.eqb (expense_id x) id
                           then with_status (decided (decision data)) x else x)
                 (expenses db)
        /\ approvals (snd r)
           = approvals db
             ++ [mkApproval (cuid (next_id db)) id (Session.userId session)
                            (decision data) (or_null (note data)) now]
        /\ exists entry,
             auditLogs (snd r) = auditLogs db ++ [entry]
             /\ audit_entity entry = "Expense" /\ audit_entityId entry = id
             /\ audit_companyId entry = Session.companyId session
             /\ audit_actorUserId entry = Session.userId session).
Proof.
  intros Hpop Hne Hfind Hproject r. subst r.
  unfold approve_handler. rewrite Hpop.
  apply String.eqb_neq in Hne. rewrite Hne.
  rewrite bind_read.
  change (prisma.findUnique expenseModel
            (mkUniqueArgsWith (by_id id) (With [("project", columns_only)])) db)
    with (prisma.findUnique expenseModel (mkUniqueArgs (by_id id)) db).
  rewrite Hfind, bind_read, Hproject.
  split.
  - intros [Hc | Hs].
    + apply String.eqb_neq in Hc. rewrite Hc. cbn [negb].
      eexists. split; [reflexivity | left; reflexivity].
    + destruct (String.eqb (project_companyId p) (Session.companyId session)); cbn [negb].
      * assert (Hst : status_eqb (expense_status e) PENDING = false).
        { destruct (status_eqb (expense_status e) PENDING) eqn:E; [|reflexivity].
          apply status_eqb_eq in E. contradiction. }
        rewrite Hst. cbn [negb]. eexists. split; [reflexivity | right; reflexivity].
      * eexists. split; [reflexivity | left; reflexivity].
  - intros Hc Hs. rewrite Hc, String.eqb_refl. cbn [negb].
    rewrite Hs. cbn [status_eqb negb].
    unfold expense_update.
    cbn [update_valid set_amountMinor set_expenseDate opt_fits andb update_dangling
         set_projectId set_employeeId dangling or_else].
    rewrite bind_unfold.
    change (find (fun e0 => matches (expense_view db e0) (by_id id)) (expenses db))
      with (prisma.findUnique expenseModel (mkUniqueArgs (by_id id)) db).
    rewrite Hfind.
    unfold approval_create, auditLog_create, fresh_id. rewrite !bind_unfold.
    unfold lift. rewrite an_expense_is_not_serialised.
    split; [reflexivity|].
    cbn [snd fst expenses approvals auditLogs with_expenses with_approvals with_auditLogs
         with_next_id next_id].
    split; [|split; [reflexivity|]].
    + apply map_ext. intros x. cbn. rewrite andb_true_r.
      destruct (String.eqb (expense_id x) id); [|reflexivity].
      destruct (decision data); reflexivity.
    + eexists. split; [reflexivity|]. cbn. auto.
Qed.

(** On a path that ends in its id, the seeded expense is approved, and
    the handler throws. *)
Lemma approve_handler_decides_pending_expenses_witness :
  fst (approve_handler "2024-10-03"
         (mkRequest ("/api/expenses/" ++ expense_id Seed.expense) (Return Seed.approve))
         (Seed.tenant_of Seed.as_manager) Seed.as_manager
         (Some (mkApproveExpense APPROVE None)) Seed.db) = Throw cannot_serialize
  /\ map expense_status
         (expenses
            (snd (approve_handler "2024-10-03"
                    (mkRequest ("/api/expenses/" ++ expense_id Seed.expense)
                               (Return Seed.approve))
                    (Seed.tenant_of Seed.as_manager) Seed.as_manager
                    (Some (mkApproveExpense APPROVE None)) Seed.db)))
     = [APPROVED].
Proof.
  destruct (proj2 (@approve_handler_decides_pending_expenses "2024-10-03"
                     (mkRequest ("/api/expenses/" ++ expense_id Seed.expense)
                                (Return Seed.approve))
                     (Seed.tenant_of Seed.as_manager) Seed.as_manager
                     (mkApproveExpense APPROVE None) Seed.db
                     (expense_id Seed.expense) Seed.expense Seed.project
                     eq_refl ltac:(vm_compute; discriminate) eq_refl eq_refl)
                  eq_refl eq_refl) as [H1 [H2 _]].
  split; [exact H1 | rewrite H2; reflexivity].
Defined.

(** ** Projects of another company, on both creation paths *)

Lemma tenant_project_findUnique_None (this : TenantPrisma.t) (db : DB) (id : string) :
  (forall p, In p (projects db) -> project_id p = id ->
             project_companyId p <> TenantPrisma.companyId this) ->
  TenantPrisma.project.findUnique this (mkUniqueArgs (by_id id)) db = None.
Proof.
  intros H. unfold TenantPrisma.project.findUnique, prisma.findUnique.
  destruct (find _ (table projectModel db)) as [p|] eqn:E; [|reflexivity].
  apply find_some in E. destruct E as [Hin Hm].
  cbn [view projectModel] in Hm. rewrite matches_own_project_by_id in Hm.
  apply andb_true_iff in Hm. destruct Hm as [Hid Hc].
  apply String.eqb_eq in Hid, Hc. exfalso. exact (H p Hin Hid Hc).
Qed.

(** X4. An expense on a project that is not one of the caller's company is
    refused on both creation paths, and nothing is written: the JSON
    route's handler throws "Project not found", the action answers
    "Project not found or inactive" (for every amount it takes as
    valid). *)
Theorem foreign_projects_are_refused
  (valid_date : string -> bool) (now : string) (JSON_parse : string -> option jsval)
  (toFixed : Number.t -> nat -> string)
  (req : NextRequest) (tenant : TenantPrisma.t) (session : Session.t) (db : DB)
  (data : CreateExpenseBody) (form : CreateExpenseForm) :
  ((forall p, In p (projects db) -> project_id p = body_projectId data ->
              project_companyId p <> TenantPrisma.companyId tenant) ->
   expenses_handler now req tenant session (Some data) db
   = (Throw (Error "Project not found"), db))
  /\ ((forall p, In p (projects db) -> project_id p = projectId form ->
                 project_companyId p <> TenantPrisma.companyId tenant) ->
      Number.isNaN (parseFloat (amount form)) = false ->
      Number.leb (parseFloat (amount form)) Number.zero = false ->
      createExpense_action valid_date JSON_parse toFixed tenant session (Some form) db
      = (Return (failure "Project not found or inactive"), db)).
Proof.
  split.
  - intros H. unfold expenses_handler.
    rewrite bind_read, (tenant_project_findUnique_None tenant db H). reflexivity.
  - intros H Hnan Hpos. unfold createExpense_action. rewrite Hnan, Hpos. cbn [orb].
    rewrite bind_read, (tenant_project_findUnique_None tenant db H). reflexivity.
Qed.

(** The seeded employee cannot file an expense on the rival's project over
    the JSON route. *)
Lemma foreign_projects_are_refused_witness :
  expenses_handler "2024-10-03" (Seed.expense_of 4500) (Seed.tenant_of Seed.as_employee)
    Seed.as_employee
    (Some (mkCreateExpenseBody (project_id Seed.rival_project) (Number.of_Z 4500) "USD"
             "Lunch" "Meals & Entertainment" "Employee Credit Card" (Some "2024-10-02")))
    Seed.two_tenants
  = (Throw (Error "Project not found"), Seed.two_tenants).
Proof.
  apply (proj1 (@foreign_projects_are_refused Seed.any_date "2024-10-03" Seed.no_JSON
                  Seed.plain_toFixed (Seed.expense_of 4500)
                  (Seed.tenant_of Seed.as_employee) Seed.as_employee Seed.two_tenants
                  _ (Seed.form "1"))).
  intros p [<-|[<-|[]]] Hid; vm_compute in Hid; [discriminate Hid|].
  vm_compute. discriminate.
Defined.

(* ================================================================== *)
(** * The wrapper's writes (src/lib/tenant-guard.ts) *)
(* ================================================================== *)

Lemma snd_forget {A} (m : Async A) (db : DB) : snd (forget m db) = snd (m db).
Proof.
  unfold forget. rewrite bind_unfold. destruct (m db) as [[a|e] db']; reflexivity.
Qed.

Lemma In_map_unless {A} (g : A -> bool) (f : A -> A) (x : A) (l : list A) :
  In x l -> g x = false -> In x (map (fun y => if g y then f y else y) l).
Proof.
  intros Hin Hg. apply in_map_iff. exists x. rewrite Hg. auto.
Qed.

Lemma In_filter_unless {A} (g : A -> bool) (x : A) (l : list A) :
  In x l -> g x = false -> In x (filter (fun y => negb (g y)) l).
Proof.
  intros Hin Hg. apply filter_In. rewrite Hg. auto.
Qed.

Lemma not_true_false (b : bool) : (b = true -> False) -> b = false.
Proof. destruct b; intuition congruence. Qed.

Lemma own_id_company (this : TenantPrisma.t) (c : Company) :
  matches_prop (company_view c) (TenantPrisma.own_id this) = true ->
  company_id c = TenantPrisma.companyId this.
Proof. cbn. apply String.eqb_eq. Qed.

(** What one [update] or [delete] of the ORM leaves in its table. *)
Lemma update_where_table {R} (M : Model R) (put : (list R -> list R) -> DB -> DB)
  (refused : DB -> R -> R -> option exn) (w : WhereInput) (f : R -> R) (db : DB) :
  snd (update_where M put refused w f db) = db
  \/ snd (update_where M put refused w f db)
     = put (map (fun x => if matches (view M db x) w then f x else x)) db.
Proof.
  unfold update_where. destruct (find _ _); cbn; auto.
  destruct (refused _ _ _); cbn; auto.
Qed.

Lemma delete_where_table {R} (M : Model R) (put : (list R -> list R) -> DB -> DB)
  (w : WhereInput) (db : DB) :
  snd (delete_where M put w db) = db
  \/ snd (delete_where M put w db)
     = put (filter (fun x => negb (matches (view M db x) w))) db.
Proof.
  unfold delete_where. destruct (find _ _); cbn; auto.
Qed.

Lemma expense_update_table (w : WhereInput) (data : ExpenseUpdateInput) (db : DB) :
  snd (expense_update w data db) = db
  \/ snd (expense_update w data db)
     = with_expenses
         (map (fun x => if matches (expense_view db x) w then apply_update data x else x)) db.
Proof.
  unfold expense_update. destruct (update_valid data); [|auto].
  destruct (find _ _); cbn; auto.
  destruct (update_dangling db data); cbn; auto.
Qed.

Lemma expense_delete_table (w : WhereInput) (db : DB) :
  snd (expense_delete w db) = db
  \/ snd (expense_delete w db)
     = with_expenses (filter (fun x => negb (matches (expense_view db x) w))) db.
Proof.
  unfold expense_delete. destruct (find _ _); cbn; auto.
Qed.

Lemma project_delete_table (w : WhereInput) (db : DB) :
  snd (project_delete w db) = db
  \/ snd (project_delete w db)
     = with_projects (filter (fun x => negb (matches (project_view db x) w))) db.
Proof.
  unfold project_delete. destruct (find _ _); cbn; auto.
Qed.

Lemma approvalPolicy_update_table (w : WhereInput) (data : ApprovalPolicyUpdateInput)
  (db : DB) :
  snd (approvalPolicy_update w data db) = db
  \/ snd (approvalPolicy_update w data db)
     = with_approvalPolicies
         (map (fun x => if matches (policy_view db x) w
                        then apply_policy_update data x else x)) db.
Proof.
  unfold approvalPolicy_update. destruct (_ && _); [|auto].
  apply (@update_where_table _ approvalPolicyModel with_approvalPolicies).
Qed.

Lemma in_all_rows (db : DB) (r : Row) :
  In r (all_rows db) <->
  match r with
  | ProjectRow p => In p (projects db)
  | ExpenseRow e => In e (expenses db)
  | MembershipRow m => In m (memberships db)
  | ApprovalPolicyRow p => In p (approvalPolicies db)
  | AuditLogRow a => In a (auditLogs db)
  | ExchangeRateSnapshotRow s => In s (exchangeRateSnapshots db)
  end.
Proof.
  unfold all_rows. rewrite !in_app_iff, !in_map_iff.
  destruct r; split; intros H;
    repeat match goal with
           | H : _ \/ _ |- _ => destruct H
           | H : exists _, _ /\ _ |- _ => destruct H as [? [? ?]]
           | H : _ = _ |- _ => first [discriminate H | injection H as ->]
           end; eauto 10.
Qed.

(** X5. An [update] or [delete] through the wrapper with a [data] that
    sets columns never rewrites or removes a row of another company: every
    row of the six scoped tables that is not the company's (an expense
    through its project) is still there, unchanged, afterwards; so is
    every other company's [Company] row; and such a [data] leaves the
    users as they were.  This holds for every [where] of the caller and
    every such [data], also one that sets [companyId], [projectId],
    [userId] or [employeeId], because [companyId] (or
    [project: { companyId }], or [id] for the company) is defined after
    the caller's filter is spread.  A [data] with writes on the relations
    of the row is not covered: the wrapper hands it to the ORM as it
    is. *)
Theorem tenant_writes_leave_other_companies_alone
  (this : TenantPrisma.t) (call : Write.Change) (db : DB) :
  let db' := snd (run_change this call db) in
  (forall r, In r (all_rows db) ->
             company_of db r <> Some (TenantPrisma.companyId this) ->
             In r (all_rows db'))
  /\ (forall c, In c (companies db) ->
                company_id c <> TenantPrisma.companyId this -> In c (companies db'))
  /\ users db' = users db.
Proof.
  cbv zeta.
  assert (Hp : forall w p, company_of db (ProjectRow p) <> Some (TenantPrisma.companyId this) ->
               matches (project_view db p) (spread_with w (TenantPrisma.own_company this))
               = false).
  { intros w p H. apply not_true_false. intros Hm. apply H. cbn. f_equal.
    exact (own_company_project this db p (matches_spread_with _ _ _ Hm)). }
  assert (He : forall w e, company_of db (ExpenseRow e) <> Some (TenantPrisma.companyId this) ->
               matches (expense_view db e) (spread_with w (TenantPrisma.own_project this))
               = false).
  { intros w e H. apply not_true_false. intros Hm. apply H. cbn.
    exact (own_project_expense this db e (matches_spread_with _ _ _ Hm)). }
  assert (Hm : forall w m, company_of db (MembershipRow m) <> Some (TenantPrisma.companyId this) ->
               matches (membership_view db m) (spread_with w (TenantPrisma.own_company this))
               = false).
  { intros w m H. apply not_true_false. intros Hx. apply H. cbn. f_equal.
    exact (own_company_membership this db m (matches_spread_with _ _ _ Hx)). }
  assert (Ha : forall w p, company_of db (ApprovalPolicyRow p) <> Some (TenantPrisma.companyId this) ->
               matches (policy_view db p) (spread_with w (TenantPrisma.own_company this))
               = false).
  { intros w p H. apply not_true_false. intros Hx. apply H. cbn. f_equal.
    exact (own_company_policy this db p (matches_spread_with _ _ _ Hx)). }
  assert (Hc : forall w c, company_id c <> TenantPrisma.companyId this ->
               matches (company_view c) (spread_with w (TenantPrisma.own_id this)) = false).
  { intros w c H. apply not_true_false. intros Hx. apply H.
    exact (own_id_company this c (matches_spread_with _ _ _ Hx)). }
  destruct call as [a d|a d|a|a d|a|a d|a|a d]; cbn [run_change]; rewrite snd_forget.
  - unfold TenantPrisma.company.update, company_update.
    destruct (update_where_table companyModel with_companies never_refused
                (unique_where (TenantPrisma.unique_with a (TenantPrisma.own_id this)))
                (apply_company_update d) db) as [-> | ->]; [auto|].
    split; [intros r Hin _; exact Hin|]. split; [|reflexivity].
    intros c Hin Hne. cbn [companies with_companies].
    apply In_map_unless; [exact Hin|]. apply Hc, Hne.
  - unfold TenantPrisma.project.update, project_update.
    destruct (update_where_table projectModel with_projects
                (fun db _ _ =>
                   foreign_key (dangling (find_company db) "companyId"
                                         (set_project_companyId d)))
                (unique_where (TenantPrisma.unique_with a (TenantPrisma.own_company this)))
                (apply_project_update d) db) as [-> | ->]; [auto|].
    split; [|split; [auto|reflexivity]].
    intros r Hin Hne. apply in_all_rows. apply in_all_rows in Hin.
    destruct r; try exact Hin. cbn [projects with_projects].
    apply In_map_unless; [exact Hin|]. apply Hp, Hne.
  - unfold TenantPrisma.project.delete.
    destruct (project_delete_table
                (unique_where (TenantPrisma.unique_with a (TenantPrisma.own_company this)))
                db) as [-> | ->]; [auto|].
    split; [|split; [auto|reflexivity]].
    intros r Hin Hne. apply in_all_rows. apply in_all_rows in Hin.
    destruct r; try exact Hin. cbn [projects with_projects].
    apply In_filter_unless; [exact Hin|]. apply Hp, Hne.
  - unfold TenantPrisma.expense.update.
    destruct (expense_update_table
                (unique_where (TenantPrisma.unique_with a (TenantPrisma.own_project this)))
                d db) as [-> | ->]; [auto|].
    split; [|split; [auto|reflexivity]].
    intros r Hin Hne. apply in_all_rows. apply in_all_rows in Hin.
    destruct r; try exact Hin. cbn [expenses with_expenses].
    apply In_map_unless; [exact Hin|]. apply He, Hne.
  - unfold TenantPrisma.expense.delete.
    destruct (expense_delete_table
                (unique_where (TenantPrisma.unique_with a (TenantPrisma.own_project this)))
                db) as [-> | ->]; [auto|].
    split; [|split; [auto|reflexivity]].
    intros r Hin Hne. apply in_all_rows. apply in_all_rows in Hin.
    destruct r; try exact Hin. cbn [expenses with_expenses].
    apply In_filter_unless; [exact Hin|]. apply He, Hne.
  - unfold TenantPrisma.membership.update, membership_update.
    match goal with
    | |- context [update_where _ _ ?refused _ _ _] =>
        destruct (update_where_table membershipModel with_memberships refused
                    (unique_where
                       (TenantPrisma.unique_with a (TenantPrisma.own_company this)))
                    (apply_membership_update d) db) as [-> | ->]; [auto|]
    end.
    split; [|split; [auto|reflexivity]].
    intros r Hin Hne. apply in_all_rows. apply in_all_rows in Hin.
    destruct r; try exact Hin. cbn [memberships with_memberships].
    apply In_map_unless; [exact Hin|]. apply Hm, Hne.
  - unfold TenantPrisma.membership.delete, membership_delete.
    destruct (delete_where_table membershipModel with_memberships
                (unique_where (TenantPrisma.unique_with a (TenantPrisma.own_company this)))
                db) as [-> | ->]; [auto|].
    split; [|split; [auto|reflexivity]].
    intros r Hin Hne. apply in_all_rows. apply in_all_rows in Hin.
    destruct r; try exact Hin. cbn [memberships with_memberships].
    apply In_filter_unless; [exact Hin|]. apply Hm, Hne.
  - unfold TenantPrisma.approvalPolicy.update.
    destruct (approvalPolicy_update_table
                (unique_where (TenantPrisma.unique_with a (TenantPrisma.own_company this)))
                d db) as [-> | ->]; [auto|].
    split; [|split; [auto|reflexivity]].
    intros r Hin Hne. apply in_all_rows. apply in_all_rows in Hin.
    destruct r; try exact Hin. cbn [approvalPolicies with_approvalPolicies].
    apply In_map_unless; [exact Hin|]. apply Ha, Hne.
Qed.

Lemma in_snoc_row {A} (F : A -> Row) (x row : A) (l : list A) :
  (forall a b, F a = F b -> a = b) ->
  In x (l ++ [row]) <-> In x l \/ F x = F row.
Proof.
  intros Hinj. rewrite in_app_iff. cbn. split.
  - intros [H|[H|[]]]; [auto|]. right. congruence.
  - intros [H|H]; [auto|]. right. left. symmetry. auto.
Qed.

(** X6. A row created through the wrapper ([project], [membership],
    [approvalPolicy], [auditLog], [exchangeRateSnapshot], and
    [createAuditLog]) with a [data] that gives columns belongs to the
    wrapper's company whatever company the [data] names; for such a [data]
    it is the only row added to the scoped tables, and the [Company] rows
    are untouched.  A refused [create] writes nothing.  A [data] that
    creates rows through the relations of the new row is not covered: the
    wrapper hands it to the ORM as it is. *)
Theorem tenant_creates_stay_in_the_company
  (this : TenantPrisma.t) (call : Write.Create) (db : DB) :
  match run_create this call db with
  | (Return row, db') =>
      belongs_to db' (TenantPrisma.companyId this) row
      /\ (forall r, In r (all_rows db') <-> In r (all_rows db) \/ r = row)
      /\ companies db' = companies db
  | (Throw _, db') => db' = db
  end.
Proof.
  destruct call as [d|d|d|d|d|action entity entityId meta]; cbn [run_create].
  1: unfold TenantPrisma.project.create; destruct (data_companyId d); [reflexivity|].
  2: unfold TenantPrisma.membership.create, membership_create; rewrite bind_unfold;
     destruct (existsb _ _); [reflexivity|].
  3: unfold TenantPrisma.approvalPolicy.create, approvalPolicy_create; rewrite bind_unfold;
     cbn [new_policy_maxPerEmployeeMinor new_policy_largeExpenseThresholdMinor];
     destruct (_ && _); [|reflexivity].
  4: unfold TenantPrisma.auditLog.create.
  5: unfold TenantPrisma.exchangeRateSnapshot.create.
  6: unfold TenantPrisma.createAuditLog.
  all: cbv [project_create auditLog_create exchangeRateSnapshot_create bind fresh_id ret];
    cbv beta iota; split; [reflexivity|]; split; [|reflexivity];
    intros r; rewrite !in_all_rows; destruct r;
    cbn [projects expenses memberships approvalPolicies auditLogs exchangeRateSnapshots
         with_projects with_memberships with_approvalPolicies with_auditLogs
         with_exchangeRateSnapshots with_next_id];
    try (split; [auto | intros [H|H]; [exact H | discriminate H]]);
    apply in_snoc_row; intros ? ? E; injection E; auto.
Qed.

(** What the filter does not stop: the seeded admin hands the company's
    project to the rival by setting [companyId] in the [data] of an
    update. *)
Example project_update_moves_a_project :
  let r := TenantPrisma.project.update (Seed.tenant_of Seed.as_admin)
             (mkUniqueArgs (by_id (project_id Seed.project)))
             (mkProjectUpdateInputWith None None None (Some (company_id Seed.rival)))
             Seed.two_tenants in
  map project_companyId (projects (snd r)) = [company_id Seed.rival; company_id Seed.rival].
Proof. reflexivity. Qed.

(** A membership the seeded admin creates with the rival's [companyId] in
    its [data] is a membership of the admin's own company. *)
Example membership_create_overrides_the_company :
  let r := TenantPrisma.membership.create (Seed.tenant_of Seed.as_admin)
             (mkMembershipCreateInput "new-user" (company_id Seed.rival) EMPLOYEE)
             Seed.two_tenants in
  fst r = Return (mkMembership (cuid 13) "new-user" (company_id Seed.company) EMPLOYEE).
Proof. reflexivity. Qed.

(* ================================================================== *)
(** * Sessions: who is let in, and as what *)
(* ================================================================== *)

Lemma if_truthy_Some (s : option string) (x : string) :
  if_truthy s = Some x -> s = Some x /\ x <> "".
Proof.
  destruct s as [[|a r]|]; cbn; intros H; try discriminate H.
  injection H as <-. split; [reflexivity|discriminate].
Qed.

Lemma hd_error_In {A} (l : list A) (x : A) : hd_error l = Some x -> In x l.
Proof. destruct l; cbn; intros H; [discriminate H|]. injection H as ->. auto. Qed.

(** X7. Signing in.  When [authorize] accepts the credentials, there is a
    user with that email whose stored hash the password matches, and the
    company and role it signs the user into are those of a Membership row
    of that user: the first one in the table.  The [jwt] and [session]
    callbacks and [getSession] carry exactly these to the server side: the
    session every handler reads has the user's id, the membership's
    [companyId] and the membership's [role]. *)
Theorem sign_in_session_is_a_membership
  (compare : string -> string -> bool) (credentials : option Credentials.t) (db : DB)
  (u : NextAuthUser.t) (token : JWT.t) (session0 : NextAuthSession.t) :
  Auth.authorize compare credentials db = Some u ->
  exists c password user m,
    credentials = Some c
    /\ Credentials.email c = Some (user_email user)
    /\ Credentials.password c = Some password
    /\ In user (users db)
    /\ compare password (user_passwordHash user) = true
    /\ hd_error (Auth.memberships_of db user) = Some m
    /\ In m (memberships db)
    /\ membership_userId m = user_id user
    /\ getSession (Some (Auth.session session0 (Auth.jwt token (Some u))))
       = Some (Session.mk (user_id user) (membership_companyId m) (membership_role m)
                          (JWT.email token) (if_truthy (JWT.name token))).
Proof.
  unfold Auth.authorize. destruct credentials as [c|]; [|discriminate].
  destruct (if_truthy (Credentials.email c)) as [email|] eqn:Ee; [|discriminate].
  destruct (if_truthy (Credentials.password c)) as [password|] eqn:Ep; [|discriminate].
  destruct (prisma.findUnique userModel _ db) as [user|] eqn:Eu; [|discriminate].
  destruct (compare password (user_passwordHash user)) eqn:Ec; [|discriminate]. cbn [negb].
  destruct (hd_error (Auth.memberships_of db user)) as [m|] eqn:Em; [|discriminate].
  intros H. injection H as <-.
  apply findUnique_sound in Eu. destruct Eu as [Hin Hmatch].
  cbn in Hmatch. rewrite andb_true_r in Hmatch. apply String.eqb_eq in Hmatch.
  apply if_truthy_Some in Ee, Ep. destruct Ee as [Ee _], Ep as [Ep _].
  pose proof (hd_error_In _ Em) as Hm. apply filter_In in Hm. destruct Hm as [Hm Hu].
  apply String.eqb_eq in Hu.
  exists c, password, user, m. rewrite Hmatch.
  repeat split; auto.
Qed.

(** The seeded manager signs in and is a MANAGER of the seeded company. *)
Lemma sign_in_session_is_a_membership_witness :
  exists c password user m,
    Some (Credentials.mk (Some "manager@techcorp.com") (Some "manager123")) = Some c
    /\ Credentials.email c = Some (user_email user)
    /\ Credentials.password c = Some password
    /\ In user (users Seed.db)
    /\ String.eqb (Seed.plain_hash password 12) (user_passwordHash user) = true
    /\ hd_error (Auth.memberships_of Seed.db user) = Some m
    /\ In m (memberships Seed.db)
    /\ membership_userId m = user_id user
    /\ getSession
         (Some (Auth.session (NextAuthSession.mk None "2024-11-01")
                  (Auth.jwt (JWT.mk "" "" EMPLOYEE "manager@techcorp.com" (Some "Bob Manager"))
                     (Some (NextAuthUser.mk (cuid 2) "manager@techcorp.com"
                              (Some "Bob Manager") (cuid 0) MANAGER)))))
       = Some (Session.mk (user_id user) (membership_companyId m) (membership_role m)
                          "manager@techcorp.com" (Some "Bob Manager")).
Proof.
  apply (@sign_in_session_is_a_membership
           (fun password hash => String.eqb (Seed.plain_hash password 12) hash)
           (Some (Credentials.mk (Some "manager@techcorp.com") (Some "manager123")))
           Seed.db
           (NextAuthUser.mk (cuid 2) "manager@techcorp.com" (Some "Bob Manager") (cuid 0)
                            MANAGER)
           (JWT.mk "" "" EMPLOYEE "manager@techcorp.com" (Some "Bob Manager"))
           (NextAuthSession.mk None "2024-11-01")).
  reflexivity.
Defined.

(** A wrong password, an unknown email, an empty field and a user without
    a membership are all refused. *)
Example sign_in_refusals :
  let compare := fun password hash => String.eqb (Seed.plain_hash password 12) hash in
  Auth.authorize compare (Some (Credentials.mk (Some "manager@techcorp.com") (Some "x")))
                 Seed.db = None
  /\ Auth.authorize compare (Some (Credentials.mk (Some "nobody@x") (Some "manager123")))
                    Seed.db = None
  /\ Auth.authorize compare (Some (Credentials.mk (Some "manager@techcorp.com") (Some "")))
                    Seed.db = None
  /\ Auth.authorize compare
       (Some (Credentials.mk (Some "manager@techcorp.com") (Some "manager123")))
       (with_memberships (fun _ => []) Seed.db) = None.
Proof. repeat split. Qed.

(** X9. [requireRole] lets through exactly the sessions [hasRole] accepts,
    and returns the session unchanged; it redirects the others: to /login
    when there is no session, to /dashboard when the role is not among the
    allowed ones.  [isManagerOrAbove] is true exactly for ADMIN and MANAGER
    sessions, [isAdmin] for ADMIN ones.  The client [fromSession] builds is
    the one of the session's company and user; without a session it throws
    "Company context required" where [fromSessionOptional] gives null. *)
Theorem requireRole_agrees_with_hasRole
  (current : option Session.t) (allowedRoles : list MembershipRole) :
  match requireRole current allowedRoles with
  | Return session => current = Some session /\ hasRole current allowedRoles = true
  | Throw e =>
      hasRole current allowedRoles = false
      /\ e = NextRedirect (match current with None => "/login" | Some _ => "/dashboard" end)
  end
  /\ (isManagerOrAbove current = true <->
      exists session, current = Some session /\ Session.role session <> EMPLOYEE)
  /\ (isAdmin current = true <->
      exists session, current = Some session /\ Session.role session = ADMIN)
  /\ match current with
     | Some session =>
         fromSession current
         = Return (TenantPrisma.mk (Session.companyId session) (Session.userId session))
         /\ fromSessionOptional current
            = Some (TenantPrisma.mk (Session.companyId session) (Session.userId session))
     | None =>
         fromSession current = Throw (Error "Company context required")
         /\ fromSessionOptional current = None
     end.
Proof.
  split; [|split; [|split]].
  - unfold requireRole, requireAuth, hasRole. destruct current as [s|]; cbn.
    + destruct (existsb _ _); cbn; auto.
    + auto.
  - unfold isManagerOrAbove, hasRole. destruct current as [s|].
    + destruct (Session.role s) eqn:E; cbn; split; intros H;
        try discriminate H; try reflexivity.
      * exists s. split; [reflexivity|congruence].
      * exists s. split; [reflexivity|congruence].
      * destruct H as [s' [Hs Hr]]. injection Hs as <-. congruence.
    + split; [discriminate|]. intros [s [H _]]. discriminate H.
  - unfold isAdmin, hasRole. destruct current as [s|].
    + destruct (Session.role s) eqn:E; cbn; split; intros H;
        try discriminate H; try reflexivity.
      * exists s. auto.
      * destruct H as [s' [Hs Hr]]. injection Hs as <-. congruence.
      * destruct H as [s' [Hs Hr]]. injection Hs as <-. congruence.
    + split; [discriminate|]. intros [s [H _]]. discriminate H.
  - destruct current as [s|]; split; reflexivity.
Qed.

(** X10. The role checks the pages make themselves never deny anyone.
    [ManagerPage] tests the promise [hasRole] returns, not what it resolves
    to, so it never renders "Access Denied": every signed-in user, an
    EMPLOYEE too, gets the manager dashboard.  [AdminDashboard] discards
    what [hasRole("ADMIN")] resolves to: it renders the admin panel of the
    session's company for every role. *)
Theorem page_role_checks_never_deny :
  (forall current, ManagerPage current <> Return AccessDenied)
  /\ (forall session,
         ManagerPage (Some session)
         = Return (ManagerDashboard
                     (TenantPrisma.mk (Session.companyId session) (Session.userId session))
                     session))
  /\ (forall session db company,
         In company (companies db) ->
         company_id company = Session.companyId session ->
         exists company',
           AdminDashboard (Some session) db = (Return company', db)
           /\ In company' (companies db)
           /\ company_id company' = Session.companyId session).
Proof.
  split; [|split].
  - intros [s|]; cbn; discriminate.
  - reflexivity.
  - intros session db company Hin Hid.
    unfold AdminDashboard. rewrite bind_unfold. cbn [requireAuth lift].
    unfold TenantPrisma.getCompany, findUniqueOrThrow, prisma.findUnique.
    destruct (find_Some_of_In
                (fun r => matches (view companyModel db r)
                            (unique_where
                               (mkUniqueArgs
                                  [TenantPrisma.own_id
                                     (TenantPrisma.mk (Session.companyId session)
                                                      (Session.userId session))])))
                (companies db) company Hin) as [c' Hc'].
    { cbn. rewrite andb_true_r. apply String.eqb_eq. exact Hid. }
    cbn [table companyModel]. rewrite Hc'.
    apply find_some in Hc'. destruct Hc' as [Hin' Hm].
    cbn in Hm. rewrite andb_true_r in Hm. apply String.eqb_eq in Hm.
    exists c'. auto.
Qed.

Example an_employee_gets_the_manager_dashboard :
  ManagerPage (Some Seed.as_employee)
  = Return (ManagerDashboard (Seed.tenant_of Seed.as_employee) Seed.as_employee)
  /\ hasRole (Some Seed.as_employee) [MANAGER; ADMIN] = false.
Proof. split; reflexivity. Qed.

(* ================================================================== *)
(** * The route guard *)
(* ================================================================== *)

Lemma startsWith_app (s p : string) :
  startsWith s p = true -> exists rest, s = (p ++ rest)%string.
Proof.
  unfold startsWith. revert s. induction p as [|a p IH]; intros s H.
  - exists s. reflexivity.
  - destruct s as [|b s]; [discriminate H|]. cbn in H.
    destruct (ascii_dec a b) as [->|]; [|discriminate H].
    destruct (IH s H) as [rest ->]. exists rest. reflexivity.
Qed.

Lemma guard_without_token (pathname : string) :
  Middleware.guard None pathname
  = if Middleware.public pathname then Middleware.next else Middleware.sign_in.
Proof.
  unfold Middleware.guard, Middleware.authorized, Middleware.public.
  destruct (_ || _ || _ || _ || _ || _); [reflexivity|].
  destruct (_ || _ || _ || _ || _ || _ || _ || _); reflexivity.
Qed.

(** X8. The route guard, [withAuth] over the middleware function and the
    [authorized] callback.  A request is let through to a path under
    /admin only with the token of an ADMIN, and to a path under /manage or
    /reports only with the token of an ADMIN or a MANAGER.  Without a
    token exactly the public routes are let through and every other
    request is sent to the sign-in page; in particular no API route other
    than /api/auth and /api/company/create is reached without a token.
    With a token, whatever its role, every API route is let through: the
    roles of the API are checked by the handlers alone. *)
Theorem route_guard_by_role (token : option JWT.t) (pathname : string) :
  (Middleware.guard token pathname = Middleware.next ->
   (startsWith pathname "/admin" = true ->
    exists t, token = Some t /\ JWT.role t = ADMIN)
   /\ (startsWith pathname "/manage" = true \/ startsWith pathname "/reports" = true ->
       exists t, token = Some t /\ JWT.role t <> EMPLOYEE))
  /\ Middleware.guard None pathname
     = (if Middleware.public pathname then Middleware.next else Middleware.sign_in)
  /\ (startsWith pathname "/api/" = true ->
      (startsWith pathname "/api/auth" = false ->
       startsWith pathname "/api/company/create" = false ->
       Middleware.guard None pathname = Middleware.sign_in)
      /\ forall t, Middleware.guard (Some t) pathname = Middleware.next).
Proof.
  split; [|split].
  - intros Hnext. split.
    + intros H. apply startsWith_app in H. destruct H as [rest ->].
      destruct token as [t|]; [|destruct rest; vm_compute in Hnext; discriminate Hnext].
      exists t. split; [reflexivity|].
      destruct t as [u c r e n]. destruct r; [reflexivity| |];
        destruct rest; vm_compute in Hnext; discriminate Hnext.
    + intros [H|H]; apply startsWith_app in H; destruct H as [rest ->];
        (destruct token as [t|]; [|destruct rest; vm_compute in Hnext; discriminate Hnext]);
        exists t; (split; [reflexivity|]);
        destruct t as [u c r e n]; destruct r; try discriminate;
        destruct rest; vm_compute in Hnext; discriminate Hnext.
  - apply guard_without_token.
  - intros H. apply startsWith_app in H. destruct H as [rest ->]. split.
    + intros Hauth Hcreate. rewrite guard_without_token. unfold Middleware.public.
      rewrite Hauth, Hcreate. reflexivity.
    + intros t. unfold Middleware.guard, Middleware.authorized.
      destruct (_ || _ || _ || _ || _ || _);
        [|destruct (_ || _ || _ || _ || _ || _ || _ || _)];
        cbn [is_some]; destruct t as [u c r e n]; destruct r; destruct rest; reflexivity.
Qed.

Example the_guard_on_some_requests :
  let employee := Some (JWT.mk (cuid 3) (cuid 0) EMPLOYEE "employee@techcorp.com" None) in
  Middleware.guard employee "/admin/users" = Middleware.redirect_to "/dashboard"
  /\ Middleware.guard employee "/manager" = Middleware.redirect_to "/dashboard"
  /\ Middleware.guard employee "/expenses" = Middleware.next
  /\ Middleware.guard employee "/login" = Middleware.redirect_to "/dashboard"
  /\ Middleware.guard None "/api/expenses" = Middleware.sign_in
  /\ Middleware.guard None "/api/company/create" = Middleware.next
  /\ Middleware.guard None "/login" = Middleware.next.
Proof. repeat split. Qed.

(* ================================================================== *)
(** * What the two wrappers guarantee of every handler *)
(* ================================================================== *)

Lemma authorize_throws (requiredRole : option (list MembershipRole))
  (current : option Session.t) (e : exn) :
  authorize requiredRole current = Throw e ->
  exists url, e = NextRedirect url.
Proof.
  unfold authorize, requireRole, requireAuth, redirect.
  destruct requiredRole as [roles|]; destruct current as [s|];
    try destruct (existsb _ _); intros H; try discriminate H;
    injection H as <-; eexists; reflexivity.
Qed.

(** X11. A server action built by [createServerAction] never rejects: for
    every action body, session, role requirement, schema and input it
    resolves to an object whose [success] is true or false.  [success] is
    true only when the caller was let in and the action body returned, and
    then the object is [{ success: true, data: r }] around whatever the
    body returned, a [{ success: false, ... }] of its own included.  When
    the caller is not let in (no session, or a role that is not allowed)
    the body does not run: nothing is written and the answer is a
    failure. *)
Theorem server_action_never_rejects {T : Type}
  (requiredRole : option (list MembershipRole))
  (validationSchema : option (jsval -> Outcome T))
  (action : TenantPrisma.t -> Session.t -> option T -> Async jsval)
  (current : option Session.t) (formData : option jsval) (db : DB) :
  exists result db',
    createServerAction requiredRole validationSchema action current formData db
    = (Return result, db')
    /\ (succeeded result \/ failed result)
    /\ (succeeded result ->
        exists session data r,
          authorize requiredRole current = Return session
          /\ action (TenantPrisma.mk (Session.companyId session) (Session.userId session))
                    session data db = (Return r, db')
          /\ result = JObj [("success", JBool true); ("data", r)])
    /\ (forall e, authorize requiredRole current = Throw e -> db' = db /\ failed result).
Proof.
  assert (Hf : forall e,
             failed (match e with
                     | ZodError issues =>
                         JObj [("success", JBool false); ("error", JStr "Validation failed");
                               ("details", issues_value issues)]
                     | _ => JObj [("success", JBool false); ("error", JStr (error_message e))]
                     end)).
  { intros e. destruct e; (split; [reflexivity|eexists; reflexivity]). }
  assert (Hns : forall e,
             ~ succeeded (match e with
                          | ZodError issues =>
                              JObj [("success", JBool false);
                                    ("error", JStr "Validation failed");
                                    ("details", issues_value issues)]
                          | _ => JObj [("success", JBool false);
                                       ("error", JStr (error_message e))]
                          end)).
  { intros e. destruct e; unfold succeeded; cbn; discriminate. }
  unfold createServerAction, try_catch. rewrite bind_unfold. unfold lift at 1.
  destruct (authorize requiredRole current) as [session|e0] eqn:Ea.
  - rewrite bind_unfold. unfold lift at 1.
    destruct (match validationSchema, formData with
              | Some parse, Some data =>
                  if truthy data then
                    match parse data with
                    | Return v => Return (Some v)
                    | Throw e => Throw e
                    end
                  else Return None
              | _, _ => Return None
              end) as [data|e1].
    + rewrite bind_unfold.
      destruct (action (TenantPrisma.mk (Session.companyId session) (Session.userId session))
                       session data db) as [[r|e2] db2] eqn:Eact.
      * unfold ret. eexists _, _. split; [reflexivity|].
        split; [left; reflexivity|]. split; [|intros e He; discriminate He].
        intros _. exists session, data, r. auto.
      * unfold ret. eexists _, _. split; [reflexivity|].
        split; [right; apply Hf|]. split; [|intros e He; discriminate He].
        intros Hs. exfalso. exact (Hns e2 Hs).
    + unfold ret. eexists _, _. split; [reflexivity|].
      split; [right; apply Hf|]. split; [|intros e He; discriminate He].
      intros Hs. exfalso. exact (Hns e1 Hs).
  - unfold ret. eexists _, _. split; [reflexivity|].
    split; [right; apply Hf|]. split.
    + intros Hs. exfalso. exact (Hns e0 Hs).
    + intros e _. split; [reflexivity|apply Hf].
Qed.

(** X12. A route handler built by [createApiHandler] runs only for a
    caller who is let in and, when there is a schema, on a body the schema
    accepted; it then gets the client of the session's company and user.
    Otherwise the wrapper answers by itself with [success: false] and
    writes nothing: 400 "Invalid request data" when the schema refused the
    body, and 500 "NEXT_REDIRECT" when there is no session or the role is
    not allowed (never 401 or 403: the redirect [requireAuth] and
    [requireRole] throw carries neither keyword). *)
Theorem api_handler_runs_only_when_let_in {T : Type}
  (requiredRole : option (list MembershipRole))
  (validationSchema : option (jsval -> Outcome T))
  (handler : NextRequest -> TenantPrisma.t -> Session.t -> option T -> Async NextResponse)
  (current : option Session.t) (req : NextRequest) (db : DB) :
  (exists response,
      createApiHandler requiredRole validationSchema handler current req db
      = (Return response, db)
      /\ prop "success" (body response) = JBool false
      /\ (status response = 400 \/ status response = 401 \/ status response = 403
          \/ status response = 500)
      /\ (forall e, authorize requiredRole current = Throw e ->
                    response = createErrorResponse "NEXT_REDIRECT" (Some 500) JUndefined)
      /\ (forall session parse payload issues,
             authorize requiredRole current = Return session ->
             validationSchema = Some parse -> json req = Return payload ->
             parse payload = Throw (ZodError issues) ->
             response = createErrorResponse "Invalid request data" (Some 400)
                          (issues_value issues)))
  \/ (exists session data,
         authorize requiredRole current = Return session
         /\ match validationSchema with
            | None => data = None
            | Some parse =>
                exists payload d,
                  json req = Return payload /\ parse payload = Return d /\ data = Some d
            end
         /\ createApiHandler requiredRole validationSchema handler current req db
            = handler req (TenantPrisma.mk (Session.companyId session) (Session.userId session))
                      session data db).
Proof.
  assert (Hcatch : forall e,
             prop "success" (body (@apiHandler_catch e)) = JBool false
             /\ (status (apiHandler_catch e) = 400 \/ status (apiHandler_catch e) = 401
                 \/ status (apiHandler_catch e) = 403 \/ status (apiHandler_catch e) = 500)).
  { intros e. unfold apiHandler_catch.
    destruct (includes (error_message e) "UNAUTHORIZED"); [cbn; auto|].
    destruct (includes (error_message e) "FORBIDDEN"); cbn; auto. }
  unfold createApiHandler, apiHandler_prepare.
  destruct (authorize requiredRole current) as [session|e0] eqn:Ea.
  - destruct validationSchema as [parse|].
    + unfold read_json. destruct (json req) as [payload|ej] eqn:Ej.
      * destruct (parse payload) as [d|e1] eqn:Ep.
        -- right. exists session, (Some d). split; [reflexivity|]. split; [|reflexivity].
           exists payload, d. auto.
        -- left. destruct e1 as [m|issues|url].
           ++ eexists. split; [reflexivity|]. destruct (Hcatch (Error m)) as [H1 H2].
              split; [exact H1|]. split; [exact H2|]. split; [intros e He; discriminate He|].
              intros session' parse' payload' issues' _ Hs Hj Hp.
              injection Hs as <-. injection Hj as <-. rewrite Ep in Hp. discriminate Hp.
           ++ eexists. split; [reflexivity|]. split.
              { unfold createErrorResponse. cbn. reflexivity. }
              split; [left; reflexivity|]. split; [intros e He; discriminate He|].
              intros session' parse' payload' issues' _ Hs Hj Hp.
              injection Hs as <-. injection Hj as <-. rewrite Ep in Hp.
              injection Hp as <-. reflexivity.
           ++ eexists. split; [reflexivity|]. destruct (Hcatch (NextRedirect url)) as [H1 H2].
              split; [exact H1|]. split; [exact H2|]. split; [intros e He; discriminate He|].
              intros session' parse' payload' issues' _ Hs Hj Hp.
              injection Hs as <-. injection Hj as <-. rewrite Ep in Hp. discriminate Hp.
      * left. eexists. split; [reflexivity|].
        destruct (Hcatch ej) as [H1 H2].
        split; [exact H1|]. split; [exact H2|]. split; [intros e He; discriminate He|].
        intros session' parse' payload' issues' _ Hs Hj Hp. discriminate Hj.
    + right. exists session, None. auto.
  - left. destruct (authorize_throws _ _ Ea) as [url ->].
    eexists. split; [reflexivity|]. split; [reflexivity|].
    split; [right; right; right; reflexivity|]. split; [intros e _; reflexivity|].
    intros session parse payload issues H _ _ _. discriminate H.
Qed.

(* ================================================================== *)
(** * Projects *)
(* ================================================================== *)

Lemma authorize_returns (roles : list MembershipRole) (current : option Session.t)
  (session : Session.t) :
  authorize (Some roles) current = Return session ->
  current = Some session /\ existsb (role_eqb (Session.role session)) roles = true.
Proof.
  unfold authorize, requireRole, requireAuth, redirect. destruct current as [s|].
  - destruct (existsb _ _) eqn:E; intros H; [|discriminate H].
    injection H as <-. auto.
  - discriminate.
Qed.

Lemma createProject_action_rows (tenant : TenantPrisma.t) (session : Session.t)
  (data : CreateProject) (db : DB) :
  let p := mkProject (cuid (next_id db)) (TenantPrisma.companyId tenant) (create_name data)
                     (create_description data) (create_active data) in
  exists entry db',
    createProject_action tenant session (Some data) db = (Return (project_value p), db')
    /\ projects db' = projects db ++ [p]
    /\ auditLogs db' = auditLogs db ++ [entry]
    /\ audit_action entry = "CREATE_PROJECT"
    /\ audit_entityId entry = project_id p
    /\ audit_companyId entry = TenantPrisma.companyId tenant
    /\ audit_actorUserId entry = TenantPrisma.userId tenant.
Proof.
  cbv zeta. unfold createProject_action, project_create, TenantPrisma.createAuditLog,
    auditLog_create, fresh_id, TenantPrisma.getCompanyId.
  rewrite !bind_unfold. eexists _, _. split; [reflexivity|].
  cbn. repeat split; reflexivity.
Qed.

Lemma createProject_run (current : option Session.t) (formData : option jsval) (db : DB) :
  exists result db',
    createProject current formData db = (result, db')
    /\ (projects db' = projects db
        \/ exists session p entry,
             current = Some session /\ Session.role session <> EMPLOYEE
             /\ result = Return (JObj [("success", JBool true); ("data", project_value p)])
             /\ projects db' = projects db ++ [p]
             /\ project_companyId p = Session.companyId session
             /\ auditLogs db' = auditLogs db ++ [entry]
             /\ audit_action entry = "CREATE_PROJECT"
             /\ audit_entityId entry = project_id p
             /\ audit_companyId entry = Session.companyId session
             /\ audit_actorUserId entry = Session.userId session).
Proof.
  unfold createProject, createServerAction, try_catch. rewrite bind_unfold.
  unfold lift at 1.
  destruct (authorize (Some [ADMIN; MANAGER]) current) as [session|e0] eqn:Ea;
    [|eexists _, _; split; [reflexivity|left; reflexivity]].
  apply authorize_returns in Ea. destruct Ea as [-> Hrole].
  rewrite bind_unfold. unfold lift at 1.
  destruct (match formData with
            | Some data =>
                if truthy data then
                  match createProjectSchema data with
                  | Return v => Return (Some v)
                  | Throw e => Throw e
                  end
                else Return None
            | None => Return None
            end) as [[data|]|e1];
    [| eexists _, _; split; [reflexivity|left; reflexivity]
     | eexists _, _; split; [reflexivity|left; reflexivity]].
  rewrite bind_unfold.
  destruct (createProject_action_rows
              (TenantPrisma.mk (Session.companyId session) (Session.userId session))
              session data db) as [entry [db' [Hrun [Hp [Ha [H1 [H2 [H3 H4]]]]]]]].
  rewrite Hrun. unfold ret. eexists _, _. split; [reflexivity|].
  right. eexists session, _, entry.
  split; [reflexivity|]. split.
  { intros E. rewrite E in Hrole. discriminate Hrole. }
  split; [reflexivity|]. split; [exact Hp|]. split; [reflexivity|].
  split; [exact Ha|]. auto.
Qed.

Lemma a_project_is_serialised (p : Project) (message : option string) :
  createSuccessResponse (project_value p) message
  = Return (NextResponse_json
              (JObj [("success", JBool true); ("data", project_value p);
                     ("message", opt_string message)]) None).
Proof.
  unfold createSuccessResponse, NextResponse_json_of.
  replace (has_bigint _) with false; [reflexivity|].
  unfold project_value. cbn. destruct (project_description p), message; reflexivity.
Qed.

Lemma projects_POST_run (now : string) (current : option Session.t) (req : NextRequest)
  (db : DB) :
  exists result db',
    projects_POST now current req db = (result, db')
    /\ (projects db' = projects db
        \/ exists session p entry,
             current = Some session /\ Session.role session = ADMIN
             /\ result = Return (NextResponse_json
                                   (JObj [("success", JBool true);
                                          ("data", project_value p);
                                          ("message", JStr "Project created successfully")])
                                   None)
             /\ projects db' = projects db ++ [p]
             /\ project_companyId p = Session.companyId session
             /\ auditLogs db' = auditLogs db ++ [entry]
             /\ audit_action entry = "CREATE_PROJECT"
             /\ audit_entityId entry = project_id p
             /\ audit_companyId entry = Session.companyId session
             /\ audit_actorUserId entry = Session.userId session).
Proof.
  unfold projects_POST, createApiHandler, apiHandler_prepare.
  destruct (authorize (Some [ADMIN]) current) as [session|e0] eqn:Ea;
    [|eexists _, _; split; [reflexivity|left; reflexivity]].
  apply authorize_returns in Ea. destruct Ea as [-> Hrole].
  destruct (read_json req) as [payload|e1];
    [|eexists _, _; split; [reflexivity|left; reflexivity]].
  destruct (api_createProjectSchema payload) as [data|[m|issues|url]];
    [| eexists _, _; split; [reflexivity|left; reflexivity]
     | eexists _, _; split; [reflexivity|left; reflexivity]
     | eexists _, _; split; [reflexivity|left; reflexivity]].
  unfold projects_handler, project_create, auditAction, TenantPrisma.createAuditLog,
    auditLog_create, fresh_id.
  rewrite !bind_unfold. unfold lift. rewrite a_project_is_serialised.
  eexists _, _. split; [reflexivity|]. right.
  eexists session, _, _.
  split; [reflexivity|]. split.
  { destruct (Session.role session); [reflexivity| |]; discriminate Hrole. }
  split; [reflexivity|]. cbn. repeat split; reflexivity.
Qed.

(** X13. Every project the [createProject] action adds is added for an
    ADMIN or a MANAGER, and every project POST /api/projects adds is added
    for an ADMIN; the project is in the creator's own company, it is the
    only row added to the Project table, and one AuditLog row
    CREATE_PROJECT of that company, naming the new project and the creator,
    is appended with it.  For every other caller and every refused input
    the Project table is as it was. *)
Theorem projects_are_created_in_the_creators_company
  (now : string) (current : option Session.t) (db : DB) :
  (forall formData,
      let r := createProject current formData db in
      projects (snd r) = projects db
      \/ exists session p entry,
           current = Some session /\ Session.role session <> EMPLOYEE
           /\ fst r = Return (JObj [("success", JBool true); ("data", project_value p)])
           /\ projects (snd r) = projects db ++ [p]
           /\ project_companyId p = Session.companyId session
           /\ auditLogs (snd r) = auditLogs db ++ [entry]
           /\ audit_action entry = "CREATE_PROJECT"
           /\ audit_entityId entry = project_id p
           /\ audit_companyId entry = Session.companyId session
           /\ audit_actorUserId entry = Session.userId session)
  /\ (forall req,
         let r := projects_POST now current req db in
         projects (snd r) = projects db
         \/ exists session p entry,
              current = Some session /\ Session.role session = ADMIN
              /\ fst r = Return (NextResponse_json
                                   (JObj [("success", JBool true);
                                          ("data", project_value p);
                                          ("message", JStr "Project created successfully")])
                                   None)
              /\ projects (snd r) = projects db ++ [p]
              /\ project_companyId p = Session.companyId session
              /\ auditLogs (snd r) = auditLogs db ++ [entry]
              /\ audit_action entry = "CREATE_PROJECT"
              /\ audit_entityId entry = project_id p
              /\ audit_companyId entry = Session.companyId session
              /\ audit_actorUserId entry = Session.userId session).
Proof.
  split.
  - intros formData. cbv zeta.
    destruct (createProject_run current formData db) as [result [db' [-> H]]]. exact H.
  - intros req. cbv zeta.
    destruct (projects_POST_run now current req db) as [result [db' [-> H]]]. exact H.
Qed.

Example an_employee_cannot_create_a_project :
  createProject (Some Seed.as_employee) (Some (JObj [("name", JStr "Intranet")])) Seed.db
  = (Return (failure "NEXT_REDIRECT"), Seed.db)
  /\ map project_name
         (projects (snd (createProject (Some Seed.as_manager)
                           (Some (JObj [("name", JStr "Intranet")])) Seed.db)))
     = ["Website Redesign"; "Intranet"].
Proof. split; reflexivity. Qed.

(** [tenant.project.update({ where: { id }, data })] on a project that
    [tenant.project.findUnique({ where: { id } })] finds, for a [data]
    that leaves [companyId] out. *)
Lemma tenant_project_update_by_id (tenant : TenantPrisma.t) (id : string)
  (data : ProjectUpdateInput) (db : DB) (existing : Project) :
  set_project_companyId data = None ->
  TenantPrisma.project.findUnique tenant (mkUniqueArgs (by_id id)) db = Some existing ->
  TenantPrisma.project.update tenant (mkUniqueArgs (by_id id)) data db
  = (Return (apply_project_update data existing),
     with_projects
       (map (fun q => if String.eqb (project_id q) id
                         && String.eqb (project_companyId q) (TenantPrisma.companyId tenant)
                      then apply_project_update data q else q)) db).
Proof.
  intros Hc H. unfold TenantPrisma.project.update, project_update, update_where.
  rewrite Hc. cbn [dangling foreign_key option_map].
  change (find (fun r => matches (view projectModel db r)
                           (unique_where
                              (TenantPrisma.unique_with (mkUniqueArgs (by_id id))
                                 (TenantPrisma.own_company tenant))))
               (table projectModel db))
    with (TenantPrisma.project.findUnique tenant (mkUniqueArgs (by_id id)) db).
  rewrite H. f_equal. unfold with_projects. f_equal. apply map_ext. intros q.
  cbn [view projectModel]. rewrite matches_own_project_by_id. reflexivity.
Qed.

Lemma updateProject_action_run (tenant : TenantPrisma.t) (session : Session.t)
  (updateData : UpdateProject) (db : DB) (existing : Project) :
  let id := update_project_id updateData in
  let data := mkProjectUpdateInput (update_name updateData)
                (option_map Some (update_project_description updateData))
                (update_active updateData) in
  TenantPrisma.project.findUnique tenant (mkUniqueArgs (by_id id)) db = Some existing ->
  exists entry db',
    updateProject_action tenant session (Some updateData) db
    = (Return (project_value (apply_project_update data existing)), db')
    /\ projects db'
       = map (fun q => if String.eqb (project_id q) id
                          && String.eqb (project_companyId q) (TenantPrisma.companyId tenant)
                       then apply_project_update data q else q) (projects db)
    /\ expenses db' = expenses db
    /\ auditLogs db' = auditLogs db ++ [entry]
    /\ audit_action entry = "UPDATE_PROJECT"
    /\ audit_entityId entry = id
    /\ audit_companyId entry = TenantPrisma.companyId tenant
    /\ audit_actorUserId entry = TenantPrisma.userId tenant
    /\ prop "changes" (audit_meta entry) = JObj (changes_of updateData existing).
Proof.
  cbv zeta. intros H. unfold updateProject_action.
  rewrite bind_read, H, bind_unfold.
  rewrite (@tenant_project_update_by_id tenant _ _ db existing); [|reflexivity|exact H].
  unfold TenantPrisma.createAuditLog, auditLog_create, fresh_id. rewrite !bind_unfold.
  eexists _, _. split; [reflexivity|]. cbn. repeat split; reflexivity.
Qed.

Lemma has_key_app (k : string) (a b : list (string * jsval)) :
  has_key k (JObj (a ++ b)) = has_key k (JObj a) || has_key k (JObj b).
Proof. cbn. apply existsb_app. Qed.

Lemma eqb_false_ne (a b : bool) : Bool.eqb a b = false <-> a <> b.
Proof. destruct a, b; cbn; split; congruence. Qed.

(** X14. The body of the [updateProject] action.  With no project of that
    id in the caller's company it throws "Project not found" and writes
    nothing.  Otherwise exactly the project of that id in the caller's
    company is rewritten, with the columns given (name, description,
    active) set and the others ([id], [companyId]) kept; the expenses are
    untouched; and one AuditLog row UPDATE_PROJECT of the company, naming
    the project and the caller, is appended.  Its [changes] object names
    exactly the columns whose value changed (for a name that is not
    empty, as the schema requires). *)
Theorem updateProject_changes_one_project
  (tenant : TenantPrisma.t) (session : Session.t) (updateData : UpdateProject) (db : DB) :
  let id := update_project_id updateData in
  let data := mkProjectUpdateInput (update_name updateData)
                (option_map Some (update_project_description updateData))
                (update_active updateData) in
  let r := updateProject_action tenant session (Some updateData) db in
  match TenantPrisma.project.findUnique tenant (mkUniqueArgs (by_id id)) db with
  | None => r = (Throw (Error "Project not found"), db)
  | Some existing =>
      let updated := apply_project_update data existing in
      fst r = Return (project_value updated)
      /\ projects (snd r)
         = map (fun q => if String.eqb (project_id q) id
                            && String.eqb (project_companyId q)
                                          (TenantPrisma.companyId tenant)
                         then apply_project_update data q else q) (projects db)
      /\ project_id updated = project_id existing
      /\ project_companyId updated = project_companyId existing
      /\ expenses (snd r) = expenses db
      /\ exists entry,
           auditLogs (snd r) = auditLogs db ++ [entry]
           /\ audit_action entry = "UPDATE_PROJECT"
           /\ audit_entityId entry = id
           /\ audit_companyId entry = TenantPrisma.companyId tenant
           /\ audit_actorUserId entry = TenantPrisma.userId tenant
           /\ (update_name updateData <> Some "" ->
               let changes := prop "changes" (audit_meta entry) in
               (has_key "name" changes = true <->
                project_name updated <> project_name existing)
               /\ (has_key "description" changes = true <->
                   project_description updated <> project_description existing)
               /\ (has_key "active" changes = true <->
                   project_active updated <> project_active existing))
  end.
Proof.
  cbv zeta.
  destruct (TenantPrisma.project.findUnique tenant
              (mkUniqueArgs (by_id (update_project_id updateData))) db)
    as [existing|] eqn:H.
  - destruct (updateProject_action_run tenant session updateData db H)
      as [entry [db' [-> [Hp [He [Ha [H1 [H2 [H3 [H4 H5]]]]]]]]]].
    cbn [fst snd]. split; [reflexivity|]. split; [exact Hp|].
    split; [reflexivity|]. split; [reflexivity|]. split; [exact He|].
    exists entry. split; [exact Ha|]. split; [exact H1|]. split; [exact H2|].
    split; [exact H3|]. split; [exact H4|].
    intros Hname. rewrite H5. unfold changes_of. rewrite !has_key_app.
    destruct updateData as [i n d a]. cbn [update_name update_project_description
      update_active apply_project_update set_name set_project_description set_active
      project_name project_description project_active option_map or_keep] in *.
    destruct existing as [pid pc pn pd pa].
    cbn [project_name project_description project_active].
    assert (Hn : has_key "name"
                   (JObj match n with
                         | Some n0 =>
                             if negb (String.eqb n0 "") && negb (String.eqb n0 pn)
                             then [("name", from_to (JStr pn) (JStr n0))] else []
                         | None => []
                         end) = true
                 <-> or_keep n pn <> pn).
    { destruct n as [n0|]; cbn [or_keep].
      - destruct (String.eqb n0 "") eqn:E0.
        { apply String.eqb_eq in E0. subst n0. contradiction Hname. reflexivity. }
        destruct (String.eqb n0 pn) eqn:E1; cbn.
        + apply String.eqb_eq in E1. split; [discriminate|]. intros X. contradiction.
        + apply String.eqb_neq in E1. split; auto.
      - cbn. split; [discriminate|]. intros X. contradiction X. reflexivity. }
    assert (Hd : has_key "description"
                   (JObj match d with
                         | Some d0 =>
                             if differs d0 pd
                             then [("description",
                                    from_to (match pd with Some o => JStr o | None => JNull end)
                                            (JStr d0))]
                             else []
                         | None => []
                         end) = true
                 <-> or_keep (option_map Some d) pd <> pd).
    { destruct d as [d0|]; cbn [or_keep option_map].
      - unfold differs. destruct pd as [o|].
        + destruct (String.eqb d0 o) eqn:E1; cbn.
          * apply String.eqb_eq in E1. subst. split; [discriminate|]. intros X. contradiction.
          * apply String.eqb_neq in E1. split; [congruence|auto].
        + cbn. split; [discriminate|auto].
      - cbn. split; [discriminate|]. intros X. contradiction X. reflexivity. }
    assert (Hact : has_key "active"
                     (JObj match a with
                           | Some a0 =>
                               if negb (Bool.eqb a0 pa)
                               then [("active", from_to (JBool pa) (JBool a0))] else []
                           | None => []
                           end) = true
                   <-> or_keep a pa <> pa).
    { destruct a as [a0|]; cbn [or_keep].
      - destruct a0, pa; cbn; split; congruence.
      - cbn. split; [discriminate|]. intros X. contradiction X. reflexivity. }
    split; [|split].
    + rewrite <- Hn. split.
      * intros X. apply orb_true_iff in X. destruct X as [X|X]; [exact X|].
        apply orb_true_iff in X. exfalso.
        destruct X as [X|X]; [destruct d as [d0|]; [destruct (differs d0 pd)|]
                             |destruct a as [a0|]; [destruct (negb (Bool.eqb a0 pa))|]];
          cbn in X; discriminate X.
      * intros X. rewrite X. reflexivity.
    + rewrite <- Hd. split.
      * intros X. apply orb_true_iff in X. destruct X as [X|X].
        { exfalso. destruct n as [n0|]; [destruct (_ && _)|]; cbn in X; discriminate X. }
        apply orb_true_iff in X. destruct X as [X|X]; [exact X|].
        exfalso. destruct a as [a0|]; [destruct (negb (Bool.eqb a0 pa))|];
          cbn in X; discriminate X.
      * intros X. rewrite X. apply orb_true_iff. right. reflexivity.
    + rewrite <- Hact. split.
      * intros X. apply orb_true_iff in X. destruct X as [X|X].
        { exfalso. destruct n as [n0|]; [destruct (_ && _)|]; cbn in X; discriminate X. }
        apply orb_true_iff in X. destruct X as [X|X]; [|exact X].
        exfalso. destruct d as [d0|]; [destruct (differs d0 pd)|]; cbn in X; discriminate X.
      * intros X. rewrite X. rewrite !orb_true_r. reflexivity.
  - unfold updateProject_action. rewrite bind_read, H. reflexivity.
Qed.

Lemma toggleProjectStatus_action_run (tenant : TenantPrisma.t) (session : Session.t)
  (id : string) (active : bool) (db : DB) (project : Project) :
  String.eqb id "" = false ->
  TenantPrisma.project.findUnique tenant (mkUniqueArgs (by_id id)) db = Some project ->
  let data := mkProjectUpdateInput None None (Some active) in
  exists entry db',
    toggleProjectStatus_action tenant session (Some (mkToggleProject id active)) db
    = (Return (project_value (apply_project_update data project)), db')
    /\ projects db'
       = map (fun q => if String.eqb (project_id q) id
                          && String.eqb (project_companyId q) (TenantPrisma.companyId tenant)
                       then apply_project_update data q else q) (projects db)
    /\ auditLogs db' = auditLogs db ++ [entry]
    /\ audit_action entry = "TOGGLE_PROJECT_STATUS"
    /\ audit_entityId entry = id
    /\ audit_companyId entry = TenantPrisma.companyId tenant
    /\ audit_actorUserId entry = TenantPrisma.userId tenant
    /\ prop "statusChange" (audit_meta entry) = from_to JUndefined (JBool true).
Proof.
  cbv zeta. intros Hid H. unfold toggleProjectStatus_action.
  cbn [toggle_id toggle_active]. rewrite Hid.
  rewrite bind_read, H, bind_unfold.
  rewrite (@tenant_project_update_by_id tenant _ _ db project); [|reflexivity|exact H].
  unfold TenantPrisma.createAuditLog, auditLog_create, fresh_id. rewrite !bind_unfold.
  eexists _, _. split; [reflexivity|]. cbn. repeat split; reflexivity.
Qed.

(** X15. The body of the [toggleProjectStatus] action.  With no project of
    that id in the caller's company it throws "Project not found" and
    writes nothing.  Otherwise the project's [active] becomes the value
    asked for and its name, description, id and company are kept; no other
    company's project is touched; one AuditLog row TOGGLE_PROJECT_STATUS is
    appended.  The [statusChange] that row records is always
    [{ from: undefined, to: true }], whatever the project's status was and
    whatever was asked: the project was read without its [active]
    column. *)
Theorem toggleProjectStatus_sets_the_flag
  (tenant : TenantPrisma.t) (session : Session.t) (id : string) (active : bool) (db : DB) :
  let r := toggleProjectStatus_action tenant session (Some (mkToggleProject id active)) db in
  if String.eqb id "" then r = (Throw (Error "Project ID is required"), db)
  else
    match TenantPrisma.project.findUnique tenant (mkUniqueArgs (by_id id)) db with
    | None => r = (Throw (Error "Project not found"), db)
    | Some project =>
        let toggled := mkProject (project_id project) (project_companyId project)
                                 (project_name project) (project_description project)
                                 active in
        fst r = Return (project_value toggled)
        /\ projects (snd r)
           = map (fun q => if String.eqb (project_id q) id
                              && String.eqb (project_companyId q)
                                            (TenantPrisma.companyId tenant)
                           then mkProject (project_id q) (project_companyId q)
                                          (project_name q) (project_description q) active
                           else q) (projects db)
        /\ (forall q, In q (projects db) ->
                      project_companyId q <> TenantPrisma.companyId tenant ->
                      In q (projects (snd r)))
        /\ exists entry,
             auditLogs (snd r) = auditLogs db ++ [entry]
             /\ audit_action entry = "TOGGLE_PROJECT_STATUS"
             /\ audit_entityId entry = id
             /\ audit_companyId entry = TenantPrisma.companyId tenant
             /\ audit_actorUserId entry = TenantPrisma.userId tenant
             /\ prop "statusChange" (audit_meta entry) = from_to JUndefined (JBool true)
    end.
Proof.
  cbv zeta. destruct (String.eqb id "") eqn:Hid.
  - unfold toggleProjectStatus_action. cbn [toggle_id]. rewrite Hid. reflexivity.
  - destruct (TenantPrisma.project.findUnique tenant (mkUniqueArgs (by_id id)) db)
      as [project|] eqn:H.
    + destruct (@toggleProjectStatus_action_run tenant session id active db project Hid H)
        as [entry [db' [-> [Hp [Ha [H1 [H2 [H3 [H4 H5]]]]]]]]].
      cbn [fst snd]. split; [reflexivity|]. split; [exact Hp|]. split.
      * intros q Hin Hc. rewrite Hp. apply in_map_iff. exists q. split; [|exact Hin].
        apply String.eqb_neq in Hc. rewrite Hc, andb_false_r. reflexivity.
      * exists entry. auto 10.
    + unfold toggleProjectStatus_action. cbn [toggle_id]. rewrite Hid, bind_read, H.
      reflexivity.
Qed.

(** The seeded admin deactivates the seeded project: the row says
    [active: false], the audit log says [to: true]. *)
Example toggle_logs_the_wrong_status :
  let r := toggleProjectStatus (Some Seed.as_admin)
             (Some (JObj [("id", JStr (project_id Seed.project)); ("active", JBool false)]))
             Seed.db in
  map project_active (projects (snd r)) = [false]
  /\ map (fun a => prop "statusChange" (audit_meta a)) (skipn 1 (auditLogs (snd r)))
     = [from_to JUndefined (JBool true)].
Proof. split; reflexivity. Qed.

(* ================================================================== *)
(** * What editing an expense does not check *)
(* ================================================================== *)

Lemma ignores_ret {A} (a : A) : ignores_policies (ret a).
Proof. intros db policies. reflexivity. Qed.

Lemma ignores_throw {A} (e : exn) : ignores_policies (@throw A e).
Proof. intros db policies. reflexivity. Qed.

Lemma ignores_lift {A} (o : Outcome A) : ignores_policies (lift o).
Proof. intros db policies. reflexivity. Qed.

Lemma ignores_read {A} (f : DB -> A) :
  (forall db policies, f (with_approvalPolicies (fun _ => policies) db) = f db) ->
  ignores_policies (read f).
Proof. intros H db policies. unfold read. rewrite H. reflexivity. Qed.

Lemma ignores_bind {A B} (m : Async A) (k : A -> Async B) :
  ignores_policies m -> (forall a, ignores_policies (k a)) -> ignores_policies (bind m k).
Proof.
  intros Hm Hk db policies. rewrite !bind_unfold, Hm.
  destruct (m db) as [[a|e] db']; cbn [fst snd]; [apply Hk | reflexivity].
Qed.

Lemma ignores_expense_update (w : WhereInput) (data : ExpenseUpdateInput) :
  ignores_policies (expense_update w data).
Proof.
  intros db policies. unfold expense_update.
  destruct (update_valid data); [|reflexivity].
  cbn [expenses with_approvalPolicies].
  change (fun e => matches (expense_view (with_approvalPolicies (fun _ => policies) db) e) w)
    with (fun e => matches (expense_view db e) w).
  destruct (find _ (expenses db)); [|reflexivity].
  change (update_dangling (with_approvalPolicies (fun _ => policies) db) data)
    with (update_dangling db data).
  destruct (update_dangling db data); reflexivity.
Qed.

(** [updateExpense] answers the same and writes the same whatever the
    company's policies are: it never reads them. *)
Lemma updateExpense_ignores_policies
  (valid_date : string -> bool) (tenant : TenantPrisma.t) (session : Session.t)
  (data : option UpdateExpenseForm) :
  ignores_policies (updateExpense_action valid_date tenant session data).
Proof.
  unfold updateExpense_action. destruct data as [updateData|]; [|apply ignores_throw].
  apply ignores_bind; [apply ignores_read; reflexivity|].
  intros [existing|]; [|apply ignores_ret].
  destruct (negb (String.eqb _ _)); [apply ignores_ret|].
  destruct (negb (status_eqb _ _)); [apply ignores_ret|].
  destruct (match or_null (update_amount updateData) with
            | Some a =>
                if Number.isNaN (parseFloat a) || Number.leb (parseFloat a) Number.zero
                then inl tt
                else inr (Some (Number.Math_round
                                  (Number.mul (parseFloat a) (Number.of_Z 100))))
            | None => inr None
            end) as [[]|rounded]; [apply ignores_ret|].
  apply ignores_bind; [apply ignores_lift|]. intros amountMinor.
  apply ignores_bind; [apply ignores_expense_update|]. intros updated. apply ignores_ret.
Qed.

(** X16. Editing an expense checks neither the cap nor the project.  The
    [updateExpense] action answers the same and writes the same whatever
    the approval policies are; and the owner of a pending expense can set
    its [projectId] to that of any project there is, also one of another
    company: the action succeeds, the row is rewritten with that
    [projectId], and the expense then belongs to the company of that
    project. *)
Theorem updateExpense_checks_neither_cap_nor_project
  (valid_date : string -> bool) (tenant : TenantPrisma.t) (session : Session.t) (db : DB)
  (id projectId : string) (e : Expense) (p : Project) :
  TenantPrisma.expense.findUnique tenant (mkUniqueArgs (by_id id)) db = Some e ->
  expense_employeeId e = Session.userId session ->
  expense_status e = PENDING ->
  projectId <> "" ->
  find_project db projectId = Some p ->
  let form := mkUpdateExpenseForm id (Some projectId) None None None None None None None in
  let moved := mkExpense (expense_id e) projectId (expense_employeeId e)
                         (expense_amountMinor e) (expense_currency e)
                         (expense_description e) (expense_category e) (expense_paidBy e)
                         (expense_expenseDate e) (expense_status e) in
  let r := updateExpense_action valid_date tenant session (Some form) db in
  (forall data, ignores_policies (updateExpense_action valid_date tenant session data))
  /\ fst r = Return (JObj [("success", JBool true);
                           ("data", JObj [("expense", expense_value moved)])])
  /\ In moved (expenses (snd r))
  /\ company_of (snd r) (ExpenseRow moved) = Some (project_companyId p).
Proof.
  intros Hfind Hown Hpending Hne Hproject. cbv zeta.
  split; [intros data; apply updateExpense_ignores_policies|].
  assert (Hrun : exists db',
             updateExpense_action valid_date tenant session
               (Some (mkUpdateExpenseForm id (Some projectId) None None None None None None
                                          None)) db
             = (Return (JObj [("success", JBool true);
                              ("data",
                               JObj [("expense",
                                      expense_value
                                        (mkExpense (expense_id e) projectId
                                           (expense_employeeId e) (expense_amountMinor e)
                                           (expense_currency e) (expense_description e)
                                           (expense_category e) (expense_paidBy e)
                                           (expense_expenseDate e) (expense_status e)))])]),
                db')
             /\ expenses db'
                = map (fun x => if matches (expense_view db x)
                                     (unique_where
                                        (TenantPrisma.unique_with (mkUniqueArgs (by_id id))
                                           (TenantPrisma.own_project tenant)))
                                then apply_update
                                       (mkExpenseUpdateInput (Some projectId) None None None
                                                             None None None None) x
                                else x) (expenses db)
             /\ projects db' = projects db).
  { assert (Ho : String.eqb (expense_employeeId e) (Session.userId session) = true)
      by (apply String.eqb_eq; exact Hown).
    assert (Hs : status_eqb (expense_status e) PENDING = true)
      by (rewrite Hpending; reflexivity).
    unfold updateExpense_action. cbn [update_id]. rewrite bind_read, Hfind.
    rewrite Ho, Hs. cbn [negb].
    cbn [update_projectId update_amount update_currency update_description update_category
         update_paidBy update_expenseDate or_null option_map].
    apply String.eqb_neq in Hne. rewrite Hne.
    cbn [set_projectId set_description set_category set_paidBy set_expenseDate set_currency].
    rewrite bind_unfold. unfold lift. rewrite bind_unfold.
    unfold TenantPrisma.expense.update, expense_update.
    cbn [update_valid set_amountMinor set_expenseDate opt_fits andb].
    change (find (fun e0 => matches (expense_view db e0)
                              (unique_where
                                 (TenantPrisma.unique_with (mkUniqueArgs (by_id id))
                                    (TenantPrisma.own_project tenant))))
                 (expenses db))
      with (TenantPrisma.expense.findUnique tenant (mkUniqueArgs (by_id id)) db).
    rewrite Hfind. unfold update_dangling, dangling. cbn [set_projectId set_employeeId].
    rewrite Hproject. cbn [or_else].
    unfold ret. eexists. split; [reflexivity|]. split; reflexivity. }
  destruct Hrun as [db' [-> [He Hp]]]. cbn [fst snd].
  split; [reflexivity|]. split.
  - rewrite He. apply in_map_iff. exists e.
    apply findUnique_sound in Hfind. destruct Hfind as [Hin Hm].
    cbn [view expenseModel table] in Hm, Hin. rewrite Hm. split; [reflexivity|exact Hin].
  - cbn [company_of expense_projectId]. unfold find_project in *. rewrite Hp, Hproject.
    reflexivity.
Qed.

(** The seeded employee moves the seeded expense onto the rival's project:
    it is now an expense of the rival company. *)
Lemma updateExpense_checks_neither_cap_nor_project_witness :
  company_of
    (snd (updateExpense_action Seed.any_date (Seed.tenant_of Seed.as_employee)
            Seed.as_employee
            (Some (mkUpdateExpenseForm (expense_id Seed.expense)
                     (Some (project_id Seed.rival_project))
                     None None None None None None None))
            Seed.two_tenants))
    (ExpenseRow (mkExpense (expense_id Seed.expense) (project_id Seed.rival_project)
                   (expense_employeeId Seed.expense) (expense_amountMinor Seed.expense)
                   (expense_currency Seed.expense) (expense_description Seed.expense)
                   (expense_category Seed.expense) (expense_paidBy Seed.expense)
                   (expense_expenseDate Seed.expense) (expense_status Seed.expense)))
  = Some (company_id Seed.rival).
Proof.
  exact (proj2 (proj2 (proj2
           (@updateExpense_checks_neither_cap_nor_project Seed.any_date
              (Seed.tenant_of Seed.as_employee) Seed.as_employee Seed.two_tenants
              (expense_id Seed.expense) (project_id Seed.rival_project) Seed.expense
              Seed.rival_project
              eq_refl eq_refl eq_refl ltac:(vm_compute; discriminate) eq_refl)))).
Defined.

(** The owner raises a pending expense of $45 to $5,000, five times the
    seeded cap of $1,000 that [createExpense] enforces. *)
Example an_update_over_the_cap :
  map expense_amountMinor
      (expenses (snd (updateExpense Seed.any_date (Some Seed.as_employee)
                        (Some (JObj [("id", JStr (expense_id Seed.expense));
                                     ("amount", JStr "5000")])) Seed.db)))
  = [500000%Z].
Proof. vm_compute. reflexivity. Qed.

(* ================================================================== *)
(** * Uploads *)
(* ================================================================== *)

Lemma z_string_min1 (max : option nat) (v : jsval) (s : string) :
  z_string 1 max v = Some s -> v = JStr s /\ s <> "".
Proof.
  destruct v; cbn; try discriminate.
  destruct s0 as [|a r]; cbn; [discriminate|].
  destruct (match max with Some m => _ | None => true end); cbn; [|discriminate].
  intros H. injection H as <-. split; [reflexivity|discriminate].
Qed.

Lemma z_number_between_Some (lo hi : Z) (v : jsval) (x : Number.t) :
  z_number_between lo hi v = Some x ->
  v = JNum x /\ Number.isNaN x = false
  /\ Number.leb (Number.of_Z lo) x = true /\ Number.leb x (Number.of_Z hi) = true.
Proof.
  destruct v; cbn; try discriminate.
  destruct (Number.isNaN x0) eqn:E1; cbn; [discriminate|].
  destruct (Number.leb (Number.of_Z lo) x0) eqn:E2; cbn; [|discriminate].
  destruct (Number.leb x0 (Number.of_Z hi)) eqn:E3; [|discriminate].
  intros H. injection H as <-. auto.
Qed.

(** X17. The presigned-URL route issues an upload URL only to a signed-in
    caller, for a body whose [fileName] and [mimeType] are non-empty
    strings and whose [fileSize] is a number from 1 to 10485760 (10 MB);
    the object key it signs is "receipts/<random hex>/<fileName>", with
    the file name as given.  Without a session the answer is 401; every
    other failure, a refused body included, is answered 500 "Failed to
    generate upload URL"; neither error body carries a [success] flag. *)
Theorem upload_urls_only_for_valid_uploads
  (randomBytes_hex : string) (getSignedUrl : string -> string -> Number.t -> Outcome string)
  (current : option Session.t) (request : NextRequest) :
  let response := presigned_POST randomBytes_hex getSignedUrl current request in
  (status response = 401 <-> current = None)
  /\ (status response = 200 ->
      exists payload name mime size url,
        json request = Return payload
        /\ prop "fileName" payload = JStr name /\ name <> ""
        /\ prop "mimeType" payload = JStr mime /\ mime <> ""
        /\ prop "fileSize" payload = JNum size
        /\ Number.leb (Number.of_Z 1) size = true
        /\ Number.leb size (Number.of_Z 10485760) = true
        /\ getSignedUrl ("receipts/" ++ randomBytes_hex ++ "/" ++ name)%string mime size
           = Return url
        /\ body response
           = JObj [("success", JBool true);
                   ("data",
                    JObj [("url", JStr url);
                          ("fields",
                           JObj [("key",
                                  JStr ("receipts/" ++ randomBytes_hex ++ "/" ++ name));
                                 ("Content-Type", JStr mime)])])])
  /\ (status response <> 200 ->
      (status response = 401 \/ status response = 500)
      /\ has_key "success" (body response) = false).
Proof.
  cbv zeta. unfold presigned_POST. destruct current as [session|].
  2:{ cbn. split; [split; auto|]. split; [discriminate|]. auto. }
  unfold read_json. destruct (json request) as [payload|] eqn:Ej.
  2:{ cbn. split; [split; discriminate|]. split; [discriminate|]. auto. }
  unfold presignedUrlSchema. destruct (is_object payload).
  2:{ cbn. split; [split; discriminate|]. split; [discriminate|]. auto. }
  destruct (z_string 1 None (prop "fileName" payload)) as [name|] eqn:En.
  2:{ destruct (z_string 1 None (prop "mimeType" payload));
        destruct (z_number_between 1 (10 * 1024 * 1024) (prop "fileSize" payload));
        cbn; (split; [split; discriminate|]); (split; [discriminate|]); auto. }
  destruct (z_string 1 None (prop "mimeType" payload)) as [mime|] eqn:Em.
  2:{ destruct (z_number_between 1 (10 * 1024 * 1024) (prop "fileSize" payload));
        cbn; (split; [split; discriminate|]); (split; [discriminate|]); auto. }
  destruct (z_number_between 1 (10 * 1024 * 1024) (prop "fileSize" payload))
    as [size|] eqn:Es.
  2:{ cbn. split; [split; discriminate|]. split; [discriminate|]. auto. }
  apply z_string_min1 in En, Em. destruct En as [En Hn], Em as [Em Hm].
  apply z_number_between_Some in Es. destruct Es as [Es [_ [Hlo Hhi]]].
  unfold generatePresignedPost. cbn [fileName mimeType fileSize].
  destruct (getSignedUrl _ mime size) as [url|e] eqn:Eu.
  - cbn. split; [split; discriminate|]. split.
    + intros _. exists payload, name, mime, size, url. auto 12.
    + intros H. contradiction H. reflexivity.
  - cbn. split; [split; discriminate|]. split; [discriminate|]. auto.
Qed.

Example a_file_of_11_megabytes_is_answered_500 :
  presigned_POST "00ff" (fun key _ _ => Return ("https://s3/" ++ key)%string)
    (Some Seed.as_employee)
    (mkRequest "/api/upload/presigned-url"
       (Return (JObj [("fileName", JStr "a.png"); ("mimeType", JStr "image/png");
                    ("fileSize", JNum (Number.of_Z (11 * 1024 * 1024)))])))
  = mkResponse 500 (JObj [("error", JStr "Failed to generate upload URL")])
  /\ body (presigned_POST "00ff" (fun key _ _ => Return ("https://s3/" ++ key)%string)
             (Some Seed.as_employee)
             (mkRequest "/api/upload/presigned-url"
                (Return (JObj [("fileName", JStr "../a.png"); ("mimeType", JStr "image/png");
                             ("fileSize", JNum (Number.of_Z 1024))]))))
     = JObj [("success", JBool true);
             ("data", JObj [("url", JStr "https://s3/receipts/00ff/../a.png");
                            ("fields", JObj [("key", JStr "receipts/00ff/../a.png");
                                             ("Content-Type", JStr "image/png")])])].
Proof. split; vm_compute; reflexivity. Qed.

(* ================================================================== *)
(** * Toasts *)
(* ================================================================== *)

Lemma dismiss_fresh (id : string) (toasts : list Toast.t) :
  (forall t, In t toasts -> Toast.id t <> id) -> Toast.dismiss id toasts = toasts.
Proof.
  intros H. induction toasts as [|t l IH]; [reflexivity|].
  cbn. assert (Ht : String.eqb (Toast.id t) id = false).
  { apply String.eqb_neq. apply H. left. reflexivity. }
  rewrite Ht. cbn. f_equal. apply IH. intros t' Hin. apply H. right. exact Hin.
Qed.

(** X18. The toast list.  Dismissing a toast (or its timer running out)
    removes every toast of that id and keeps the others in their order.
    A toast that was shown and then dismissed leaves the list as it was
    before, provided its id was not in use; when the id it drew was in
    use, the older toasts of that id go with it.  Dismissing another id
    does not touch the new toast; dismissing twice is dismissing once. *)
Theorem toast_then_dismiss
  (id : string) (title description variant : option string) (toasts : list Toast.t) :
  Toast.dismiss id (Toast.toast id title description variant toasts)
  = Toast.dismiss id toasts
  /\ ((forall t, In t toasts -> Toast.id t <> id) ->
      Toast.dismiss id (Toast.toast id title description variant toasts) = toasts)
  /\ (forall other, other <> id ->
        Toast.dismiss other (Toast.toast id title description variant toasts)
        = Toast.toast id title description variant (Toast.dismiss other toasts))
  /\ (forall t, In t (Toast.dismiss id toasts) <-> In t toasts /\ Toast.id t <> id)
  /\ Toast.dismiss id (Toast.dismiss id toasts) = Toast.dismiss id toasts.
Proof.
  assert (H1 : Toast.dismiss id (Toast.toast id title description variant toasts)
               = Toast.dismiss id toasts).
  { unfold Toast.dismiss, Toast.toast. rewrite filter_app. cbn.
    rewrite String.eqb_refl. cbn. apply app_nil_r. }
  split; [exact H1|]. split; [|split; [|split]].
  - intros H. rewrite H1. apply dismiss_fresh, H.
  - intros other Hne. unfold Toast.dismiss, Toast.toast. rewrite filter_app. cbn.
    assert (E : String.eqb id other = false) by (apply String.eqb_neq; congruence).
    rewrite E. reflexivity.
  - intros t. unfold Toast.dismiss. rewrite filter_In.
    destruct (String.eqb (Toast.id t) id) eqn:E; cbn.
    + apply String.eqb_eq in E. split; [intros [_ X]; discriminate X|tauto].
    + apply String.eqb_neq in E. tauto.
  - apply dismiss_fresh. intros t Hin. unfold Toast.dismiss in Hin.
    apply filter_In in Hin. destruct Hin as [_ Hin].
    destruct (String.eqb (Toast.id t) id) eqn:E; [discriminate Hin|].
    apply String.eqb_neq. exact E.
Qed.

(* ================================================================== *)
(** * What a stored expense looks like, on both creation paths *)
(* ================================================================== *)

Lemma create_receipt_files_frame (expenseId : string) (keys : list jsval) (db : DB) :
  let db' := snd (create_receipt_files expenseId keys db) in
  expenses db' = expenses db /\ projects db' = projects db
  /\ forall f, In f (receiptFiles db') ->
               In f (receiptFiles db) \/ receipt_expenseId f = expenseId.
Proof.
  cbv zeta. revert db. induction keys as [|key keys IH]; intros db.
  - cbn. auto.
  - cbn [create_receipt_files]. destruct key; try (cbn; auto; fail).
    unfold receiptFile_create, fresh_id. rewrite !bind_unfold.
    destruct (IH (with_receiptFiles
                    (fun l => l ++ [mkReceiptFile (cuid (next_id db)) expenseId s
                                                  "application/octet-stream" 0%Z])
                    (with_next_id (S (next_id db)) db))) as [He [Hp Hf]].
    cbn [new_receipt_expenseId new_receipt_url new_receipt_mime new_receipt_size].
    split; [exact He|]. split; [exact Hp|].
    intros f Hin. apply Hf in Hin. destruct Hin as [Hin|Hin]; [|auto].
    cbn [receiptFiles with_receiptFiles with_next_id] in Hin.
    apply in_app_iff in Hin. destruct Hin as [Hin|[<-|[]]]; auto.
Qed.

Lemma receipt_step_frame (JSON_parse : string -> option jsval) (keys : option string)
  (expenseId : string) (db : DB) :
  exists db',
    (match or_null keys with
     | Some keys =>
         try_catch
           (bind (lift (match JSON_parse keys with
                        | Some v => iterate v
                        | None => Throw (Error "Unexpected token")
                        end))
                 (fun fileKeys => create_receipt_files expenseId fileKeys))
           (fun _ => ret tt)
     | None => ret tt
     end) db = (Return tt, db')
    /\ expenses db' = expenses db /\ projects db' = projects db
    /\ forall f, In f (receiptFiles db') ->
                 In f (receiptFiles db) \/ receipt_expenseId f = expenseId.
Proof.
  destruct (or_null keys) as [k|]; [|exists db; cbn; auto].
  unfold try_catch. rewrite bind_unfold. unfold lift.
  destruct (match JSON_parse k with Some v => iterate v | None => _ end) as [l|e].
  - pose proof (create_receipt_files_frame expenseId l db) as H. cbv zeta in H.
    destruct (create_receipt_files expenseId l db) as [[[]|e] db']; cbn [snd] in H;
      exists db'; (split; [reflexivity|exact H]).
  - exists db. cbn. auto.
Qed.

Lemma tenant_expense_create_run (this : TenantPrisma.t) (data : ExpenseCreateInput) (db : DB) :
  (exists e, TenantPrisma.expense.create this data db = (Throw e, db))
  \/ exists date p,
       new_expense_expenseDate data = Some date
       /\ In p (projects db) /\ project_id p = new_expense_projectId data
       /\ project_companyId p = TenantPrisma.companyId this
       /\ TenantPrisma.expense.create this data db
          = (Return (mkExpense (cuid (next_id db)) (new_expense_projectId data)
                       (new_expense_employeeId data) (new_expense_amountMinor data)
                       (new_expense_currency data) (new_expense_description data)
                       (new_expense_category data) (new_expense_paidBy data) date
                       (new_expense_status data)),
             with_expenses
               (fun l => l ++ [mkExpense (cuid (next_id db)) (new_expense_projectId data)
                                 (new_expense_employeeId data) (new_expense_amountMinor data)
                                 (new_expense_currency data) (new_expense_description data)
                                 (new_expense_category data) (new_expense_paidBy data) date
                                 (new_expense_status data)])
               (with_next_id (S (next_id db)) db)).
Proof.
  unfold TenantPrisma.expense.create, findUniqueOrThrow. rewrite bind_unfold.
  destruct (prisma.findUnique projectModel _ db) as [p|] eqn:Ep;
    [|left; eexists; reflexivity].
  apply findUnique_sound in Ep. destruct Ep as [Hin Hm].
  cbn [unique_where view projectModel table] in Hm, Hin.
  apply matches_id_company in Hm. destruct Hm as [Hid Hc].
  unfold expense_create.
  destruct (new_expense_expenseDate data) as [date|]; [|left; eexists; reflexivity].
  destruct (fits_int64 _); [|left; eexists; reflexivity].
  right. exists date, p. unfold fresh_id. rewrite bind_unfold. auto 10.
Qed.

(** X19. What the [createExpense] action answers is what it stored.  Either
    nothing at all is written and the answer is not a success; or exactly
    one Expense row is appended, the answer is
    [{ success: true, data: { expenseId } }] with that row's id, the row is
    owned by the session's user whatever the form says, and it is filed on
    an active project of the caller's company.  The ReceiptFile rows
    written with it all point to the new expense, and no receipt key,
    however malformed, turns the creation into a failure. *)
Theorem createExpense_answers_what_it_stored
  (valid_date : string -> bool) (JSON_parse : string -> option jsval)
  (toFixed : Number.t -> nat -> string)
  (tenant : TenantPrisma.t) (session : Session.t) (data : option CreateExpenseForm)
  (db : DB) :
  let r := createExpense_action valid_date JSON_parse toFixed tenant session data db in
  (snd r = db /\ forall v, fst r = Return v -> failed v)
  \/ exists e p,
       expenses (snd r) = expenses db ++ [e]
       /\ fst r = Return (JObj [("success", JBool true);
                                ("data", JObj [("expenseId", JStr (expense_id e))])])
       /\ expense_employeeId e = Session.userId session
       /\ In p (projects db) /\ project_id p = expense_projectId e
       /\ project_companyId p = TenantPrisma.companyId tenant
       /\ project_active p = true
       /\ projects (snd r) = projects db
       /\ forall f, In f (receiptFiles (snd r)) ->
                    In f (receiptFiles db) \/ receipt_expenseId f = expense_id e.
Proof.
  cbv zeta.
  assert (Hrun : exists out db',
             createExpense_action valid_date JSON_parse toFixed tenant session data db
             = (out, db')
             /\ ((db' = db /\ forall v, out = Return v -> failed v)
                 \/ exists e p,
                      expenses db' = expenses db ++ [e]
                      /\ out = Return (JObj [("success", JBool true);
                                             ("data",
                                              JObj [("expenseId", JStr (expense_id e))])])
                      /\ expense_employeeId e = Session.userId session
                      /\ In p (projects db) /\ project_id p = expense_projectId e
                      /\ project_companyId p = TenantPrisma.companyId tenant
                      /\ project_active p = true
                      /\ projects db' = projects db
                      /\ forall f, In f (receiptFiles db') ->
                                   In f (receiptFiles db)
                                   \/ receipt_expenseId f = expense_id e)).
  { assert (Hfail : forall m, exists out db',
               (Return (failure m), db) = (out, db')
               /\ ((db' = db /\ forall v, out = Return v -> failed v)
                   \/ exists e p,
                        expenses db' = expenses db ++ [e]
                        /\ out = Return (JObj [("success", JBool true);
                                               ("data",
                                                JObj [("expenseId",
                                                       JStr (expense_id e))])])
                        /\ expense_employeeId e = Session.userId session
                        /\ In p (projects db) /\ project_id p = expense_projectId e
                        /\ project_companyId p = TenantPrisma.companyId tenant
                        /\ project_active p = true
                        /\ projects db' = projects db
                        /\ forall f, In f (receiptFiles db') ->
                                     In f (receiptFiles db)
                                     \/ receipt_expenseId f = expense_id e)).
    { intros m. eexists _, _. split; [reflexivity|]. left. split; [reflexivity|].
      intros v Hv. injection Hv as <-. apply failure_failed. }
    assert (Hthrow : forall x, exists out db',
               (@Throw jsval x, db) = (out, db')
               /\ ((db' = db /\ forall v, out = Return v -> failed v)
                   \/ exists e p,
                        expenses db' = expenses db ++ [e]
                        /\ out = Return (JObj [("success", JBool true);
                                               ("data",
                                                JObj [("expenseId",
                                                       JStr (expense_id e))])])
                        /\ expense_employeeId e = Session.userId session
                        /\ In p (projects db) /\ project_id p = expense_projectId e
                        /\ project_companyId p = TenantPrisma.companyId tenant
                        /\ project_active p = true
                        /\ projects db' = projects db
                        /\ forall f, In f (receiptFiles db') ->
                                     In f (receiptFiles db)
                                     \/ receipt_expenseId f = expense_id e)).
    { intros x. eexists _, _. split; [reflexivity|]. left. split; [reflexivity|].
      intros v Hv. discriminate Hv. }
    unfold createExpense_action. destruct data as [form|]; [|apply Hthrow].
    destruct (Number.isNaN (parseFloat (amount form))
              || Number.leb (parseFloat (amount form)) Number.zero); [apply Hfail|].
    rewrite bind_read.
    destruct (TenantPrisma.project.findUnique tenant
                (mkUniqueArgs (by_id (projectId form))) db) as [project|] eqn:Eproj;
      [|apply Hfail].
    destruct (project_active project) eqn:Eactive; [|apply Hfail]. cbn [negb].
    rewrite bind_read.
    destruct (match cap_of (hd_error (TenantPrisma.approvalPolicy.findMany tenant None db))
              with
              | Some cap =>
                  if Number.gtb (parseFloat (amount form))
                                (Number.div (Number.of_Z cap) (Number.of_Z 100))
                  then Some (Number.div (Number.of_Z cap) (Number.of_Z 100)) else None
              | None => None
              end) as [maxAmount|]; [apply Hfail|].
    destruct (Number.BigInt _) as [amountMinor|]; [|apply Hthrow].
    rewrite bind_unfold.
    destruct (tenant_expense_create_run tenant
                (mkExpenseCreateInput (projectId form) (Session.userId session) amountMinor
                   (currency form) (description form) (category form) (paidBy form)
                   (new_Date valid_date (expenseDate form)) PENDING) db)
      as [[x Hx] | [date [p [Hdate [Hin [Hid [Hc Hcreate]]]]]]].
    - rewrite Hx. apply Hthrow.
    - rewrite Hcreate. rewrite bind_unfold.
      cbn [new_expense_projectId new_expense_employeeId new_expense_amountMinor
           new_expense_currency new_expense_description new_expense_category
           new_expense_paidBy new_expense_status expense_id].
      match goal with
      | |- context [(match or_null (receiptFileKeys form) with
                     | Some _ => _ | None => _ end) ?d] =>
          destruct (receipt_step_frame JSON_parse (receiptFileKeys form)
                      (cuid (next_id db)) d) as [db2 [Hstep [He2 [Hp2 Hf2]]]]
      end.
      rewrite Hstep. unfold ret. eexists _, _. split; [reflexivity|]. right.
      eexists _, project. split; [rewrite He2; reflexivity|].
      split; [reflexivity|]. split; [reflexivity|].
      apply findUnique_sound in Eproj. destruct Eproj as [Hin' Hm'].
      cbn [view projectModel table] in Hm', Hin'.
      rewrite matches_own_project_by_id in Hm'. apply andb_true_iff in Hm'.
      destruct Hm' as [Hid' Hc']. apply String.eqb_eq in Hid', Hc'.
      split; [exact Hin'|]. split; [exact Hid'|]. split; [exact Hc'|].
      split; [exact Eactive|]. split; [rewrite Hp2; reflexivity|].
      intros f Hf. apply Hf2 in Hf. exact Hf. }
  destruct Hrun as [out [db' [-> H]]]. exact H.
Qed.

Example bad_receipt_keys_do_not_fail_the_creation :
  let form := mkCreateExpenseForm (project_id Seed.project) "12.50" "USD" "Taxi" "Travel"
                "Cash" "2024-10-02" (Some "not json") in
  fst (createExpense_action Seed.any_date Seed.no_JSON Seed.plain_toFixed
         (Seed.tenant_of Seed.as_employee) Seed.as_employee (Some form) Seed.db)
  = Return (JObj [("success", JBool true); ("data", JObj [("expenseId", JStr (cuid 13))])]).
Proof. vm_compute. reflexivity. Qed.

Lemma positive_integer_to_Z (x : Number.t) :
  Number.isInteger x = true -> Number.gtb x Number.zero = true -> (0 < Number.to_Z x)%Z.
Proof.
  destruct x as [s| s| |s m e]; try discriminate.
  intros Hi Hg. destruct s; [cbv in Hg; discriminate Hg|].
  cbn [Number.to_Z]. destruct e as [|k|k].
  - cbn. lia.
  - apply Z.mul_pos_pos; [lia|]. apply Z.pow_pos_nonneg; lia.
  - cbn [Number.isInteger] in Hi. apply Z.eqb_eq in Hi.
    assert (Hpow : (0 < 2 ^ Z.pos k)%Z) by (apply Z.pow_pos_nonneg; lia).
    pose proof (Z.div_mod (Z.pos m) (2 ^ Z.pos k) ltac:(lia)) as Hdm.
    rewrite Hi in Hdm.
    destruct (Z.pos m / 2 ^ Z.pos k)%Z eqn:Eq; [exfalso; lia | lia | exfalso].
    assert (2 ^ Z.pos k * Z.neg p < 0)%Z by (apply Z.mul_pos_neg; lia). lia.
Qed.

Lemma z_positive_int_Some (v : jsval) (x : Number.t) :
  z_positive_int v = Some x ->
  Number.isInteger x = true /\ Number.gtb x Number.zero = true.
Proof.
  unfold z_positive_int. destruct v as [| |b|y|z|s|l|l]; try discriminate.
  destruct (Number.isNaN y); cbn [negb andb]; [discriminate|].
  destruct (Number.isInteger y) eqn:Ei; cbn [andb]; [|discriminate].
  destruct (Number.gtb y Number.zero) eqn:Eg; [|discriminate].
  intros H. injection H as <-. auto.
Qed.

Lemma api_createExpenseSchema_amount (is_cuid valid_date : string -> bool)
  (payload : jsval) (data : CreateExpenseBody) :
  api_createExpenseSchema is_cuid valid_date payload = Return data ->
  (0 < Number.to_Z (body_amountMinor data))%Z.
Proof.
  unfold api_createExpenseSchema. destruct (is_object payload); [|discriminate].
  destruct (z_cuid is_cuid (prop "projectId" payload)); 
    destruct (z_positive_int (prop "amountMinor" payload)) as [a|] eqn:Ea;
    destruct (z_default "USD" z_length3 (prop "currency" payload));
    destruct (z_string 1 (Some 500) (prop "description" payload));
    destruct (z_string 1 (Some 100) (prop "category" payload));
    destruct (z_string 1 (Some 100) (prop "paidBy" payload));
    destruct (z_date valid_date (prop "expenseDate" payload));
    intros H; try discriminate H.
  injection H as <-. cbn [body_amountMinor].
  apply z_positive_int_Some in Ea. destruct Ea. apply positive_integer_to_Z; assumption.
Qed.

Lemma expenses_POST_run
  (is_cuid valid_date : string -> bool) (now : string) (current : option Session.t)
  (req : NextRequest) (db : DB) :
  exists out db',
    expenses_POST is_cuid valid_date now current req db = (out, db')
    /\ (expenses db' = expenses db
        \/ exists session e p entry,
             current = Some session
             /\ out = Throw cannot_serialize
             /\ expenses db' = expenses db ++ [e]
             /\ expense_employeeId e = Session.userId session
             /\ expense_status e = PENDING
             /\ (0 < expense_amountMinor e)%Z
             /\ In p (projects db) /\ project_id p = expense_projectId e
             /\ project_companyId p = Session.companyId session
             /\ auditLogs db' = auditLogs db ++ [entry]
             /\ audit_action entry = "CREATE_EXPENSE"
             /\ audit_entityId entry = expense_id e
             /\ audit_companyId entry = Session.companyId session
             /\ audit_actorUserId entry = Session.userId session).
Proof.
  unfold expenses_POST, createApiHandler, apiHandler_prepare.
  destruct (authorize (Some [ADMIN; MANAGER; EMPLOYEE]) current) as [session|e0] eqn:Ea;
    [|eexists _, _; split; [reflexivity|left; reflexivity]].
  apply authorize_returns in Ea. destruct Ea as [-> _].
  destruct (read_json req) as [payload|e1];
    [|eexists _, _; split; [reflexivity|left; reflexivity]].
  destruct (api_createExpenseSchema is_cuid valid_date payload) as [data|[m|issues|url]]
    eqn:Eschema;
    [| eexists _, _; split; [reflexivity|left; reflexivity]
     | eexists _, _; split; [reflexivity|left; reflexivity]
     | eexists _, _; split; [reflexivity|left; reflexivity]].
  apply api_createExpenseSchema_amount in Eschema.
  unfold expenses_handler. rewrite bind_read.
  destruct (TenantPrisma.project.findUnique _ _ db) as [project|];
    [|eexists _, _; split; [reflexivity|left; reflexivity]].
  rewrite bind_unfold.
  destruct (tenant_expense_create_run
              (TenantPrisma.mk (Session.companyId session) (Session.userId session))
              (mkExpenseCreateInput (body_projectId data) (Session.userId session)
                 (Number.to_Z (body_amountMinor data)) (body_currency data)
                 (body_description data) (body_category data) (body_paidBy data)
                 (body_expenseDate data) PENDING) db)
    as [[x Hx] | [date [p [Hdate [Hin [Hid [Hc Hcreate]]]]]]].
  - rewrite Hx. eexists _, _. split; [reflexivity|left; reflexivity].
  - rewrite Hcreate. unfold auditAction, TenantPrisma.createAuditLog, auditLog_create,
      fresh_id. rewrite !bind_unfold. unfold lift. rewrite an_expense_is_not_serialised.
    eexists _, _. split; [reflexivity|]. right.
    eexists session, _, p, _. split; [reflexivity|]. split; [reflexivity|].
    split; [reflexivity|]. split; [reflexivity|].
    split; [reflexivity|]. split; [exact Eschema|]. split; [exact Hin|].
    split; [exact Hid|]. split; [exact Hc|]. split; [reflexivity|].
    cbn. auto.
Qed.

(** X20. Every expense POST /api/expenses stores is the caller's own: the
    row's [employeeId] is the session's user (the body cannot name another
    one), its status is PENDING, its [amountMinor] is greater than zero,
    and it is filed on a project of the caller's company.  One AuditLog row
    CREATE_EXPENSE of that company, naming the expense and the caller, is
    written with it.  The handler then throws instead of answering, and
    the two rows stay: the row it answers with holds a bigint, which
    [JSON.stringify] refuses.  In every other case the Expense table is
    as it was. *)
Theorem api_route_stores_the_callers_expense
  (is_cuid valid_date : string -> bool) (now : string) (current : option Session.t)
  (req : NextRequest) (db : DB) :
  let r := expenses_POST is_cuid valid_date now current req db in
  expenses (snd r) = expenses db
  \/ exists session e p entry,
       current = Some session
       /\ fst r = Throw cannot_serialize
       /\ expenses (snd r) = expenses db ++ [e]
       /\ expense_employeeId e = Session.userId session
       /\ expense_status e = PENDING
       /\ (0 < expense_amountMinor e)%Z
       /\ In p (projects db) /\ project_id p = expense_projectId e
       /\ project_companyId p = Session.companyId session
       /\ auditLogs (snd r) = auditLogs db ++ [entry]
       /\ audit_action entry = "CREATE_EXPENSE"
       /\ audit_entityId entry = expense_id e
       /\ audit_companyId entry = Session.companyId session
       /\ audit_actorUserId entry = Session.userId session.
Proof.
  cbv zeta.
  destruct (expenses_POST_run is_cuid valid_date now current req db)
    as [out [db' [-> H]]]. exact H.
Qed.

(** The route files an expense on a project that is not active; the
    action refuses the same project. *)
Example the_route_accepts_an_inactive_project :
  let db := with_projects (map (apply_project_update
                                  (mkProjectUpdateInput None None (Some false)))) Seed.db in
  List.length (expenses (snd (expenses_POST cuidRegex Seed.any_date "2024-10-03"
                                (Some Seed.as_employee) (Seed.expense_of 4500) db))) = 2
  /\ createExpense_action Seed.any_date Seed.no_JSON Seed.plain_toFixed
       (Seed.tenant_of Seed.as_employee) Seed.as_employee (Some (Seed.form "45")) db
     = (Return (failure "Project not found or inactive"), db).
Proof. split; vm_compute; reflexivity. Qed.

(* ================================================================== *)
(** * From company creation to the first sign-in *)
(* ================================================================== *)

Lemma find_app_None {A} (f : A -> bool) (l : list A) (x : A) :
  find f l = None -> f x = true -> find f (l ++ [x]) = Some x.
Proof.
  intros Hl Hx. induction l as [|y l IH]; cbn in *; [rewrite Hx; reflexivity|].
  destruct (f y); [discriminate Hl|]. apply IH, Hl.
Qed.

Lemma find_None_existsb {A} (f g : A -> bool) (l : list A) :
  (forall x, f x = g x) -> find f l = None -> existsb g l = false.
Proof.
  intros Hfg. induction l as [|y l IH]; cbn; [reflexivity|].
  rewrite <- Hfg. destruct (f y); [discriminate|]. exact IH.
Qed.

(** What a 200 of [POST /api/company/create] means, with the client of the
    model. *)
Lemma company_create_POST_created
  (bcrypt_hash : string -> nat -> string) (is_email : string -> bool)
  (request : NextRequest) (db db' : DB) (response : NextResponse) :
  company_create_POST bcrypt_hash is_email prisma_client request db = (Return response, db') ->
  status response = 200 ->
  exists payload d,
    json request = Return payload
    /\ createCompanySchema is_email payload = Return d
    /\ find (fun u => matches (user_view u) [Field "email" (Equals (SStr (adminEmail d)))])
            (users db) = None
    /\ users db'
       = users db ++ [mkUser (cuid (S (next_id db))) (adminEmail d) (adminName d)
                             (bcrypt_hash (adminPassword d) 12)]
    /\ memberships db'
       = memberships db ++ [mkMembership (cuid (S (S (next_id db)))) (cuid (S (next_id db)))
                                         (cuid (next_id db)) ADMIN]
    /\ prop "companyId" (prop "data" (body response)) = JStr (cuid (next_id db)).
Proof.
  unfold company_create_POST, try_catch.
  rewrite bind_unfold. unfold lift at 1. unfold read_json.
  destruct (json request) as [payload|ej].
  2:{ destruct ej; intros H Hs; injection H as <- <-; cbn in Hs; discriminate Hs. }
  rewrite bind_unfold. unfold lift at 1.
  destruct (createCompanySchema is_email payload) as [d|e] eqn:Ed.
  2:{ destruct e; intros H Hs; injection H as <- <-; cbn in Hs; discriminate Hs. }
  rewrite bind_unfold. unfold query at 1. cbn [prisma_client client_company_findFirst].
  destruct (prisma.findFirst companyModel _ db) as [c|].
  1:{ intros H Hs. injection H as <- <-. cbn in Hs. discriminate Hs. }
  rewrite bind_unfold. unfold query at 1. cbn [prisma_client client_user_findUnique].
  unfold prisma.findUnique. cbn [table view userModel unique_where].
  destruct (find _ (users db)) as [u|] eqn:Eu.
  1:{ intros H Hs. injection H as <- <-. cbn in Hs. discriminate Hs. }
  rewrite bind_unfold. unfold transaction, create_company_and_admin.
  cbn [prisma_client client_company_create client_user_create client_membership_create
       client_approvalPolicy_create].
  unfold company_create, fresh_id. rewrite !bind_unfold.
  unfold user_create. cbn [users with_companies with_next_id new_user_email].
  assert (Hex : existsb (fun u => String.eqb (user_email u) (adminEmail d)) (users db)
                = false).
  { apply (find_None_existsb _ _ _ (fun u => andb_true_r _) Eu). }
  rewrite Hex. unfold fresh_id. rewrite !bind_unfold.
  unfold membership_create.
  match goal with |- context [existsb ?f ?l] => destruct (existsb f l) end.
  1:{ intros H Hs. injection H as <- <-. cbn in Hs. discriminate Hs. }
  unfold fresh_id. rewrite !bind_unfold.
  unfold approvalPolicy_create. cbn [new_policy_maxPerEmployeeMinor
    new_policy_largeExpenseThresholdMinor opt_fits].
  replace (fits_int64 100000 && fits_int64 500000)%bool with true by reflexivity.
  unfold fresh_id, ret. rewrite !bind_unfold.
  intros H Hs. injection H as <- <-.
  exists payload, d. split; [reflexivity|]. split; [exact Ed|]. split; [exact Eu|].
  cbn. auto.
Qed.

(** X21. From company creation to the first sign-in.  After a 200 of POST
    /api/company/create, the admin named in the request can sign in with
    the email and password of the request, and is signed in as ADMIN of
    the company the response names, given that the password check accepts
    a password against its own hash and that the id the new user gets is
    not already the [userId] of a membership. *)
Theorem the_new_admin_can_sign_in
  (bcrypt_hash : string -> nat -> string) (compare : string -> string -> bool)
  (is_email : string -> bool) (request : NextRequest) (db db' : DB)
  (response : NextResponse) :
  (forall password rounds, compare password (bcrypt_hash password rounds) = true) ->
  is_email "" = false ->
  (forall m, In m (memberships db) -> membership_userId m <> cuid (S (next_id db))) ->
  company_create_POST bcrypt_hash is_email prisma_client request db = (Return response, db') ->
  status response = 200 ->
  exists payload email password u,
    json request = Return payload
    /\ prop "adminEmail" payload = JStr email
    /\ prop "adminPassword" payload = JStr password
    /\ Auth.authorize compare (Some (Credentials.mk (Some email) (Some password))) db'
       = Some u
    /\ NextAuthUser.email u = email
    /\ NextAuthUser.role u = ADMIN
    /\ JStr (NextAuthUser.companyId u) = prop "companyId" (prop "data" (body response)).
Proof.
  intros Hbcrypt Hempty Hfresh Hrun Hstatus.
  destruct (company_create_POST_created _ _ _ _ Hrun Hstatus)
    as [payload [d [Hj [Hd [Hnone [Hu [Hm Hc]]]]]]].
  assert (Hfields : prop "adminEmail" payload = JStr (adminEmail d)
                    /\ prop "adminPassword" payload = JStr (adminPassword d)
                    /\ adminEmail d <> "" /\ adminPassword d <> "").
  { unfold createCompanySchema in Hd. destruct (is_object payload); [|discriminate Hd].
    destruct (z_string 1 None (prop "companyName" payload));
      destruct (z_string 1 None (prop "adminName" payload));
      destruct (z_email is_email (prop "adminEmail" payload)) as [ae|] eqn:Ee;
      destruct (z_string 6 None (prop "adminPassword" payload)) as [ap|] eqn:Ep;
      try discriminate Hd.
    injection Hd as <-. cbn [adminEmail adminPassword].
    unfold z_email in Ee. destruct (prop "adminEmail" payload); try discriminate Ee.
    destruct (is_email s1) eqn:Eis; [|discriminate Ee]. injection Ee as ->.
    unfold z_string in Ep. destruct (prop "adminPassword" payload); try discriminate Ep.
    destruct ((6 <=? String.length s1)%nat && true) eqn:El; [|discriminate Ep].
    injection Ep as ->.
    split; [reflexivity|]. split; [reflexivity|]. split.
    - intros ->. rewrite Hempty in Eis. discriminate Eis.
    - intros ->. cbn in El. discriminate El. }
  destruct Hfields as [Hpe [Hpp [Hne Hnp]]].
  exists payload, (adminEmail d), (adminPassword d).
  eexists. split; [exact Hj|]. split; [exact Hpe|]. split; [exact Hpp|].
  unfold Auth.authorize. cbn [Credentials.email Credentials.password].
  assert (Ht : forall s, s <> "" -> if_truthy (Some s) = Some s).
  { intros [|a r] H; [contradiction H; reflexivity|reflexivity]. }
  rewrite (Ht _ Hne), (Ht _ Hnp).
  unfold prisma.findUnique. cbn [table view userModel unique_where]. rewrite Hu.
  rewrite (find_app_None _ _ _ Hnone).
  2:{ cbn. rewrite String.eqb_refl. reflexivity. }
  cbn [user_passwordHash]. rewrite Hbcrypt. cbn [negb].
  unfold Auth.memberships_of. rewrite Hm, filter_app. cbn [user_id].
  rewrite (filter_none (fun m => String.eqb (membership_userId m) (cuid (S (next_id db))))
             (memberships db)).
  2:{ intros m Hin. apply String.eqb_neq. apply Hfresh, Hin. }
  cbn [filter membership_userId app]. rewrite String.eqb_refl. cbn [hd_error].
  split; [reflexivity|]. cbn [NextAuthUser.email NextAuthUser.role NextAuthUser.companyId
                              user_email membership_role membership_companyId].
  split; [reflexivity|]. split; [reflexivity|]. symmetry. exact Hc.
Qed.

(** Acme is created in the seeded database and its admin signs in. *)
Lemma the_new_admin_can_sign_in_witness :
  exists payload email password u,
    json Seed.acme = Return payload
    /\ prop "adminEmail" payload = JStr email
    /\ prop "adminPassword" payload = JStr password
    /\ Auth.authorize (fun password hash => String.eqb hash (Seed.plain_hash password 12))
         (Some (Credentials.mk (Some email) (Some password)))
         (snd (company_create_POST Seed.plain_hash emailRegex prisma_client Seed.acme
                 Seed.db))
       = Some u
    /\ NextAuthUser.email u = email
    /\ NextAuthUser.role u = ADMIN
    /\ JStr (NextAuthUser.companyId u) = JStr (cuid 13).
Proof.
  apply (@the_new_admin_can_sign_in Seed.plain_hash
           (fun password hash => String.eqb hash (Seed.plain_hash password 12))
           emailRegex Seed.acme Seed.db
           (snd (company_create_POST Seed.plain_hash emailRegex prisma_client Seed.acme
                   Seed.db))
           (mkResponse 200
              (JObj [("success", JBool true);
                     ("data", JObj [("companyId", JStr (cuid 13));
                                    ("companyName", JStr "Acme");
                                    ("adminEmail", JStr "admin@acme.com");
                                    ("message", JStr "Company created successfully")])]))).
  - intros password rounds. apply String.eqb_refl.
  - reflexivity.
  - intros m [<-|[<-|[<-|[]]]]; vm_compute; discriminate.
  - vm_compute. reflexivity.
  - reflexivity.
Defined.
